(** * Release script of the Export Layers plug-in: a shallow embedding

    This development embeds [utils/make_release.py] and states the
    properties of its release sequence, of its dry-run mode and of its
    rollback.  The script is Python 2 code: text is a sequence of
    characters, a failing call raises an exception, and every step reads
    and writes one shared world (two git repositories, a few files, the
    network, the terminal).

    Layout: text and regular expressions first, then the world and the
    effect monad, then the script function by function in the order of the
    source, then the theorems. *)

From Stdlib Require Import String Ascii List Bool ZArith PeanoNat Lia.
Import ListNotations.
Open Scope string_scope.

(** ** Text *)

Module Text.

Definition LF : ascii := "010"%char.
Definition newline : string := String LF "".
Definition backslash : ascii := "\"%char.
Definition dquote : ascii := "034"%char.
Definition quoted (s : string) : string := String dquote (s ++ String dquote "").

(** [s.startswith(p)], returning what follows the prefix. *)
Fixpoint strip_prefix (p s : string) : option string :=
  match p with
  | "" => Some s
  | String a p' =>
      match s with
      | "" => None
      | String b s' => if Ascii.eqb a b then strip_prefix p' s' else None
      end
  end.

(** The longest prefix without a line feed, and the rest: what [.*]
    (and [.*?] when a line feed must follow) can consume. *)
Fixpoint span_line (s : string) : string * string :=
  match s with
  | "" => ("", "")
  | String c r =>
      if Ascii.eqb c LF then ("", s)
      else let (l, t) := span_line r in (String c l, t)
  end.

(** The number of leading ['='] characters, and the rest. *)
Fixpoint span_equals (s : string) : nat * string :=
  match s with
  | String "=" r => let (n, t) := span_equals r in (S n, t)
  | _ => (0, s)
  end.

Fixpoint repeat_char (c : ascii) (n : nat) : string :=
  match n with
  | 0 => ""
  | S k => String c (repeat_char c k)
  end.

Fixpoint contains_char (c : ascii) (s : string) : bool :=
  match s with
  | "" => false
  | String a r => Ascii.eqb a c || contains_char c r
  end.

Fixpoint last_char (s : string) : option ascii :=
  match s with
  | "" => None
  | String c "" => Some c
  | String _ r => last_char r
  end.

(** [s[:-1]] *)
Fixpoint drop_last (s : string) : string :=
  match s with
  | "" => ""
  | String _ "" => ""
  | String c r => String c (drop_last r)
  end.

(** Python's [unicode.isspace] on the characters below 256. *)
Definition is_space (c : ascii) : bool :=
  let n := nat_of_ascii c in
  (((9 <=? n) && (n <=? 13)) || ((28 <=? n) && (n <=? 32))
   || (n =? 133) || (n =? 160))%nat.

Fixpoint lstrip (s : string) : string :=
  match s with
  | String c r => if is_space c then lstrip r else s
  | "" => ""
  end.

Fixpoint rstrip (s : string) : string :=
  match s with
  | "" => ""
  | String c r =>
      match rstrip r with
      | "" => if is_space c then "" else String c ""
      | r' => String c r'
      end
  end.

(** [s.strip()] *)
Definition strip (s : string) : string := rstrip (lstrip s).

Fixpoint lstrip_char (c : ascii) (s : string) : string :=
  match s with
  | String a r => if Ascii.eqb a c then lstrip_char c r else s
  | "" => ""
  end.

Fixpoint rstrip_char (c : ascii) (s : string) : string :=
  match s with
  | "" => ""
  | String a r =>
      match rstrip_char c r with
      | "" => if Ascii.eqb a c then "" else String a ""
      | r' => String a r'
      end
  end.

(** [s.strip("\n")] *)
Definition strip_newlines (s : string) : string :=
  rstrip_char LF (lstrip_char LF s).

(** [s.split("\n")]: always at least one field. *)
Fixpoint split_newline (s : string) : list string :=
  match s with
  | "" => [""]
  | String c r =>
      if Ascii.eqb c LF then "" :: split_newline r
      else match split_newline r with
           | f :: fs => String c f :: fs
           | [] => [String c ""]
           end
  end.

(** [file.readlines()]: the lines with their terminators. *)
Fixpoint readlines (s : string) : list string :=
  match s with
  | "" => []
  | String c r =>
      if Ascii.eqb c LF then newline :: readlines r
      else match readlines r with
           | l :: ls => String c l :: ls
           | [] => [String c ""]
           end
  end.

(** [", ".join(l)] and friends *)
Definition join (sep : string) (l : list string) : string := String.concat sep l.

Definition lower_char (c : ascii) : ascii :=
  let n := nat_of_ascii c in
  if ((65 <=? n) && (n <=? 90))%nat then ascii_of_nat (n + 32) else c.

Fixpoint lower (s : string) : string :=
  match s with
  | "" => ""
  | String c r => String (lower_char c) (lower r)
  end.

Definition mem (x : string) (l : list string) : bool := existsb (String.eqb x) l.

(** [distutils.util.strtobool]: [Some true], [Some false], or [None]
    for the [ValueError]. *)
Definition strtobool (val : string) : option bool :=
  let v := lower val in
  if mem v ["y"; "yes"; "t"; "true"; "on"; "1"] then Some true
  else if mem v ["n"; "no"; "f"; "false"; "off"; "0"] then Some false
  else None.

(** [os.path.splitext(name)[1]] for a name without directory separators:
    the text from the last dot on, unless only dots precede that dot. *)
Fixpoint ext_from_last_dot (s : string) : option string :=
  match s with
  | "" => None
  | String c r =>
      match ext_from_last_dot r with
      | Some e => Some e
      | None => if Ascii.eqb c "." then Some s else None
      end
  end.

Definition splitext_ext (name : string) : string :=
  match ext_from_last_dot (lstrip_char "." name) with
  | Some e => e
  | None => ""
  end.

End Text.

(** ** Regular expressions of the script

    Each pattern of the source is written as a matcher anchored at the
    start of its argument; [search] slides it over the subject from left
    to right as [re.search] does, and [sub_first] is [re.sub] with
    [count=1]. *)

Module Re.
Import Text.

(** Leftmost match: the text before it and the matcher's result. *)
Fixpoint search {A : Type} (m : string -> option A) (s : string)
  : option (string * A) :=
  match m s with
  | Some a => Some ("", a)
  | None =>
      match s with
      | "" => None
      | String c r =>
          match search m r with
          | Some (pre, a) => Some (String c pre, a)
          | None => None
          end
      end
  end.

(** The replacement templates of the source contain three escapes:
    [\n], [\\] and [\1].  Python 2 keeps an unknown escape as it is;
    [\g<..>], octal escapes and two-digit group references do not occur in
    the script's templates and are kept as text here. *)
Fixpoint expand_template (group1 : string) (t : string) : string :=
  match t with
  | "" => ""
  | String c r =>
      if Ascii.eqb c backslash then
        match r with
        | String "n" r' => String LF (expand_template group1 r')
        | String "\" r' => String backslash (expand_template group1 r')
        | String "1" r' => group1 ++ expand_template group1 r'
        | _ => String c (expand_template group1 r)
        end
      else String c (expand_template group1 r)
  end.

(** [re.sub(pattern, template, s, count=1)]; the matcher returns the first
    group and the text after the match. *)
Definition sub_first (m : string -> option (string * string))
  (template : string) (s : string) : string :=
  match search m s with
  | Some (pre, (g1, rest)) => pre ++ expand_template g1 template ++ rest
  | None => s
  end.

(** First alternative of [first_level_header_pattern]: a hash, a space, a
    lazy group and a line feed; the group stops at the first line feed.
    Result: the title and the text after the match. *)
Definition match_hash_header (s : string) : option (string * string) :=
  match strip_prefix "# " s with
  | Some r =>
      match span_line r with
      | (title, String _ rest) => Some (title, rest)
      | _ => None
      end
  | None => None
  end.

(** Second alternative: a lazy group, a line feed, one or more ['='] and a
    line feed. *)
Definition match_underlined_header (s : string) : option (string * string) :=
  match span_line s with
  | (title, String _ r1) =>
      match span_equals r1 with
      | (S _, String c rest) => if Ascii.eqb c LF then Some (title, rest) else None
      | _ => None
      end
  | _ => None
  end.

(** [first_level_header_pattern], the first alternative tried first at
    each position: groups 2 and 3 of the match object. *)
Definition match_first_level_header (s : string)
  : option (option string * option string) :=
  match match_hash_header s with
  | Some (t, _) => Some (Some t, None)
  | None =>
      match match_underlined_header s with
      | Some (t, _) => Some (None, Some t)
      | None => None
      end
  end.

(** [get_entry_pattern(name)], used without [re.MULTILINE]: group 1 is
    [c.NAME = ] with the escaped, hence literal, name; then a quoted greedy
    group that cannot cross a line feed; then [$], which holds at the end
    of the text or before a final line feed.  Result: group 1 and the text
    after the match (empty, or the final line feed). *)
Definition match_entry (name : string) (s : string) : option (string * string) :=
  let g1 := "c." ++ name ++ " = " in
  match strip_prefix g1 s with
  | Some (String q r) =>
      let (body, tail) := span_line r in
      if Ascii.eqb q dquote
         && (String.eqb tail "" || String.eqb tail newline)
         && match last_char body with
            | Some c => Ascii.eqb c dquote
            | None => false
            end
      then Some (g1, tail)
      else None
  | _ => None
  end.

(** [re.search(get_entry_pattern(name), line)] is truthy. The pattern is
    anchored by [^], so only position 0 can match. *)
Definition entry_matches (name line : string) : bool :=
  match match_entry name line with Some _ => true | None => false end.

(** [re.sub(get_entry_pattern(name), template, line)]: one match at most. *)
Definition sub_entry (name template line : string) : string :=
  match match_entry name line with
  | Some (g1, rest) => expand_template g1 template ++ rest
  | None => line
  end.

(** The pattern applied to [upload_url], replaced by its group 1: the
    text before the last opening brace of the first line, when that line is
    the whole text (a final line feed apart). *)
Fixpoint before_last_brace (s : string) : option string :=
  match s with
  | "" => None
  | String c r =>
      match before_last_brace r with
      | Some p => Some (String c p)
      | None => if Ascii.eqb c "{" then Some "" else None
      end
  end.

Definition strip_url_template (url : string) : string :=
  let (line, tail) := span_line url in
  if String.eqb tail "" || String.eqb tail newline then
    match before_last_brace line with
    | Some p => p ++ tail
    | None => url
    end
  else url.

End Re.

Import Text Re.

(** ** Exceptions and outcomes *)

(** The exceptions the script can meet. [SystemExit] is the only one that
    is not a subclass of [Exception]. *)
Inductive exn : Type :=
| SystemExit (status : Z)
| GitCommandError
| TypeError
| IOError
| OSError
| EOFError
| KeyError
| RequestException
| InstallerError.

(** [isinstance(e, Exception)] *)
Definition is_Exception (e : exn) : bool :=
  match e with
  | SystemExit _ => false
  | _ => true
  end.

(** How a call ends. [Interrupted] stands for the delivery of SIGINT. The
    handler that [make_release] installs runs at the point of delivery,
    and what it raises is raised there; [run_release] runs the body of the
    handler on the state of the point of delivery, inside the [try] block
    when the signal came inside it. Before the handler is installed,
    [Interrupted] is the [KeyboardInterrupt] that ends the process. *)
Inductive outcome (A : Type) : Type :=
| Returned (a : A)
| Raised (e : exn)
| Interrupted.
Arguments Returned {A} a.
Arguments Raised {A} e.
Arguments Interrupted {A}.

(** The exit status of the process. An uncaught exception other than
    [SystemExit] ends the interpreter with status 1. *)
Definition exit_status {A : Type} (o : outcome A) : Z :=
  match o with
  | Returned _ => 0
  | Raised (SystemExit n) => n
  | Raised _ => 1
  | Interrupted => 1
  end%Z.

(** ** The world *)

(** [os.path.join] *)
Definition path_join (a b : string) : string := a ++ "/" ++ b.

(** Paths are written relative to the directory of the plug-ins. The
    output directory of the installers is a constant of
    [utils/make_installers.py], which names it; its value plays no role. *)
Definition GITHUB_PAGE_DIRPATH : string := path_join "docs" "gh-pages".
Definition VERSION_STRING_FORMAT : string := "major.minor[.patch[-prerelease[.patch]]]".
Definition PLUGIN_CONFIG_FILEPATH : string := path_join "export_layers" "config.py".
Definition CHANGELOG_FILEPATH : string := "CHANGELOG.md".
Definition INSTALLERS_OUTPUT_DIRPATH : string := path_join "installers" "output".

(** Association lists for files and directories. *)
Fixpoint lookup {V : Type} (k : string) (l : list (string * V)) : option V :=
  match l with
  | [] => None
  | (k', v) :: t => if String.eqb k k' then Some v else lookup k t
  end.

Definition delete {V : Type} (k : string) (l : list (string * V))
  : list (string * V) :=
  filter (fun kv => negb (String.eqb k (fst kv))) l.

Definition insert {V : Type} (k : string) (v : V) (l : list (string * V))
  : list (string * V) :=
  (k, v) :: delete k l.

(** A directory: its files with their contents and its subdirectories,
    each list in the order of the listing of the directory. *)
#[local] Unset Elimination Schemes.
Inductive directory : Type :=
| Dir (files_ : list (string * string)) (subdirs : list (string * directory)).
#[local] Set Elimination Schemes.

(** [os.walk(top)], top down: one turn for the directory, with its path
    and its files, then the turns of its subdirectories one after the
    other. *)
Fixpoint walk_tree (root : string) (d : directory)
  : list (string * list (string * string)) :=
  match d with
  | Dir files_ subdirs =>
      (root, files_)
      :: (fix walk_subdirs (l : list (string * directory)) :=
            match l with
            | [] => []
            | (name, sub) :: t =>
                (walk_tree (path_join root name) sub ++ walk_subdirs t)%list
            end) subdirs
  end.

(** What git compares: two lists of files hold the same files, two
    directories the same files and the same subdirectories, whatever the
    order of the listing. Names are taken to be distinct in a listing. *)
Definition same_files (a b : list (string * string)) : bool :=
  Nat.eqb (length a) (length b)
  && forallb (fun f => match lookup (fst f) b with
                       | Some contents => String.eqb (snd f) contents
                       | None => false
                       end) a.

Fixpoint same_directory (a b : directory) : bool :=
  match a, b with
  | Dir files_a subdirs_a, Dir files_b subdirs_b =>
      same_files files_a files_b
      && Nat.eqb (length subdirs_a) (length subdirs_b)
      && (fix same_subdirs (l : list (string * directory)) : bool :=
            match l with
            | [] => true
            | (name, sub) :: t =>
                match lookup name subdirs_b with
                | Some sub' => same_directory sub sub'
                | None => false
                end && same_subdirs t
            end) subdirs_a
  end.

Inductive repo_id : Type := MainRepo | PagesRepo.

(** Of the two working trees the world holds what the script writes
    before it commits: the changelog and the configuration file in the main
    repository, the directories [images] and [sections] in the repository
    of the pages. *)
Definition tracked_files (r : repo_id) : list string :=
  match r with
  | MainRepo => [CHANGELOG_FILEPATH; PLUGIN_CONFIG_FILEPATH]
  | PagesRepo => []
  end.

Definition tracked_dirs (r : repo_id) : list string :=
  match r with
  | MainRepo => []
  | PagesRepo => [path_join GITHUB_PAGE_DIRPATH "images";
                  path_join GITHUB_PAGE_DIRPATH "sections"]
  end.

(** The entries of [l] at the given paths. *)
Definition restrict {V : Type} (paths : list string) (l : list (string * V))
  : list (string * V) :=
  flat_map (fun p => match lookup p l with
                     | Some v => [(p, v)]
                     | None => []
                     end) paths.

(** The git invocations of the script, one constructor per argument shape;
    [argv] gives the command line. GitPython drops [None] arguments. *)
Inductive git_cmd : Type :=
| RevParseHead
| StatusPorcelain
| TagList (pattern : option string)
| TagAnnotated (name : option string) (message : string)
| TagDelete (name : option string)
| AddAll
| CommitMessage (message : string)
| CommitAmendNoEdit
| Push (remote : string) (refspec : option string)
| ResetHard (commit : string).

Definition opt_arg (o : option string) : list string :=
  match o with Some x => [x] | None => [] end.

Definition argv (c : git_cmd) : list string :=
  match c with
  | RevParseHead => ["rev-parse"; "HEAD"]
  | StatusPorcelain => ["status"; "--porcelain"]
  | TagList p => ["tag"; "-l"] ++ opt_arg p
  | TagAnnotated n m => ["tag"; "-a"] ++ opt_arg n ++ ["-m"; m]
  | TagDelete n => ["tag"; "-d"] ++ opt_arg n
  | AddAll => ["add"; "--all"]
  | CommitMessage m => ["commit"; "-m"; m]
  | CommitAmendNoEdit => ["commit"; "--amend"; "--no-edit"]
  | Push r b => ["push"; r] ++ opt_arg b
  | ResetHard c => ["reset"; "--hard"; c]
  end.

(** Commands that only read the repository. *)
Definition git_query (c : git_cmd) : bool :=
  match c with
  | RevParseHead | StatusPorcelain | TagList _ => true
  | _ => false
  end.

(** A repository. [status_porcelain] is the status of the working tree
    when the script starts (the script asks for it before it writes
    anything) and after a commit or a reset; [committed] holds the tracked
    files and directories, under their paths, as the commit of HEAD has
    them. *)
Record repo : Type := mkRepo {
  tags : list string;
  head : string;                       (* commit id of HEAD *)
  branch : option string;              (* [None]: detached HEAD *)
  status_porcelain : string;           (* output of [status --porcelain] *)
  pushed : list (string * option string);
  committed : directory
}.

Definition remove_string (x : string) (l : list string) : list string :=
  filter (fun y => negb (String.eqb x y)) l.

(** A small model of git: the output and the new repository, or [None]
    for a non-zero exit; [worktree] holds the tracked files and
    directories as they are now. Tag patterns are taken as plain names.
    The index is not modelled: a commit records the working tree, as it
    does after [add --all], which the script runs before each commit.
    [commit -m] fails when there is nothing to commit: the status was
    empty and nothing tracked differs from the commit of HEAD. Local
    changes that were there at the start are taken to be there still.
    [commit --amend] commits with nothing new to commit too. A reset moves
    HEAD; the files of the world are not restored and the tree recorded
    for HEAD is kept, the script ending after its resets. *)
Definition nothing_to_commit (r : repo) (worktree : directory) : bool :=
  String.eqb (status_porcelain r) "" && same_directory (committed r) worktree.

Definition git_exec (c : git_cmd) (r : repo) (worktree : directory)
  : option (string * repo) :=
  match c with
  | RevParseHead => Some (head r, r)
  | StatusPorcelain => Some (status_porcelain r, r)
  | TagList None => Some (join newline (tags r), r)
  | TagList (Some n) => Some (if mem n (tags r) then n else "", r)
  | TagAnnotated (Some n) _ =>
      if mem n (tags r) then None
      else Some ("", mkRepo (n :: tags r) (head r) (branch r)
                            (status_porcelain r) (pushed r) (committed r))
  | TagAnnotated None _ => None
  | TagDelete (Some n) =>
      if mem n (tags r)
      then Some ("Deleted tag '" ++ n ++ "'",
                 mkRepo (remove_string n (tags r)) (head r) (branch r)
                        (status_porcelain r) (pushed r) (committed r))
      else None
  | TagDelete None => None
  | AddAll => Some ("", r)
  | CommitMessage m =>
      if nothing_to_commit r worktree then None
      else Some ("", mkRepo (tags r) ("commit(" ++ m ++ ")^" ++ head r) (branch r)
                            "" (pushed r) worktree)
  | CommitAmendNoEdit =>
      Some ("", mkRepo (tags r) ("amended:" ++ head r) (branch r) "" (pushed r)
                       worktree)
  | Push remote refspec =>
      Some ("", mkRepo (tags r) (head r) (branch r) (status_porcelain r)
                       ((remote, refspec) :: pushed r) (committed r))
  | ResetHard c =>
      Some ("", mkRepo (tags r) c (branch r) "" (pushed r) (committed r))
  end.

(** The body of a POST request: [json.dumps] of a dictionary whose values
    are strings or [None], kept as its items, or raw bytes. *)
Inductive post_body : Type :=
| JsonBody (items : list (string * option string))
| RawBody (bytes : string).

Record response : Type := mkResponse {
  status_ok : bool;                    (* the status is below 400 *)
  json_upload_url : option string      (* [response.json()] at "upload_url" *)
}.

(** What the script does to the outside, in order. *)
Inductive event : Type :=
| EvGit (r : repo_id) (c : git_cmd)
| EvActiveBranch (r : repo_id)
| EvRead (path : string)
| EvWrite (path : string) (contents : string)
| EvIsDir (path : string)
| EvRmTree (path : string)
| EvCopyTree (src dst : string)
| EvWalk (path : string)
| EvMakeInstallers (force_if_dirty : bool) (installers : list string)
| EvPost (url : string) (headers : list (string * string)) (body : post_body)
         (params : list (string * string))
| EvInput (prompt : string).

(** Events that change nothing outside the process. *)
Definition is_query (e : event) : bool :=
  match e with
  | EvGit _ c => git_query c
  | EvActiveBranch _ | EvRead _ | EvIsDir _ | EvWalk _ | EvInput _ => true
  | _ => false
  end.

(** [_ReleaseMetadata]: the two assignable attributes, the two checkpoints
    and the keyword arguments of [make_release] and of [main]. *)
Record ReleaseMetadata : Type := mkReleaseMetadata {
  new_version : option string;
  new_version_release_notes : string;
  last_commit_id_before_release : string;
  last_gh_pages_commit_id_before_release : string;
  current_version : option string;
  released_versions : list string;
  username : string;
  remote_repo_name : string;
  release_type : string;
  github_access_token : string;
  force : bool;
  installers : list string;
  dry_run : bool;
  prerelease : option string;
  remote_name : string;
  remote_branch : string;
  interactive : bool
}.

(** [release_tag] is a property that returns [new_version]. *)
Definition release_tag (rm : ReleaseMetadata) : option string := new_version rm.

Record state : Type := mkState {
  release_metadata : ReleaseMetadata;
  PLUGIN_VERSION : option string;            (* [pg.config] *)
  PLUGIN_VERSION_RELEASE_DATE : string;
  main_repo : repo;
  pages_repo : repo;
  files : list (string * string);            (* text files by path *)
  dirs : list (string * directory);          (* directory trees by path *)
  stdin : list string;
  stdout : list string;
  stderr : list string;
  replies : list response;                   (* what the server will answer *)
  built : directory;                         (* what the builder will write *)
  today : string;                            (* [time.strftime] of [gmtime] *)
  trace : list event;
  clock : nat;                               (* outside actions so far *)
  faults : list nat;                         (* clock values of failing actions *)
  sigint_at : option nat                     (* clock value at which SIGINT comes *)
}.

(** Field updates of [state]. *)
Definition set_release_metadata (x : ReleaseMetadata) (s : state) : state :=
  mkState x (PLUGIN_VERSION s) (PLUGIN_VERSION_RELEASE_DATE s) (main_repo s)
    (pages_repo s) (files s) (dirs s) (stdin s) (stdout s) (stderr s)
    (replies s) (built s) (today s) (trace s) (clock s) (faults s)
    (sigint_at s).

Definition set_PLUGIN_VERSION (x : option string) (s : state) : state :=
  mkState (release_metadata s) x (PLUGIN_VERSION_RELEASE_DATE s)
    (main_repo s) (pages_repo s) (files s) (dirs s) (stdin s) (stdout s)
    (stderr s) (replies s) (built s) (today s) (trace s) (clock s)
    (faults s) (sigint_at s).

Definition set_PLUGIN_VERSION_RELEASE_DATE (x : string) (s : state) : state :=
  mkState (release_metadata s) (PLUGIN_VERSION s) x (main_repo s)
    (pages_repo s) (files s) (dirs s) (stdin s) (stdout s) (stderr s)
    (replies s) (built s) (today s) (trace s) (clock s) (faults s)
    (sigint_at s).

Definition set_main_repo (x : repo) (s : state) : state :=
  mkState (release_metadata s) (PLUGIN_VERSION s)
    (PLUGIN_VERSION_RELEASE_DATE s) x (pages_repo s) (files s) (dirs s)
    (stdin s) (stdout s) (stderr s) (replies s) (built s) (today s)
    (trace s) (clock s) (faults s) (sigint_at s).

Definition set_pages_repo (x : repo) (s : state) : state :=
  mkState (release_metadata s) (PLUGIN_VERSION s)
    (PLUGIN_VERSION_RELEASE_DATE s) (main_repo s) x (files s) (dirs s)
    (stdin s) (stdout s) (stderr s) (replies s) (built s) (today s)
    (trace s) (clock s) (faults s) (sigint_at s).

Definition set_files (x : list (string * string)) (s : state) : state :=
  mkState (release_metadata s) (PLUGIN_VERSION s)
    (PLUGIN_VERSION_RELEASE_DATE s) (main_repo s) (pages_repo s) x (dirs s)
    (stdin s) (stdout s) (stderr s) (replies s) (built s) (today s)
    (trace s) (clock s) (faults s) (sigint_at s).

Definition set_dirs (x : list (string * directory)) (s : state) : state :=
  mkState (release_metadata s) (PLUGIN_VERSION s)
    (PLUGIN_VERSION_RELEASE_DATE s) (main_repo s) (pages_repo s) (files s) x
    (stdin s) (stdout s) (stderr s) (replies s) (built s) (today s)
    (trace s) (clock s) (faults s) (sigint_at s).

Definition set_stdin (x : list string) (s : state) : state :=
  mkState (release_metadata s) (PLUGIN_VERSION s)
    (PLUGIN_VERSION_RELEASE_DATE s) (main_repo s) (pages_repo s) (files s)
    (dirs s) x (stdout s) (stderr s) (replies s) (built s) (today s)
    (trace s) (clock s) (faults s) (sigint_at s).

Definition set_stdout (x : list string) (s : state) : state :=
  mkState (release_metadata s) (PLUGIN_VERSION s)
    (PLUGIN_VERSION_RELEASE_DATE s) (main_repo s) (pages_repo s) (files s)
    (dirs s) (stdin s) x (stderr s) (replies s) (built s) (today s)
    (trace s) (clock s) (faults s) (sigint_at s).

Definition set_stderr (x : list string) (s : state) : state :=
  mkState (release_metadata s) (PLUGIN_VERSION s)
    (PLUGIN_VERSION_RELEASE_DATE s) (main_repo s) (pages_repo s) (files s)
    (dirs s) (stdin s) (stdout s) x (replies s) (built s) (today s)
    (trace s) (clock s) (faults s) (sigint_at s).

Definition set_replies (x : list response) (s : state) : state :=
  mkState (release_metadata s) (PLUGIN_VERSION s)
    (PLUGIN_VERSION_RELEASE_DATE s) (main_repo s) (pages_repo s) (files s)
    (dirs s) (stdin s) (stdout s) (stderr s) x (built s) (today s) (trace s)
    (clock s) (faults s) (sigint_at s).

Definition set_trace (x : list event) (s : state) : state :=
  mkState (release_metadata s) (PLUGIN_VERSION s)
    (PLUGIN_VERSION_RELEASE_DATE s) (main_repo s) (pages_repo s) (files s)
    (dirs s) (stdin s) (stdout s) (stderr s) (replies s) (built s) (today s)
    x (clock s) (faults s) (sigint_at s).

Definition set_clock (x : nat) (s : state) : state :=
  mkState (release_metadata s) (PLUGIN_VERSION s)
    (PLUGIN_VERSION_RELEASE_DATE s) (main_repo s) (pages_repo s) (files s)
    (dirs s) (stdin s) (stdout s) (stderr s) (replies s) (built s) (today s)
    (trace s) x (faults s) (sigint_at s).

Definition set_sigint_at (x : option nat) (s : state) : state :=
  mkState (release_metadata s) (PLUGIN_VERSION s)
    (PLUGIN_VERSION_RELEASE_DATE s) (main_repo s) (pages_repo s) (files s)
    (dirs s) (stdin s) (stdout s) (stderr s) (replies s) (built s) (today s)
    (trace s) (clock s) (faults s) x.

Definition with_new_version (x : option string) (rm : ReleaseMetadata)
  : ReleaseMetadata :=
  mkReleaseMetadata x (new_version_release_notes rm)
    (last_commit_id_before_release rm)
    (last_gh_pages_commit_id_before_release rm) (current_version rm)
    (released_versions rm) (username rm) (remote_repo_name rm)
    (release_type rm) (github_access_token rm) (force rm) (installers rm)
    (dry_run rm) (prerelease rm) (remote_name rm) (remote_branch rm)
    (interactive rm).

Definition with_new_version_release_notes (x : string) (rm : ReleaseMetadata)
  : ReleaseMetadata :=
  mkReleaseMetadata (new_version rm) x (last_commit_id_before_release rm)
    (last_gh_pages_commit_id_before_release rm) (current_version rm)
    (released_versions rm) (username rm) (remote_repo_name rm)
    (release_type rm) (github_access_token rm) (force rm) (installers rm)
    (dry_run rm) (prerelease rm) (remote_name rm) (remote_branch rm)
    (interactive rm).

Definition get_repo (r : repo_id) (s : state) : repo :=
  match r with MainRepo => main_repo s | PagesRepo => pages_repo s end.

Definition set_repo (r : repo_id) (x : repo) (s : state) : state :=
  match r with MainRepo => set_main_repo x s | PagesRepo => set_pages_repo x s end.

(** The tracked part of the working tree of a repository, as a
    directory: the tracked files and directories under their paths. *)
Definition worktree (r : repo_id) (s : state) : directory :=
  Dir (restrict (tracked_files r) (files s)) (restrict (tracked_dirs r) (dirs s)).

(** ** The effect monad: state, exceptions, interruption *)

Definition M (A : Type) : Type := state -> outcome A * state.

Definition ret {A : Type} (a : A) : M A := fun s => (Returned a, s).

Definition bind {A B : Type} (m : M A) (k : A -> M B) : M B :=
  fun s =>
    match m s with
    | (Returned a, s') => k a s'
    | (Raised e, s') => (Raised e, s')
    | (Interrupted, s') => (Interrupted, s')
    end.

Declare Scope script_scope.
Delimit Scope script_scope with script.
Notation "x <- m ;; k" := (bind m (fun x => k))
  (at level 61, m at next level, right associativity) : script_scope.
Notation "m ;; k" := (bind m (fun _ => k))
  (at level 61, right associativity) : script_scope.
Open Scope script_scope.

Definition raise {A : Type} (e : exn) : M A := fun s => (Raised e, s).

(** [try: m  except <class>: h], the class given by [handles]. *)
Definition try_except {A : Type} (m : M A) (handles : exn -> bool) (h : M A)
  : M A :=
  fun s =>
    match m s with
    | (Raised e, s') => if handles e then h s' else (Raised e, s')
    | r => r
    end.

(** [try: m  except Exception: h(e)] *)
Definition except_Exception {A : Type} (m : M A) (h : exn -> M A) : M A :=
  fun s =>
    match m s with
    | (Raised e, s') => if is_Exception e then h e s' else (Raised e, s')
    | r => r
    end.

(** [m] under a handler for SIGINT. The handler runs on the state of the
    point of delivery, and its outcome is that of [m]; one signal is
    modelled, so none is pending while the handler runs. *)
Definition under_sigint_handler {A : Type} (handler : M A) (m : M A)
  (disarm : state -> state) : M A :=
  fun s =>
    match m s with
    | (Interrupted, s') => handler (disarm s')
    | r => r
    end.

Definition get_rm : M ReleaseMetadata := fun s => (Returned (release_metadata s), s).

Definition modify (f : state -> state) : M unit := fun s => (Returned tt, f s).

(** [if release_metadata.dry_run: return], followed by the rest of the
    function. *)
Definition unless_dry_run (rest : M unit) : M unit :=
  fun s => if dry_run (release_metadata s) then (Returned tt, s) else rest s.

(** An action on the outside. SIGINT, when due, comes before the action;
    otherwise the action is logged, and fails with [err] when the world
    says so ([err] is [None] for an action that cannot fail). *)
Definition fault_due (s : state) : bool := existsb (Nat.eqb (clock s)) (faults s).

Definition sigint_due (s : state) : bool :=
  match sigint_at s with
  | Some n => Nat.eqb n (clock s)
  | None => false
  end.

Definition logged (ev : event) (s : state) : state :=
  set_trace (trace s ++ [ev]) (set_clock (S (clock s)) s).

Definition outside {A : Type} (ev : event) (err : option exn) (act : M A) : M A :=
  fun s =>
    if sigint_due s then (Interrupted, s)
    else
      match err with
      | Some e => if fault_due s then (Raised e, logged ev s) else act (logged ev s)
      | None => act (logged ev s)
      end.

(** [print(...)] and [print(..., file=sys.stderr)] *)
Definition print (line : string) : M unit :=
  modify (fun s => set_stdout (stdout s ++ [line]) s).

Definition _print_error (message : string) : M unit :=
  modify (fun s => set_stderr (stderr s ++ [message]) s).

Definition sys_exit {A : Type} (status : Z) : M A := raise (SystemExit status).

Definition _print_error_and_exit {A : Type} (message : string) (exit_status : Z)
  : M A :=
  _print_error message ;; sys_exit exit_status.

(** [repo.git.<command>(...)] *)
Definition git (r : repo_id) (c : git_cmd) : M string :=
  outside (EvGit r c) (Some GitCommandError)
    (fun s =>
       match git_exec c (get_repo r s) (worktree r s) with
       | Some (out, r') => (Returned out, set_repo r r' s)
       | None => (Raised GitCommandError, s)
       end).

(** [repo.active_branch.name]; GitPython raises [TypeError] on a detached
    HEAD. *)
Definition active_branch_name (r : repo_id) : M string :=
  outside (EvActiveBranch r) None
    (fun s =>
       match branch (get_repo r s) with
       | Some b => (Returned b, s)
       | None => (Raised TypeError, s)
       end).

(** [io.open(path, "r").read()] and [io.open(path, "w").write(text)] *)
Definition read_file (path : string) : M string :=
  outside (EvRead path) (Some IOError)
    (fun s =>
       match lookup path (files s) with
       | Some text => (Returned text, s)
       | None => (Raised IOError, s)
       end).

Definition write_file (path text : string) : M unit :=
  outside (EvWrite path text) (Some IOError)
    (modify (fun s => set_files (insert path text (files s)) s)).

(** [os.path.isdir], [shutil.rmtree], [shutil.copytree], [os.walk]. The
    walk is a generator; the model lists the whole tree when the loop
    starts, and a directory that is missing gives no turn. *)
Definition isdir (path : string) : M bool :=
  outside (EvIsDir path) None
    (fun s => (Returned (match lookup path (dirs s) with
                         | Some _ => true | None => false end), s)).

Definition rmtree (path : string) : M unit :=
  outside (EvRmTree path) (Some OSError)
    (fun s =>
       match lookup path (dirs s) with
       | Some _ => (Returned tt, set_dirs (delete path (dirs s)) s)
       | None => (Raised OSError, s)
       end).

Definition copytree (src dst : string) : M unit :=
  outside (EvCopyTree src dst) (Some OSError)
    (fun s =>
       match lookup src (dirs s), lookup dst (dirs s) with
       | Some d, None => (Returned tt, set_dirs (insert dst d (dirs s)) s)
       | _, _ => (Raised OSError, s)
       end).

Definition walk (path : string) : M (list (string * list (string * string))) :=
  outside (EvWalk path) None
    (fun s => (Returned (match lookup path (dirs s) with
                         | Some d => walk_tree path d | None => [] end), s)).

(** [input(prompt)] *)
Definition input (prompt : string) : M string :=
  outside (EvInput prompt) None
    (fun s =>
       match stdin s with
       | line :: rest => (Returned line, set_stdin rest s)
       | [] => (Raised EOFError, s)
       end).

(** [requests.post]: the next answer of the server, or a connection
    error. *)
Definition requests_post (url : string) (headers : list (string * string))
  (body : post_body) (params : list (string * string)) : M response :=
  outside (EvPost url headers body params) (Some RequestException)
    (fun s =>
       match replies s with
       | r :: rest => (Returned r, set_replies rest s)
       | [] => (Raised RequestException, s)
       end).

Definition raise_for_status (r : response) : M unit :=
  if status_ok r then ret tt else raise RequestException.

(** A [for] loop whose body may raise. *)
Fixpoint for_each {A : Type} (l : list A) (body : A -> M unit) : M unit :=
  match l with
  | [] => ret tt
  | x :: t => body x ;; for_each t body
  end.

(** ** The script *)

(** [str(x)] for a value that is a string or [None], as [format] prints it *)
Definition py_str (o : option string) : string :=
  match o with Some x => x | None => "None" end.

(** The truth value of a string or [None] *)
Definition truthy (o : option string) : bool :=
  match o with
  | Some x => negb (String.eqb x "")
  | None => false
  end.

(** [x not in released_versions] for a string or [None] *)
Definition not_in (o : option string) (l : list string) : bool :=
  match o with
  | Some x => negb (mem x l)
  | None => true
  end.

Definition FILE_EXTENSIONS_AND_MIME_TYPES : list (string * string) :=
  [("zip", "application/x-zip-compressed"); ("exe", "application/x-msdownload")].

Definition PROMPT_NO_EXIT_STATUS : Z := 2.

(** What the script imports from the rest of the repository: the version
    library of [pygimplib] (parse, increment in place, print), the section
    finder of [utils/preprocess_document_contents.py], and two constants
    of [pg.config]. [Version_parse] gives [None] for
    [InvalidVersionFormatError]; [Version_increment] gives [inl message]
    for [ValueError(message)]. *)
Record externals : Type := mkExternals {
  Version : Type;
  Version_parse : option string -> option Version;
  Version_increment : Version -> string -> option string -> string + Version;
  Version_str : Version -> string;
  find_section : string -> string * string;
  AUTHOR_NAME : string;
  REPOSITORY_NAME : string
}.

(** [make_installers.make_installers(force_if_dirty, installers)]: the
    builder writes its files into the output directory, or raises. *)
Definition make_installers (force_if_dirty : bool) (installers : list string)
  : M unit :=
  outside (EvMakeInstallers force_if_dirty installers) (Some InstallerError)
    (modify (fun s => set_dirs (insert INSTALLERS_OUTPUT_DIRPATH (built s) (dirs s)) s)).

(** The two patterns given to [re.sub] on the changelog have no group. *)
Definition hash_line (s : string) : option (string * string) :=
  match match_hash_header s with
  | Some (_, rest) => Some ("", rest)
  | None => None
  end.

Definition underlined_line (s : string) : option (string * string) :=
  match match_underlined_header s with
  | Some (_, rest) => Some ("", rest)
  | None => None
  end.

(** The raw string [r"\n"]: a backslash and the letter n. *)
Definition raw_n : string := String backslash "n".

(** The inner loop of the scan of the configuration file, over a snapshot
    of the entries still to find: [cur] is [lines[i]]. [None] is the
    [TypeError] of concatenating [None] into the template. *)
Fixpoint scan_line (line : string) (snapshot : list (string * option string))
  (cur : string) (to_find : list (string * option string))
  : option (string * list (string * option string)) :=
  match snapshot with
  | [] => Some (cur, to_find)
  | (entry_name, new_entry_value) :: rest =>
      if entry_matches entry_name line then
        match new_entry_value with
        | Some v =>
            scan_line line rest
              (sub_entry entry_name (String backslash "1" ++ quoted v) line)
              (delete entry_name to_find)
        | None => None
        end
      else scan_line line rest cur to_find
  end.

(** The outer loop, with its [break] once nothing is left to find. *)
Fixpoint scan_lines (lines : list string) (to_find : list (string * option string))
  : option (list string * list (string * option string)) :=
  match lines with
  | [] => Some ([], to_find)
  | line :: rest =>
      match scan_line line to_find line to_find with
      | None => None
      | Some (cur, []) => Some (cur :: rest, [])
      | Some (cur, to_find') =>
          match scan_lines rest to_find' with
          | Some (rest', remaining) => Some (cur :: rest', remaining)
          | None => None
          end
      end
  end.

Section Script.

Variable ext : externals.

Definition _has_active_branch_local_changes (r : repo_id) : M bool :=
  out <- git r StatusPorcelain ;;
  ret (negb (String.eqb out "")).

Definition _check_branches_for_local_changes : M unit :=
  rm <- get_rm ;;
  (if force rm then ret tt
   else
     changed <- _has_active_branch_local_changes MainRepo ;;
     if changed then
       _print_error_and_exit
         ("Repository contains local changes. "
          ++ "Please remove or commit changes before proceeding.") 1
     else ret tt) ;;
  changed <- _has_active_branch_local_changes PagesRepo ;;
  if changed then
    name <- active_branch_name PagesRepo ;;
    _print_error_and_exit
      ("Repository in the '" ++ name ++ "' branch contains local changes. "
       ++ "Please remove or commit changes before proceeding.") 1
  else ret tt.

Definition _check_if_tag_with_new_version_already_exists : M unit :=
  rm <- get_rm ;;
  out <- git MainRepo (TagList (new_version rm)) ;;
  if negb (String.eqb out "") then
    _print_error_and_exit
      ("Repository already contains tag '" ++ py_str (new_version rm)
       ++ "', indicating that such a version is already released.") 1
  else ret tt.

Definition _get_next_version : M string :=
  rm <- get_rm ;;
  ver <- match Version_parse ext (current_version rm) with
         | Some v => ret v
         | None =>
             _print_error_and_exit
               ("Version string '" ++ py_str (current_version rm)
                ++ "' has invalid format; valid format: " ++ VERSION_STRING_FORMAT) 1
         end ;;
  ver <- match Version_increment ext ver (release_type rm) (prerelease rm) with
         | inr v => ret v
         | inl message => _print_error_and_exit message 1
         end ;;
  print ("Current version: " ++ py_str (current_version rm)) ;;
  print ("New version: " ++ Version_str ext ver) ;;
  ret (Version_str ext ver).

Definition _prompt_to_proceed : M unit :=
  response <- input "Proceed with release? [y/n] " ;;
  let should_proceed :=
    match strtobool response with
    | Some b => b
    | None => false
    end in
  if negb should_proceed then
    _print_error_and_exit "Aborting." PROMPT_NO_EXIT_STATUS
  else ret tt.

Definition _get_release_notes_and_modify_changelog_first_header : M unit :=
  changelog_contents <- read_file CHANGELOG_FILEPATH ;;
  let (header_raw, release_notes) := find_section ext changelog_contents in
  rm <- get_rm ;;
  match search match_first_level_header header_raw with
  | Some (_, (group2, group3)) =>
      if not_in group2 (released_versions rm) && not_in group3 (released_versions rm)
      then
        modify (fun s => set_release_metadata
                  (with_new_version_release_notes (strip release_notes)
                     (release_metadata s)) s) ;;
        print ("Replacing header name '"
               ++ py_str (if truthy group2 then group2 else group3)
               ++ "' in the changelog with the new version") ;;
        unless_dry_run
          (changelog_contents <-
             (if truthy group2 then
                match new_version rm with
                | Some v =>
                    ret (sub_first hash_line ("# " ++ v ++ raw_n) changelog_contents)
                | None => raise TypeError
                end
              else if truthy group3 then
                match new_version rm with
                | Some v =>
                    ret (sub_first underlined_line
                           (v ++ raw_n ++ repeat_char "=" (String.length v) ++ newline)
                           changelog_contents)
                | None => raise TypeError
                end
              else ret changelog_contents) ;;
           write_file CHANGELOG_FILEPATH changelog_contents)
      else ret tt
  | None => ret tt
  end.

(** Lines 260 to 285: the rewrite of the entries in the configuration
    file, [entries_to_modify] being a local variable of the source. *)
Definition update_config_entries (entries_to_modify : list (string * option string))
  : M unit :=
  contents <- read_file PLUGIN_CONFIG_FILEPATH ;;
  match scan_lines (readlines contents) entries_to_modify with
  | None => raise TypeError
  | Some (lines, entries_to_find) =>
      (match entries_to_find with
       | [] => ret tt
       | _ :: _ =>
           _print_error_and_exit
             ("Error: missing the following entries in file '"
              ++ PLUGIN_CONFIG_FILEPATH ++ "': "
              ++ join ", " (map fst entries_to_find)) 1
       end) ;;
      write_file PLUGIN_CONFIG_FILEPATH (String.concat "" lines)
  end.

Definition _update_version_and_release_date_in_config : M unit :=
  rm <- get_rm ;;
  new_release_date <- (fun s => (Returned (today s), s)) ;;
  modify (set_PLUGIN_VERSION (new_version rm)) ;;
  modify (set_PLUGIN_VERSION_RELEASE_DATE new_release_date) ;;
  let entries_to_modify :=
    [("PLUGIN_VERSION", new_version rm);
     ("PLUGIN_VERSION_RELEASE_DATE", Some new_release_date)] in
  print ("Modifying the following entries in file '" ++ PLUGIN_CONFIG_FILEPATH
         ++ "': " ++ join ", " (map fst entries_to_modify)) ;;
  unless_dry_run (update_config_entries entries_to_modify).

Definition _get_release_message_header (rm : ReleaseMetadata) : string :=
  "Release " ++ py_str (new_version rm).

Definition _create_release_commit (r : repo_id) : M unit :=
  name <- active_branch_name r ;;
  print ("Creating release commit from branch '" ++ name ++ "'") ;;
  unless_dry_run
    (rm <- get_rm ;;
     git r AddAll ;;
     git r (CommitMessage (_get_release_message_header rm)) ;;
     git r AddAll ;;
     git r CommitAmendNoEdit ;;
     ret tt).

Definition _create_release_tag : M unit :=
  rm <- get_rm ;;
  print ("Creating tag '" ++ py_str (release_tag rm) ++ "'") ;;
  unless_dry_run
    (git MainRepo (TagAnnotated (new_version rm) (_get_release_message_header rm)) ;;
     ret tt).

Definition _prepare_gh_pages_for_update : M unit :=
  name <- active_branch_name PagesRepo ;;
  print ("Preparing branch '" ++ name ++ "' for update") ;;
  unless_dry_run
    (for_each ["images"; "sections"]
       (fun dirname =>
          rmtree (path_join GITHUB_PAGE_DIRPATH dirname) ;;
          copytree (path_join (path_join GITHUB_PAGE_DIRPATH "dev") dirname)
                   (path_join GITHUB_PAGE_DIRPATH dirname))).

Definition _make_installers : M unit :=
  print "Creating installers" ;;
  unless_dry_run
    (rm <- get_rm ;;
     present <- isdir INSTALLERS_OUTPUT_DIRPATH ;;
     (if present then rmtree INSTALLERS_OUTPUT_DIRPATH else ret tt) ;;
     make_installers (force rm) (installers rm)).

Definition _push_release_commit (r : repo_id) (remote_branch_arg : option string)
  : M unit :=
  rm <- get_rm ;;
  let remote_branch :=
    match remote_branch_arg with
    | None => remote_branch rm
    | Some b => b
    end in
  name <- active_branch_name r ;;
  print ("Pushing release commit from branch '" ++ name ++ "' to remote '"
         ++ remote_name rm ++ " " ++ remote_branch ++ "'") ;;
  unless_dry_run
    (name <- active_branch_name r ;;
     git r (Push (remote_name rm) (Some (name ++ ":" ++ remote_branch))) ;;
     ret tt).

Definition _push_release_tag : M unit :=
  rm <- get_rm ;;
  print ("Pushing tag '" ++ py_str (release_tag rm) ++ "' to remote '"
         ++ remote_name rm ++ "'") ;;
  unless_dry_run
    (git MainRepo (Push (remote_name rm) (release_tag rm)) ;;
     ret tt).

Definition _upload_installers_to_github (upload_url : string)
  (access_token_header : list (string * string)) : M unit :=
  trees <- walk INSTALLERS_OUTPUT_DIRPATH ;;
  for_each trees
    (fun '(root_dirpath, files_) =>
       for_each files_
         (fun '(filename, file_contents) =>
            match splitext_ext filename with
            | String _ file_extension =>
                match lookup file_extension FILE_EXTENSIONS_AND_MIME_TYPES with
                | Some mime_type =>
                    outside (EvRead (path_join root_dirpath filename)) (Some IOError)
                      (ret tt) ;;
                    let headers := (access_token_header ++ [("Content-Type", mime_type)])%list in
                    response <- requests_post upload_url headers (RawBody file_contents)
                                  [("name", filename)] ;;
                    raise_for_status response
                | None => ret tt
                end
            | "" => ret tt
            end)).

Definition _create_github_release : M unit :=
  print "Creating GitHub release" ;;
  unless_dry_run
    (rm <- get_rm ;;
     let releases_url :=
       "https://api.github.com/repos/" ++ username rm ++ "/"
       ++ remote_repo_name rm ++ "/releases" in
     let data_dict :=
       [("tag_name", release_tag rm);
        ("target_commitish", Some (remote_branch rm));
        ("name", release_tag rm);
        ("body", Some (new_version_release_notes rm))] in
     let access_token_header :=
       [("Authorization", "token " ++ github_access_token rm)] in
     response <- requests_post releases_url access_token_header (JsonBody data_dict) [] ;;
     raise_for_status response ;;
     match json_upload_url response with
     | Some url =>
         _upload_installers_to_github (strip_url_template url) access_token_header
     | None => raise KeyError
     end).

Definition _rollback : M unit :=
  unless_dry_run
    (rm <- get_rm ;;
     try_except
       (git MainRepo (TagDelete (new_version rm)) ;; ret tt)
       (fun e => match e with GitCommandError => true | _ => false end)
       (ret tt) ;;
     present <- isdir INSTALLERS_OUTPUT_DIRPATH ;;
     (if present then rmtree INSTALLERS_OUTPUT_DIRPATH else ret tt) ;;
     git MainRepo (ResetHard (last_commit_id_before_release rm)) ;;
     git PagesRepo (ResetHard (last_gh_pages_commit_id_before_release rm)) ;;
     ret tt).

Definition _make_release : M unit :=
  _check_branches_for_local_changes ;;
  name <- active_branch_name MainRepo ;;
  print ("Active branch: " ++ name) ;;
  v <- _get_next_version ;;
  modify (fun s => set_release_metadata
            (with_new_version (Some v) (release_metadata s)) s) ;;
  _check_if_tag_with_new_version_already_exists ;;
  rm <- get_rm ;;
  (if interactive rm then _prompt_to_proceed else ret tt) ;;
  _get_release_notes_and_modify_changelog_first_header ;;
  _update_version_and_release_date_in_config ;;
  _create_release_commit MainRepo ;;
  _create_release_tag ;;
  _prepare_gh_pages_for_update ;;
  _create_release_commit PagesRepo ;;
  _make_installers ;;
  _push_release_commit MainRepo None ;;
  _push_release_tag ;;
  name <- active_branch_name PagesRepo ;;
  _push_release_commit PagesRepo (Some name) ;;
  _create_github_release.

(** The text of [traceback.format_exc()], reduced to the exception. *)
Definition exn_name (e : exn) : string :=
  match e with
  | SystemExit _ => "SystemExit"
  | GitCommandError => "GitCommandError"
  | TypeError => "TypeError"
  | IOError => "IOError"
  | OSError => "OSError"
  | EOFError => "EOFError"
  | KeyError => "KeyError"
  | RequestException => "RequestException"
  | InstallerError => "InstallerError"
  end.

Definition format_exc (e : exn) : string :=
  "Traceback (most recent call last):" ++ newline ++ exn_name e ++ newline.

(** The handler that [make_release] installs for SIGINT. The model
    delivers one signal at most. *)
Definition handle_sigint : M unit :=
  _print_error (newline ++ "Performing rollback and aborting.") ;;
  _rollback ;;
  sys_exit 1.

(** [except Exception:] of [make_release] *)
Definition handle_exception (e : exn) : M unit :=
  _print_error (newline ++ "The following error has occurred:" ++ newline
                ++ format_exc e ++ newline ++ "Performing rollback and aborting.") ;;
  _rollback ;;
  sys_exit 1.

(** The part of [_rollback] that follows the deletion of the tag. *)
Definition rollback_after_tag_deletion (rm : ReleaseMetadata) : M unit :=
  present <- isdir INSTALLERS_OUTPUT_DIRPATH ;;
  (if present then rmtree INSTALLERS_OUTPUT_DIRPATH else ret tt) ;;
  git MainRepo (ResetHard (last_commit_id_before_release rm)) ;;
  git PagesRepo (ResetHard (last_gh_pages_commit_id_before_release rm)) ;;
  ret tt.

(** A signal that comes while the except clause runs, the clause having
    begun in [s1]. The handler runs at the point of delivery. The one
    [try] block of the clause is the deletion of the tag in [_rollback],
    which is also the first outside action of the clause: when the signal
    comes there (nothing has been done outside since the clause began), a
    [GitCommandError] that the handler raises is swallowed as that of the
    deletion is, and the rollback of the clause goes on to its end.
    Anywhere else what the handler raises ends the script. *)
Definition sigint_in_except_clause (s1 : state) : M unit :=
  fun s2 =>
    match handle_sigint (set_sigint_at None s2) with
    | (Raised GitCommandError, s3) =>
        if Nat.eqb (clock s2) (clock s1)
        then (rollback_after_tag_deletion (release_metadata s3) ;; sys_exit 1) s3
        else (Raised GitCommandError, s3)
    | r => r
    end.

(** The except clause of [make_release], with the handler of the signal
    installed. *)
Definition except_clause (e : exn) : M unit :=
  fun s1 =>
    match handle_exception e s1 with
    | (Interrupted, s2) => sigint_in_except_clause s1 s2
    | r => r
    end.

(** [make_release] from [signal.signal] on: the step sequence under
    [try ... except Exception], with the handler of the signal installed.
    A signal that comes while the step sequence runs is answered inside
    the [try] block: an exception proper that the handler raises (its
    rollback can fail) is caught by [except Exception] like that of a
    step. *)
Definition run_release : M unit :=
  except_Exception
    (under_sigint_handler handle_sigint _make_release (set_sigint_at None))
    except_clause.

(** The keyword arguments that [main] passes on. None of them bears the
    name of an attribute of [_ReleaseMetadata], so the [TypeError] of its
    constructor cannot occur. *)
Record options : Type := mkOptions {
  opt_release_type : string;
  opt_github_access_token : string;
  opt_force : bool;
  opt_installers : list string;
  opt_dry_run : bool;
  opt_prerelease : option string;
  opt_remote_name : string;
  opt_remote_branch : string;
  opt_interactive : bool
}.

(** A signal that comes before the handler is installed ends the process
    with [KeyboardInterrupt]: [Interrupted] is then the final outcome. *)
Definition make_release (kwargs : options) : M unit :=
  current <- (fun s => (Returned (PLUGIN_VERSION s), s)) ;;
  listing <- git MainRepo (TagList None) ;;
  commit_id <- git MainRepo RevParseHead ;;
  gh_pages_commit_id <- git PagesRepo RevParseHead ;;
  modify (set_release_metadata
            (mkReleaseMetadata None "" commit_id gh_pages_commit_id current
               (split_newline (strip_newlines listing))
               (AUTHOR_NAME ext) (REPOSITORY_NAME ext)
               (opt_release_type kwargs) (opt_github_access_token kwargs)
               (opt_force kwargs) (opt_installers kwargs) (opt_dry_run kwargs)
               (opt_prerelease kwargs) (opt_remote_name kwargs)
               (opt_remote_branch kwargs) (opt_interactive kwargs))) ;;
  run_release.

End Script.

(** ** Models of the imported code, for concrete runs *)

Module Model.

(** The header that starts at the beginning of [s], with the text after
    it: a line that begins with a hash and a space, or a line followed by
    a line of ['='] characters. *)
Definition header_at (s : string) : option (string * string) :=
  match match_hash_header s with
  | Some (title, rest) => Some ("# " ++ title ++ newline, rest)
  | None =>
      match span_line s with
      | (title, String _ r1) =>
          match span_equals r1 with
          | (S n, String c rest) =>
              if Ascii.eqb c LF
              then Some (title ++ newline ++ repeat_char "=" (S n) ++ newline, rest)
              else None
          | _ => None
          end
      | _ => None
      end
  end.

(** The first header at the beginning of a line: the text before it, the
    header, the text after it. *)
Fixpoint find_header (at_line_start : bool) (s : string)
  : option (string * string * string) :=
  match (if at_line_start then header_at s else None) with
  | Some (h, rest) => Some ("", h, rest)
  | None =>
      match s with
      | "" => None
      | String c r =>
          match find_header (Ascii.eqb c LF) r with
          | Some (pre, h, rest) => Some (String c pre, h, rest)
          | None => None
          end
      end
  end.

(** Modelled from the spec: [find_section] of
    [utils/preprocess_document_contents.py], which is not part of the
    sources at hand. It locates the first section header of the document
    (a line that begins with a hash and a space, or a title line followed
    by a line of ['='] characters) and returns the header, line feeds
    included, with the text between it and the next header. *)
Definition find_section (contents : string) : string * string :=
  match find_header true contents with
  | None => ("", "")
  | Some (_, header_raw, rest) =>
      match find_header true rest with
      | None => (header_raw, rest)
      | Some (body, _, _) => (header_raw, body)
      end
  end.

(** A version: [major.minor[.patch[-prerelease[.patch]]]]. *)
Record version : Type := mkVersion {
  major : nat;
  minor : nat;
  patch : option nat;
  suffix : option string;               (* the prerelease *)
  suffix_patch : option nat             (* the counter of the prerelease *)
}.

Definition digit_value (c : ascii) : option nat :=
  let n := nat_of_ascii c in
  if ((48 <=? n) && (n <=? 57))%nat then Some (n - 48) else None.

Fixpoint parse_digits (acc : nat) (s : string) : option nat :=
  match s with
  | "" => Some acc
  | String c r =>
      match digit_value c with
      | Some d => parse_digits (10 * acc + d) r
      | None => None
      end
  end.

Definition parse_number (s : string) : option nat :=
  match s with
  | "" => None
  | _ => parse_digits 0 s
  end.

Fixpoint split_dot (s : string) : list string :=
  match s with
  | "" => [""]
  | String c r =>
      if Ascii.eqb c "." then "" :: split_dot r
      else match split_dot r with
           | f :: fs => String c f :: fs
           | [] => [String c ""]
           end
  end.

(** The text before the first hyphen, and the text after it if there is
    one. *)
Fixpoint split_hyphen (s : string) : string * option string :=
  match s with
  | "" => ("", None)
  | String c r =>
      if Ascii.eqb c "-" then ("", Some r)
      else let (a, b) := split_hyphen r in (String c a, b)
  end.

Fixpoint show_digits (fuel n : nat) (acc : string) : string :=
  match fuel with
  | 0 => acc
  | S f =>
      let acc' := String (ascii_of_nat (48 + n mod 10)) acc in
      if (n <? 10)%nat then acc' else show_digits f (n / 10) acc'
  end.

Definition show_number (n : nat) : string := show_digits (S n) n "".

(** Modelled from the spec: [Version.parse] of [pygimplib]: a text of the
    format [major.minor[.patch[-prerelease[.patch]]]], the numbers in
    decimal digits and the prerelease a text without dot; any other text
    is answered as an invalid format. *)
Definition Version_parse (text : option string) : option version :=
  match text with
  | None => None
  | Some t =>
      let (numbers, after_hyphen) := split_hyphen t in
      match map parse_number (split_dot numbers), after_hyphen with
      | [Some a; Some b], None => Some (mkVersion a b None None None)
      | [Some a; Some b; Some c], None => Some (mkVersion a b (Some c) None None)
      | [Some a; Some b; Some c], Some rest =>
          match split_dot rest with
          | [p] =>
              if String.eqb p "" then None
              else Some (mkVersion a b (Some c) (Some p) None)
          | [p; n] =>
              match parse_number n with
              | Some k =>
                  if String.eqb p "" then None
                  else Some (mkVersion a b (Some c) (Some p) (Some k))
              | None => None
              end
          | _ => None
          end
      | _, _ => None
      end
  end.

(** Modelled from the spec: the raise of [Version.increment], by the
    rules of semantic versioning: the component named by the release type
    is raised and the lower ones are reset to zero. *)
Definition raise_component (v : version) (release_type : string) : option version :=
  if String.eqb release_type "major"
  then Some (mkVersion (S (major v)) 0
               (match patch v with Some _ => Some 0 | None => None end)
               (suffix v) (suffix_patch v))
  else if String.eqb release_type "minor"
  then Some (mkVersion (major v) (S (minor v))
               (match patch v with Some _ => Some 0 | None => None end)
               (suffix v) (suffix_patch v))
  else if String.eqb release_type "patch"
  then Some (mkVersion (major v) (minor v)
               (Some (match patch v with Some p => S p | None => 1 end))
               (suffix v) (suffix_patch v))
  else None.

(** Modelled from the spec: [Version.increment]. Without a prerelease
    the component named by the release type is raised; a version that
    bears a prerelease blocks this plain release, which is the conflict
    that is answered by the [ValueError]. With a prerelease, a version
    without one has its component raised and the prerelease appended; a
    version that bears the same prerelease has the counter of the
    prerelease raised, the first one counting as 1; another prerelease
    takes the place of the one it bears. A release type other than the
    three of the command line is answered by the [ValueError] too. The
    spec leaves the exact rules of the conflict to the library; this
    instance takes its example. *)
Definition Version_increment (v : version) (release_type : string)
  (prerelease : option string) : string + version :=
  match raise_component v release_type with
  | None => inl ("invalid release type '" ++ release_type ++ "'")
  | Some raised =>
      match suffix v, (if truthy prerelease then prerelease else None) with
      | None, None => inr raised
      | None, Some p =>
          inr (mkVersion (major raised) (minor raised) (patch raised) (Some p) None)
      | Some q, None =>
          inl ("the version has the prerelease '" ++ q ++ "'")
      | Some q, Some p =>
          if String.eqb p q
          then inr (mkVersion (major v) (minor v) (patch v) (Some q)
                      (Some (match suffix_patch v with Some n => S n | None => 2 end)))
          else inr (mkVersion (major v) (minor v) (patch v) (Some p) None)
      end
  end.

(** Modelled from the spec: [str] of a version, in the format that
    [Version.parse] reads. *)
Definition Version_str (v : version) : string :=
  show_number (major v) ++ "." ++ show_number (minor v)
  ++ match patch v with
     | Some p => "." ++ show_number p
     | None => ""
     end
  ++ match suffix v with
     | Some p =>
         "-" ++ p ++ match suffix_patch v with
                     | Some n => "." ++ show_number n
                     | None => ""
                     end
     | None => ""
     end.

Definition ext : externals :=
  mkExternals version Version_parse Version_increment Version_str find_section
    "khalim19" "gimp-plugin-export-layers".

(** A world for concrete runs: clean repositories at version 1.2.0, one
    released tag, a changelog with an unreleased section. *)
Definition base_metadata : ReleaseMetadata :=
  mkReleaseMetadata None "" "c0" "p0" (Some "1.2.0") ["1.2.0"]
    "khalim19" "gimp-plugin-export-layers" "minor" "token" false ["all"]
    false None "origin" "master" false.

Definition changelog0 : string :=
  "# Unreleased" ++ newline ++ "* a fix" ++ newline
  ++ "# 1.2.0" ++ newline ++ "* older" ++ newline.

Definition config0 : string :=
  "c.PLUGIN_NAME = " ++ quoted "export_layers" ++ newline
  ++ "c.PLUGIN_VERSION = " ++ quoted "1.2.0" ++ newline
  ++ "c.PLUGIN_VERSION_RELEASE_DATE = " ++ quoted "January 01, 2019" ++ newline.

(** The tracked files and directories as the commits of HEAD have them:
    the working trees are clean. *)
Definition main_tree0 : directory :=
  Dir [(CHANGELOG_FILEPATH, changelog0); (PLUGIN_CONFIG_FILEPATH, config0)] [].

Definition pages_tree0 : directory :=
  Dir [] [(path_join GITHUB_PAGE_DIRPATH "images", Dir [("a.png", "old")] []);
          (path_join GITHUB_PAGE_DIRPATH "sections", Dir [("a.md", "old")] [])].

Definition base_state : state :=
  mkState base_metadata (Some "1.2.0") "January 01, 2019"
    (mkRepo ["1.2.0"] "c0" (Some "master") "" [] main_tree0)
    (mkRepo [] "p0" (Some "gh-pages") "" [] pages_tree0)
    [(CHANGELOG_FILEPATH, changelog0); (PLUGIN_CONFIG_FILEPATH, config0)]
    [(path_join GITHUB_PAGE_DIRPATH "images", Dir [("a.png", "old")] []);
     (path_join GITHUB_PAGE_DIRPATH "sections", Dir [("a.md", "old")] []);
     (path_join (path_join GITHUB_PAGE_DIRPATH "dev") "images", Dir [("a.png", "new")] []);
     (path_join (path_join GITHUB_PAGE_DIRPATH "dev") "sections", Dir [("a.md", "new")] [])]
    [] [] []
    [mkResponse true (Some "https://uploads.example/assets{?name,label}");
     mkResponse true None; mkResponse true None]
    (Dir [("export_layers.zip", "zipbytes"); ("notes.txt", "text")]
       [("windows", Dir [("setup.exe", "exebytes"); ("setup.log", "log")] [])])
    "November 04, 2026" [] 0 [] None.

End Model.

(** ** Concrete worlds *)

Module Runs.
Import Model.

(** The main repository has local changes. *)
Definition dirty_state : state :=
  set_main_repo (mkRepo ["1.2.0"] "c0" (Some "master") " M README.md" [] main_tree0)
    base_state.

(** An interactive run in which the user answers no. *)
Definition declined_state : state :=
  set_stdin ["n"]
    (set_release_metadata
       (mkReleaseMetadata None "" "c0" "p0" (Some "1.2.0") ["1.2.0"]
          "khalim19" "gimp-plugin-export-layers" "minor" "token" false ["all"]
          false None "origin" "master" true)
       base_state).

(** A dry run. *)
Definition dry_state : state :=
  set_release_metadata
    (mkReleaseMetadata None "" "c0" "p0" (Some "1.2.0") ["1.2.0"]
       "khalim19" "gimp-plugin-export-layers" "minor" "token" false ["all"]
       true None "origin" "master" false)
    base_state.

(** The tag of the next version exists already. *)
Definition tagged_state : state :=
  set_main_repo (mkRepo ["1.3.0"; "1.2.0"] "c0" (Some "master") "" [] main_tree0)
    base_state.

(** The state of a run that has committed, tagged and built, and is about
    to push. *)
Definition built_state : state :=
  set_dirs ((INSTALLERS_OUTPUT_DIRPATH, Dir [("export_layers.zip", "zipbytes")] [])
            :: dirs base_state)
    (set_main_repo (mkRepo ["1.3.0"; "1.2.0"] "c1" (Some "master") "" [] main_tree0)
       (set_pages_repo (mkRepo [] "p1" (Some "gh-pages") "" [] pages_tree0)
          (set_release_metadata (with_new_version (Some "1.3.0") base_metadata)
             base_state))).

(** A changelog with a hash and a space inside a line of its preamble. *)
Definition preamble_changelog : string :=
  "Notes for C# users" ++ newline
  ++ "# Unreleased" ++ newline ++ "* a fix" ++ newline
  ++ "# 1.2.0" ++ newline ++ "* older" ++ newline.

Definition preamble_state : state :=
  set_files [(CHANGELOG_FILEPATH, preamble_changelog);
             (PLUGIN_CONFIG_FILEPATH, config0)]
    (set_release_metadata (with_new_version (Some "1.3.0") base_metadata)
       base_state).

(** The metadata of the second run: the new version is now released. *)
Definition released (s : state) : state :=
  set_release_metadata
    (mkReleaseMetadata (Some "1.3.0") "" "c0" "p0" (Some "1.2.0") ["1.3.0"; "1.2.0"]
       "khalim19" "gimp-plugin-export-layers" "minor" "token" false ["all"]
       false None "origin" "master" false)
    s.

(** A changelog whose first header has an empty title. *)
Definition untitled_state : state :=
  set_files [(CHANGELOG_FILEPATH, "# " ++ newline ++ "* a fix" ++ newline)]
    preamble_state.

(** A configuration file without the entry of the release date. *)
Definition config_without_date : string :=
  "c.PLUGIN_NAME = " ++ quoted "export_layers" ++ newline
  ++ "c.PLUGIN_VERSION = " ++ quoted "1.2.0" ++ newline.

Definition config_state : state :=
  set_files [(CHANGELOG_FILEPATH, changelog0);
             (PLUGIN_CONFIG_FILEPATH, config_without_date)] base_state.

(** The pages hold already what their copies under [dev] hold. *)
Definition unchanged_pages_state : state :=
  set_dirs
    [(path_join GITHUB_PAGE_DIRPATH "images", Dir [("a.png", "new")] []);
     (path_join GITHUB_PAGE_DIRPATH "sections", Dir [("a.md", "new")] []);
     (path_join (path_join GITHUB_PAGE_DIRPATH "dev") "images", Dir [("a.png", "new")] []);
     (path_join (path_join GITHUB_PAGE_DIRPATH "dev") "sections", Dir [("a.md", "new")] [])]
    (set_pages_repo
       (mkRepo [] "p0" (Some "gh-pages") "" []
          (Dir [] [(path_join GITHUB_PAGE_DIRPATH "images", Dir [("a.png", "new")] []);
                   (path_join GITHUB_PAGE_DIRPATH "sections", Dir [("a.md", "new")] [])]))
       base_state).

End Runs.

(** ** Notions used by the statements *)

(** No outside action fails for a reason of the world's own, and no
    signal is pending. *)
Definition quiet (s : state) : Prop := faults s = [] /\ sigint_at s = None.

(** [m] maintains [inv], and relates every state in which [inv] holds to
    the state it ends in, however it ends. *)
Definition keeps (inv : state -> Prop) (rel : state -> state -> Prop)
  {A : Type} (m : M A) : Prop :=
  forall s, inv s -> inv (snd (m s)) /\ rel s (snd (m s)).

(** The repositories, the files and the directories are the same, and
    the outside has only been asked questions in between. *)
Definition untouched (s s' : state) : Prop :=
  main_repo s' = main_repo s /\ pages_repo s' = pages_repo s
  /\ files s' = files s /\ dirs s' = dirs s
  /\ exists evs, trace s' = (trace s ++ evs)%list /\ forallb is_query evs = true.

Definition in_dry_run (s : state) : Prop := dry_run (release_metadata s) = true.

(** The two checkpoints of the metadata are the same. *)
Definition same_checkpoints (s s' : state) : Prop :=
  last_commit_id_before_release (release_metadata s')
  = last_commit_id_before_release (release_metadata s)
  /\ last_gh_pages_commit_id_before_release (release_metadata s')
     = last_gh_pages_commit_id_before_release (release_metadata s).

(** The rollback of a run that is not a dry run begins with the attempt
    to delete the tag: the trace of a run without such an attempt is the
    trace of a run without rollback. *)
Definition is_tag_delete (e : event) : bool :=
  match e with
  | EvGit MainRepo (TagDelete _) => true
  | _ => false
  end.

Definition rollback_attempted (s : state) : bool := existsb is_tag_delete (trace s).

(** Every exception that [m] can raise satisfies [P]. *)
Definition raises_only (P : exn -> Prop) {A : Type} (m : M A) : Prop :=
  forall s e, fst (m s) = Raised e -> P e.

(** What the script itself raises: an exception proper, or one of its two
    exit statuses. *)
Definition script_failure (e : exn) : Prop :=
  is_Exception e = true \/ e = SystemExit 1 \/ e = SystemExit PROMPT_NO_EXIT_STATUS.

(** From [s] to [s'] the script has only asked questions and printed to
    the standard output; no failure or signal is pending in [s']. *)
Definition asked (s s' : state) : Prop :=
  quiet s' /\ untouched s s' /\ stderr s' = stderr s /\ stdin s' = stdin s
  /\ release_metadata s' = release_metadata s.

(** The index of the first line that matches the pattern of [name]. *)
Fixpoint first_matching_line (name : string) (lines : list string) : option nat :=
  match lines with
  | [] => None
  | line :: rest =>
      if entry_matches name line then Some 0
      else match first_matching_line name rest with
           | Some i => Some (S i)
           | None => None
           end
  end.

(** The requested entries for which no line matches. *)
Definition missing_entries (lines : list string) (entries : list (string * string))
  : list (string * string) :=
  filter (fun e => negb (existsb (entry_matches (fst e)) lines)) entries.

(** The entries as the script holds them: every value is a string. *)
Definition some_values (entries : list (string * string))
  : list (string * option string) :=
  map (fun e => (fst e, Some (snd e))) entries.

(** Names as they stand after [c.]: without a space; values as they stand
    in a template: without a backslash. *)
Definition plain_entry (e : string * string) : Prop :=
  contains_char " " (fst e) = false /\ contains_char backslash (snd e) = false.

(** The MIME type under which a file of the output directory is
    uploaded: the files whose extension is [.zip] or [.exe], in these
    very letters, are uploaded, the others are not. *)
Definition uploaded_as (filename : string) : option string :=
  if String.eqb (splitext_ext filename) ".zip" then Some "application/x-zip-compressed"
  else if String.eqb (splitext_ext filename) ".exe" then Some "application/x-msdownload"
  else None.

(** What the upload of the files of one directory does outside, when
    nothing fails: for each uploaded file, the file is read and posted
    with its name, its MIME type and its contents. *)
Definition upload_events (upload_url : string)
  (access_token_header : list (string * string)) (root_dirpath : string)
  (files_ : list (string * string)) : list event :=
  flat_map
    (fun f =>
       match uploaded_as (fst f) with
       | Some mime_type =>
           [EvRead (path_join root_dirpath (fst f));
            EvPost upload_url (access_token_header ++ [("Content-Type", mime_type)])
              (RawBody (snd f)) [("name", fst f)]]
       | None => []
       end)
    files_.

Definition uploaded_files (files_ : list (string * string))
  : list (string * string) :=
  filter (fun f => match uploaded_as (fst f) with Some _ => true | None => false end)
    files_.

(** The same over the turns of a walk: directory after directory. *)
Definition walk_upload_events (upload_url : string)
  (access_token_header : list (string * string))
  (turns : list (string * list (string * string))) : list event :=
  flat_map (fun turn => upload_events upload_url access_token_header (fst turn) (snd turn))
    turns.

Definition walk_uploaded_files (turns : list (string * list (string * string)))
  : list (string * string) :=
  flat_map (fun turn => uploaded_files (snd turn)) turns.

(** [P] holds of the metadata object. *)
Definition holds (P : ReleaseMetadata -> Prop) (s : state) : Prop :=
  P (release_metadata s).

(** Nothing outside the process differs, and nothing has been done
    outside in between. *)
Definition same_world (s s' : state) : Prop :=
  main_repo s' = main_repo s /\ pages_repo s' = pages_repo s
  /\ files s' = files s /\ dirs s' = dirs s /\ trace s' = trace s.

(** From [s] to [s'] the script has done outside only what [allowed]
    accepts. *)
Definition follows (allowed : event -> bool) (s s' : state) : Prop :=
  exists evs, trace s' = (trace s ++ evs)%list /\ forallb allowed evs = true.

(** What the script may do to files and directories: write the changelog
    and the configuration file, remove the output directory of the
    installers and the two directories of the pages, and copy the latter
    two from their counterparts under [dev]. *)
Definition within_footprint (e : event) : bool :=
  match e with
  | EvWrite path _ =>
      String.eqb path CHANGELOG_FILEPATH || String.eqb path PLUGIN_CONFIG_FILEPATH
  | EvRmTree path =>
      String.eqb path INSTALLERS_OUTPUT_DIRPATH
      || String.eqb path (path_join GITHUB_PAGE_DIRPATH "images")
      || String.eqb path (path_join GITHUB_PAGE_DIRPATH "sections")
  | EvCopyTree src dst =>
      (String.eqb src (path_join (path_join GITHUB_PAGE_DIRPATH "dev") "images")
       && String.eqb dst (path_join GITHUB_PAGE_DIRPATH "images"))
      || (String.eqb src (path_join (path_join GITHUB_PAGE_DIRPATH "dev") "sections")
          && String.eqb dst (path_join GITHUB_PAGE_DIRPATH "sections"))
  | _ => true
  end.

(** A push to a remote other than [remote]; a prompt. *)
Definition pushes_elsewhere (remote : string) (e : event) : bool :=
  match e with
  | EvGit _ (Push r _) => negb (String.eqb r remote)
  | _ => false
  end.

Definition is_prompt (e : event) : bool :=
  match e with
  | EvInput _ => true
  | _ => false
  end.

(** The tag [t] is in the main repository if and only if it was, and the
    tags of the repository of the pages are the same. *)
Definition same_tag (t : string) (s s' : state) : Prop :=
  mem t (tags (main_repo s')) = mem t (tags (main_repo s))
  /\ tags (pages_repo s') = tags (pages_repo s).

(** [t] is not the version that the run releases: it is neither the new
    version of the metadata nor the version that the version library
    computes from the current one. *)
Definition not_released_as (ext : externals) (t : string) (rm : ReleaseMetadata)
  : Prop :=
  new_version rm <> Some t
  /\ forall ver ver',
       Version_parse ext (current_version rm) = Some ver ->
       Version_increment ext ver (release_type rm) (prerelease rm) = inr ver' ->
       Version_str ext ver' <> t.

(** Git commands that leave the tags alone. *)
Definition changes_no_tag (c : git_cmd) : bool :=
  match c with
  | TagAnnotated _ _ | TagDelete _ => false
  | _ => true
  end.

(** What a run that goes through prints, dry or not: the branch and the
    versions, then one line per step. *)
Definition announcements (rm : ReleaseMetadata) (b bp title v : string)
  : list string :=
  ["Active branch: " ++ b;
   "Current version: " ++ py_str (current_version rm);
   "New version: " ++ v;
   "Replacing header name '" ++ title ++ "' in the changelog with the new version";
   "Modifying the following entries in file '" ++ PLUGIN_CONFIG_FILEPATH
   ++ "': PLUGIN_VERSION, PLUGIN_VERSION_RELEASE_DATE";
   "Creating release commit from branch '" ++ b ++ "'";
   "Creating tag '" ++ v ++ "'";
   "Preparing branch '" ++ bp ++ "' for update";
   "Creating release commit from branch '" ++ bp ++ "'";
   "Creating installers";
   "Pushing release commit from branch '" ++ b ++ "' to remote '"
   ++ remote_name rm ++ " " ++ remote_branch rm ++ "'";
   "Pushing tag '" ++ v ++ "' to remote '" ++ remote_name rm ++ "'";
   "Pushing release commit from branch '" ++ bp ++ "' to remote '"
   ++ remote_name rm ++ " " ++ bp ++ "'";
   "Creating GitHub release"].

(** No signal is pending and [m] keeps it so: [m] is not interrupted. *)
Definition calm {A : Type} (m : M A) : Prop :=
  forall s, sigint_at s = None ->
            fst (m s) <> Interrupted /\ sigint_at (snd (m s)) = None.

(** A run from [s] that has ended at one of the checks: the exit status
    is 1 and the message of the check is all that has been written to the
    error stream (each handler would have written its own first), nothing
    is changed and only questions have been asked outside, and no
    rollback has been attempted since [s]. *)
Definition ends_at_check (s : state) (r : outcome unit * state) (message : string)
  : Prop :=
  fst r = Raised (SystemExit 1)
  /\ stderr (snd r) = (stderr s ++ [message])%list
  /\ untouched s (snd r)
  /\ rollback_attempted (snd r) = rollback_attempted s.

(** * Properties *)

(** ** Frame rules *)

Section Frames.

Variable inv : state -> Prop.
Variable rel : state -> state -> Prop.
Hypothesis rel_refl : forall s, rel s s.
Hypothesis rel_trans : forall a b c, rel a b -> rel b c -> rel a c.

Lemma keeps_ret {A : Type} (a : A) : keeps inv rel (ret a).
Proof using rel_refl rel_trans. intros s Hs; simpl; auto. Qed.

Lemma keeps_raise {A : Type} (e : exn) : keeps inv rel (@raise A e).
Proof using rel_refl rel_trans. intros s Hs; simpl; auto. Qed.

Lemma keeps_bind {A B : Type} (m : M A) (k : A -> M B) :
  keeps inv rel m -> (forall a, keeps inv rel (k a)) -> keeps inv rel (bind m k).
Proof using rel_refl rel_trans.
  intros Hm Hk s Hs. unfold bind.
  destruct (Hm s Hs) as [Hi Hr].
  destruct (m s) as [[a | e |] s1]; simpl in *; auto.
  destruct (Hk a s1 Hi) as [Hi' Hr']. eauto.
Qed.

Lemma keeps_try_except {A : Type} (m h : M A) (handles : exn -> bool) :
  keeps inv rel m -> keeps inv rel h -> keeps inv rel (try_except m handles h).
Proof using rel_refl rel_trans.
  intros Hm Hh s Hs. unfold try_except.
  destruct (Hm s Hs) as [Hi Hr].
  destruct (m s) as [[a | e |] s1]; simpl in *; auto.
  destruct (handles e); simpl; auto.
  destruct (Hh s1 Hi) as [Hi' Hr']. eauto.
Qed.

Lemma keeps_if {A : Type} (b : bool) (m1 m2 : M A) :
  keeps inv rel m1 -> keeps inv rel m2 -> keeps inv rel (if b then m1 else m2).
Proof using rel_refl rel_trans. destruct b; auto. Qed.

Lemma keeps_for_each {A : Type} (l : list A) (body : A -> M unit) :
  (forall x, keeps inv rel (body x)) -> keeps inv rel (for_each l body).
Proof using rel_refl rel_trans.
  intros Hb. induction l as [| x t IH]; simpl.
  - apply keeps_ret.
  - apply keeps_bind; auto.
Qed.

Lemma keeps_modify (f : state -> state) :
  (forall s, inv s -> inv (f s) /\ rel s (f s)) -> keeps inv rel (modify f).
Proof using rel_refl rel_trans. intros Hf s Hs. simpl. auto. Qed.

Lemma keeps_outside {A : Type} (ev : event) (err : option exn) (act : M A) :
  (forall s, inv s -> inv (logged ev s) /\ rel s (logged ev s)) ->
  keeps inv rel act -> keeps inv rel (outside ev err act).
Proof using rel_refl rel_trans.
  intros Hl Ha s Hs. unfold outside.
  destruct (sigint_due s); simpl; auto.
  destruct (Hl s Hs) as [Hi Hr].
  assert (Hact : inv (snd (act (logged ev s))) /\ rel s (snd (act (logged ev s)))).
  { destruct (Ha _ Hi) as [Hi' Hr']. eauto. }
  destruct err as [e |]; auto.
  destruct (fault_due s); simpl; auto.
Qed.

Lemma keeps_under_sigint_handler {A : Type} (h m : M A) :
  (forall s, inv s -> inv (set_sigint_at None s) /\ rel s (set_sigint_at None s)) ->
  keeps inv rel h -> keeps inv rel m ->
  keeps inv rel (under_sigint_handler h m (set_sigint_at None)).
Proof using rel_refl rel_trans.
  intros Hd Hh Hm s Hs. unfold under_sigint_handler.
  destruct (Hm s Hs) as [Hi Hr].
  destruct (m s) as [[a | e |] s1]; simpl in *; auto.
  destruct (Hd s1 Hi) as [Hi1 Hr1].
  destruct (Hh _ Hi1) as [Hi2 Hr2]. split; [exact Hi2 | eauto].
Qed.

Lemma keeps_except_Exception {A : Type} (m : M A) (h : exn -> M A) :
  keeps inv rel m -> (forall e, keeps inv rel (h e)) ->
  keeps inv rel (except_Exception m h).
Proof using rel_refl rel_trans.
  intros Hm Hh s Hs. unfold except_Exception.
  destruct (Hm s Hs) as [Hi Hr].
  destruct (m s) as [[a | e |] s1]; simpl in *; auto.
  destruct (is_Exception e); simpl; auto.
  destruct (Hh e s1 Hi) as [Hi' Hr']. eauto.
Qed.

(** The top of the script: the step sequence under its two handlers. The
    frame is kept by the whole when it is kept by the steps, by the
    rollback, and by the part of the rollback that follows the deletion
    of the tag. *)
Section Top.

Hypothesis disarmed :
  forall s, inv s -> inv (set_sigint_at None s) /\ rel s (set_sigint_at None s).
Hypothesis printed :
  forall message, keeps inv rel (_print_error message).
Hypothesis rolled_back : keeps inv rel _rollback.
Hypothesis resumed :
  forall s, inv s ->
    inv (snd (rollback_after_tag_deletion (release_metadata s) s))
    /\ rel s (snd (rollback_after_tag_deletion (release_metadata s) s)).

Lemma keeps_handle_sigint : keeps inv rel handle_sigint.
Proof using rel_refl rel_trans printed rolled_back.
  unfold handle_sigint.
  apply keeps_bind; [apply printed | intros _].
  apply keeps_bind; [exact rolled_back | intros _; apply keeps_raise].
Qed.

Lemma keeps_handle_exception (e : exn) : keeps inv rel (handle_exception e).
Proof using rel_refl rel_trans printed rolled_back.
  unfold handle_exception.
  apply keeps_bind; [apply printed | intros _].
  apply keeps_bind; [exact rolled_back | intros _; apply keeps_raise].
Qed.

Lemma keeps_sigint_in_except_clause (s1 : state) :
  keeps inv rel (sigint_in_except_clause s1).
Proof using rel_refl rel_trans disarmed printed rolled_back resumed.
  intros s2 Hs. unfold sigint_in_except_clause.
  destruct (disarmed s2 Hs) as [Hi1 Hr1].
  destruct (keeps_handle_sigint _ Hi1) as [Hi2 Hr2].
  destruct (handle_sigint (set_sigint_at None s2)) as [[a | e |] s3]; simpl in *;
    try (split; [exact Hi2 | eauto]).
  assert (Hres : inv (snd ((rollback_after_tag_deletion (release_metadata s3) ;;
                            @sys_exit unit 1) s3))
                 /\ rel s2 (snd ((rollback_after_tag_deletion (release_metadata s3) ;;
                                  @sys_exit unit 1) s3))).
  { destruct (resumed s3 Hi2) as [Hi3 Hr3]. unfold bind.
    destruct (rollback_after_tag_deletion (release_metadata s3) s3)
      as [[a | e' |] s4]; simpl in *; (split; [exact Hi3 | eauto]). }
  destruct e; try (split; [exact Hi2 | eauto]).
  destruct (Nat.eqb (clock s2) (clock s1)); [exact Hres | split; [exact Hi2 | eauto]].
Qed.

Lemma keeps_except_clause (e : exn) : keeps inv rel (except_clause e).
Proof using rel_refl rel_trans disarmed printed rolled_back resumed.
  intros s1 Hs. unfold except_clause.
  destruct (keeps_handle_exception e s1 Hs) as [Hi Hr].
  destruct (handle_exception e s1) as [[a | e' |] s2]; simpl in *; auto.
  destruct (keeps_sigint_in_except_clause s1 s2 Hi) as [Hi' Hr']. eauto.
Qed.

Lemma keeps_run_release (ext : externals) :
  keeps inv rel (_make_release ext) -> keeps inv rel (run_release ext).
Proof using rel_refl rel_trans disarmed printed rolled_back resumed.
  intros Hm. unfold run_release.
  apply keeps_except_Exception; [| exact keeps_except_clause].
  apply keeps_under_sigint_handler;
    [exact disarmed | exact keeps_handle_sigint | exact Hm].
Qed.

End Top.

End Frames.

(** ** Dry runs *)

Lemma untouched_refl (s : state) : untouched s s.
Proof.
  repeat split; auto. exists []. split; [now rewrite app_nil_r | reflexivity].
Qed.

Lemma untouched_trans (a b c : state) : untouched a b -> untouched b c -> untouched a c.
Proof.
  intros (M1 & P1 & F1 & D1 & e1 & T1 & Q1) (M2 & P2 & F2 & D2 & e2 & T2 & Q2).
  repeat split; try congruence.
  exists (e1 ++ e2)%list. split.
  - rewrite T2, T1. now rewrite app_assoc.
  - rewrite forallb_app, Q1, Q2. reflexivity.
Qed.

Lemma git_exec_query (c : git_cmd) (r r' : repo) (w : directory) (out : string) :
  git_query c = true -> git_exec c r w = Some (out, r') -> r' = r.
Proof.
  destruct c as [| | [p |] | | | | | | |]; simpl; intros Hq He;
    try discriminate; congruence.
Qed.

Lemma set_repo_same (r : repo_id) (s : state) :
  main_repo (set_repo r (get_repo r s) s) = main_repo s
  /\ pages_repo (set_repo r (get_repo r s) s) = pages_repo s.
Proof. destruct r; split; reflexivity. Qed.

Section DryRun.

Variable ext : externals.

Local Abbreviation dry := (keeps in_dry_run untouched).

Lemma dry_logged (ev : event) (s : state) :
  is_query ev = true -> in_dry_run s ->
  in_dry_run (logged ev s) /\ untouched s (logged ev s).
Proof.
  intros Hq Hs. split; [exact Hs |].
  repeat split; auto. exists [ev]. split; [reflexivity | simpl; now rewrite Hq].
Qed.

Lemma dry_bind {A B : Type} (m : M A) (k : A -> M B) :
  dry m -> (forall a, dry (k a)) -> dry (bind m k).
Proof. apply keeps_bind; [exact untouched_refl | exact untouched_trans]. Qed.

Lemma dry_outside {A : Type} (ev : event) (err : option exn) (act : M A) :
  is_query ev = true -> dry act -> dry (outside ev err act).
Proof.
  intros Hq Ha. apply keeps_outside;
    [exact untouched_refl | exact untouched_trans | | exact Ha].
  intros s Hs. apply dry_logged; auto.
Qed.

Lemma dry_ret {A : Type} (a : A) : dry (ret a).
Proof. apply keeps_ret; [exact untouched_refl | exact untouched_trans]. Qed.

Lemma dry_raise {A : Type} (e : exn) : dry (@raise A e).
Proof. apply keeps_raise; [exact untouched_refl | exact untouched_trans]. Qed.

Lemma dry_if {A : Type} (b : bool) (m1 m2 : M A) :
  dry m1 -> dry m2 -> dry (if b then m1 else m2).
Proof. apply keeps_if; [exact untouched_refl | exact untouched_trans]. Qed.

Lemma dry_modify (f : state -> state) :
  (forall s, in_dry_run s -> in_dry_run (f s) /\ untouched s (f s)) -> dry (modify f).
Proof. apply keeps_modify; [exact untouched_refl | exact untouched_trans]. Qed.

Lemma dry_print (line : string) : dry (print line).
Proof.
  apply dry_modify. intros s Hs. split; [exact Hs |].
  repeat split; auto. exists []. split; [simpl; now rewrite app_nil_r | reflexivity].
Qed.

Lemma dry_print_error (message : string) : dry (_print_error message).
Proof.
  apply dry_modify. intros s Hs. split; [exact Hs |].
  repeat split; auto. exists []. split; [simpl; now rewrite app_nil_r | reflexivity].
Qed.

Lemma dry_print_error_and_exit {A : Type} (message : string) (status : Z) :
  dry (@_print_error_and_exit A message status).
Proof.
  apply dry_bind; [apply dry_print_error | intros; apply dry_raise].
Qed.

(** The early return of every mutating step: in a dry run the rest of the
    function is not run, whatever it is. *)
Lemma dry_unless_dry_run (rest : M unit) : dry (unless_dry_run rest).
Proof.
  intros s Hs. unfold unless_dry_run. unfold in_dry_run in Hs. rewrite Hs.
  simpl. split; [exact Hs | apply untouched_refl].
Qed.

Lemma dry_git_query (r : repo_id) (c : git_cmd) : git_query c = true -> dry (git r c).
Proof.
  intros Hq. apply dry_outside; [exact Hq |].
  intros s Hs.
  - destruct (git_exec c (get_repo r s) (worktree r s)) as [[out r'] |] eqn:E; simpl.
    + apply (git_exec_query c _ _ _ _ Hq) in E. subst r'.
      split; [destruct r; exact Hs |].
      destruct (set_repo_same r s) as [H1 H2].
      repeat split; auto; try (destruct r; reflexivity).
      exists []. split; [destruct r; simpl; now rewrite app_nil_r | reflexivity].
    + split; [exact Hs | apply untouched_refl].
Qed.

Lemma dry_active_branch_name (r : repo_id) : dry (active_branch_name r).
Proof.
  apply dry_outside; [reflexivity |].
  intros s Hs.
  - destruct (branch (get_repo r s)); simpl;
      (split; [exact Hs | apply untouched_refl]).
Qed.

Lemma dry_read_file (path : string) : dry (read_file path).
Proof.
  apply dry_outside; [reflexivity |].
  intros s Hs.
  - destruct (lookup path (files s)); simpl;
      (split; [exact Hs | apply untouched_refl]).
Qed.

Lemma dry_input (prompt : string) : dry (input prompt).
Proof.
  apply dry_outside; [reflexivity |].
  intros s Hs.
  - destruct (stdin s); simpl.
    + split; [exact Hs | apply untouched_refl].
    + split; [exact Hs |]. repeat split; auto.
      exists []. split; [simpl; now rewrite app_nil_r | reflexivity].
Qed.

Lemma dry_set_metadata (f : ReleaseMetadata -> ReleaseMetadata) :
  (forall rm, dry_run (f rm) = dry_run rm) ->
  dry (modify (fun s => set_release_metadata (f (release_metadata s)) s)).
Proof.
  intros Hf. apply dry_modify. intros s Hs. split.
  - unfold in_dry_run in *. simpl. now rewrite Hf.
  - repeat split; auto. exists []. split; [simpl; now rewrite app_nil_r | reflexivity].
Qed.

Lemma dry_get {A : Type} (f : state -> A) : dry (fun s => (Returned (f s), s)).
Proof. intros s Hs. simpl. split; [exact Hs | apply untouched_refl]. Qed.

Lemma dry_set_config_version (v : option string) : dry (modify (set_PLUGIN_VERSION v)).
Proof.
  apply dry_modify. intros s Hs. split; [exact Hs |].
  repeat split; auto. exists []. split; [simpl; now rewrite app_nil_r | reflexivity].
Qed.

Lemma dry_set_config_date (d : string) : dry (modify (set_PLUGIN_VERSION_RELEASE_DATE d)).
Proof.
  apply dry_modify. intros s Hs. split; [exact Hs |].
  repeat split; auto. exists []. split; [simpl; now rewrite app_nil_r | reflexivity].
Qed.

Ltac dry_steps :=
  repeat first
    [ apply dry_unless_dry_run
    | apply dry_print | apply dry_print_error | apply dry_print_error_and_exit
    | apply dry_active_branch_name | apply dry_read_file | apply dry_input
    | apply dry_set_config_version | apply dry_set_config_date
    | apply dry_git_query; reflexivity
    | apply dry_set_metadata; reflexivity
    | apply (dry_get release_metadata) | apply (dry_get today)
    | apply dry_ret | apply dry_raise
    | apply dry_bind; [| intros ?]
    | apply dry_if
    | match goal with
      | |- keeps _ _ (match ?x with _ => _ end) => destruct x
      end ].

Lemma dry_check_branches : dry _check_branches_for_local_changes.
Proof. unfold _check_branches_for_local_changes, _has_active_branch_local_changes. dry_steps. Qed.

Lemma dry_get_next_version : dry (_get_next_version ext).
Proof. unfold _get_next_version. dry_steps. Qed.

Lemma dry_check_tag : dry _check_if_tag_with_new_version_already_exists.
Proof. unfold _check_if_tag_with_new_version_already_exists. dry_steps. Qed.

Lemma dry_prompt : dry _prompt_to_proceed.
Proof. unfold _prompt_to_proceed. dry_steps. Qed.

Lemma dry_changelog : dry (_get_release_notes_and_modify_changelog_first_header ext).
Proof. unfold _get_release_notes_and_modify_changelog_first_header. dry_steps. Qed.

Lemma dry_config : dry _update_version_and_release_date_in_config.
Proof. unfold _update_version_and_release_date_in_config. dry_steps. Qed.

Lemma dry_rollback : dry _rollback.
Proof. unfold _rollback. dry_steps. Qed.

Lemma dry_make_release : dry (_make_release ext).
Proof.
  unfold _make_release, _create_release_commit, _create_release_tag,
    _prepare_gh_pages_for_update, _make_installers, _push_release_commit,
    _push_release_tag, _create_github_release.
  dry_steps;
    first [ apply dry_check_branches | apply dry_get_next_version
          | apply dry_check_tag | apply dry_prompt | apply dry_changelog
          | apply dry_config ].
Qed.

Lemma dry_handle_sigint : dry handle_sigint.
Proof. unfold handle_sigint, sys_exit. dry_steps. Qed.

Lemma dry_handle_exception (e : exn) : dry (handle_exception e).
Proof. unfold handle_exception, sys_exit. dry_steps. Qed.

Lemma dry_disarmed (s : state) :
  in_dry_run s ->
  in_dry_run (set_sigint_at None s) /\ untouched s (set_sigint_at None s).
Proof.
  intros Hs. split; [exact Hs |]. repeat split.
  exists []. split; [simpl; now rewrite app_nil_r | reflexivity].
Qed.

(** In a dry run the rollback does nothing outside, so no signal can come
    while the except clause runs. *)
Lemma dry_except_clause (e : exn) : dry (except_clause e).
Proof.
  intros s Hs. unfold except_clause.
  destruct (dry_handle_exception e s Hs) as [Hi Hr].
  assert (E : fst (handle_exception e s) = Raised (SystemExit 1)).
  { unfold handle_exception, bind, _print_error, modify, _rollback, unless_dry_run.
    unfold in_dry_run in Hs. cbn [release_metadata set_stderr]. now rewrite Hs. }
  destruct (handle_exception e s) as [[a | e' |] s2]; simpl in *;
    [auto | auto | discriminate E].
Qed.

Lemma dry_run_release : dry (run_release ext).
Proof.
  unfold run_release.
  apply keeps_except_Exception;
    [exact untouched_refl | exact untouched_trans | | exact dry_except_clause].
  apply keeps_under_sigint_handler;
    [exact untouched_refl | exact untouched_trans | exact dry_disarmed
    | apply dry_handle_sigint | apply dry_make_release].
Qed.

End DryRun.

(** ** The checkpoints are never assigned *)

Section Checkpoints.

Variable ext : externals.

Local Abbreviation fixed := (keeps (fun _ => True) same_checkpoints).

Lemma same_checkpoints_refl (s : state) : same_checkpoints s s.
Proof. split; reflexivity. Qed.

Lemma same_checkpoints_trans (a b c : state) :
  same_checkpoints a b -> same_checkpoints b c -> same_checkpoints a c.
Proof. intros [H1 H2] [H3 H4]. split; congruence. Qed.

Lemma fixed_bind {A B : Type} (m : M A) (k : A -> M B) :
  fixed m -> (forall a, fixed (k a)) -> fixed (bind m k).
Proof. apply keeps_bind; [exact same_checkpoints_refl | exact same_checkpoints_trans]. Qed.

Lemma fixed_ret {A : Type} (a : A) : fixed (ret a).
Proof. apply keeps_ret; [exact same_checkpoints_refl | exact same_checkpoints_trans]. Qed.

Lemma fixed_raise {A : Type} (e : exn) : fixed (@raise A e).
Proof. apply keeps_raise; [exact same_checkpoints_refl | exact same_checkpoints_trans]. Qed.

Lemma fixed_if {A : Type} (b : bool) (m1 m2 : M A) :
  fixed m1 -> fixed m2 -> fixed (if b then m1 else m2).
Proof. apply keeps_if; [exact same_checkpoints_refl | exact same_checkpoints_trans]. Qed.

Lemma fixed_for_each {A : Type} (l : list A) (body : A -> M unit) :
  (forall x, fixed (body x)) -> fixed (for_each l body).
Proof.
  apply keeps_for_each; [exact same_checkpoints_refl | exact same_checkpoints_trans].
Qed.

Lemma fixed_try_except {A : Type} (m h : M A) (handles : exn -> bool) :
  fixed m -> fixed h -> fixed (try_except m handles h).
Proof.
  apply keeps_try_except; [exact same_checkpoints_refl | exact same_checkpoints_trans].
Qed.

(** Whatever leaves the metadata object alone leaves its checkpoints. *)
Lemma fixed_when_metadata_kept {A : Type} (m : M A) :
  (forall s, release_metadata (snd (m s)) = release_metadata s) -> fixed m.
Proof.
  intros H s _. split; [exact I |]. unfold same_checkpoints. now rewrite H.
Qed.

Lemma fixed_outside {A : Type} (ev : event) (err : option exn) (act : M A) :
  fixed act -> fixed (outside ev err act).
Proof.
  intros Ha. apply keeps_outside;
    [exact same_checkpoints_refl | exact same_checkpoints_trans | | exact Ha].
  intros s _. split; [exact I | split; reflexivity].
Qed.

Lemma fixed_unless_dry_run (rest : M unit) : fixed rest -> fixed (unless_dry_run rest).
Proof.
  intros Hr s Hs. unfold unless_dry_run.
  destruct (dry_run (release_metadata s)); [| apply Hr; exact Hs].
  simpl. split; [exact I | apply same_checkpoints_refl].
Qed.

Lemma fixed_git (r : repo_id) (c : git_cmd) : fixed (git r c).
Proof.
  apply fixed_outside, fixed_when_metadata_kept. intros s.
  destruct (git_exec c (get_repo r s) (worktree r s)) as [[out r'] |]; [destruct r |]; reflexivity.
Qed.

Ltac metadata_kept :=
  apply fixed_when_metadata_kept; intros s;
  repeat match goal with
         | |- context [match ?x with _ => _ end] => destruct x
         end; reflexivity.

Lemma fixed_active_branch_name (r : repo_id) : fixed (active_branch_name r).
Proof. apply fixed_outside. metadata_kept. Qed.

Lemma fixed_read_file (path : string) : fixed (read_file path).
Proof. apply fixed_outside. metadata_kept. Qed.

Lemma fixed_write_file (path text : string) : fixed (write_file path text).
Proof. apply fixed_outside. metadata_kept. Qed.

Lemma fixed_isdir (path : string) : fixed (isdir path).
Proof. apply fixed_outside. metadata_kept. Qed.

Lemma fixed_rmtree (path : string) : fixed (rmtree path).
Proof. apply fixed_outside. metadata_kept. Qed.

Lemma fixed_copytree (src dst : string) : fixed (copytree src dst).
Proof. apply fixed_outside. metadata_kept. Qed.

Lemma fixed_walk (path : string) : fixed (walk path).
Proof. apply fixed_outside. metadata_kept. Qed.

Lemma fixed_input (prompt : string) : fixed (input prompt).
Proof. apply fixed_outside. metadata_kept. Qed.

Lemma fixed_requests_post url headers body params :
  fixed (requests_post url headers body params).
Proof. apply fixed_outside. metadata_kept. Qed.

Lemma fixed_make_installers (f : bool) (l : list string) : fixed (make_installers f l).
Proof. apply fixed_outside. metadata_kept. Qed.

Lemma fixed_print (line : string) : fixed (print line).
Proof. metadata_kept. Qed.

Lemma fixed_print_error (message : string) : fixed (_print_error message).
Proof. metadata_kept. Qed.

Lemma fixed_get {A : Type} (f : state -> A) : fixed (fun s => (Returned (f s), s)).
Proof. metadata_kept. Qed.

Lemma fixed_modify_config (f : state -> state) :
  (forall s, release_metadata (f s) = release_metadata s) -> fixed (modify f).
Proof. intros H. apply fixed_when_metadata_kept. intros s. simpl. apply H. Qed.

(** The two assignments to the metadata object: [new_version] and
    [new_version_release_notes]. *)
Lemma fixed_assign_new_version (v : option string) :
  fixed (modify (fun s => set_release_metadata
                   (with_new_version v (release_metadata s)) s)).
Proof. intros s _. split; [exact I | split; reflexivity]. Qed.

Lemma fixed_assign_release_notes (notes : string) :
  fixed (modify (fun s => set_release_metadata
                   (with_new_version_release_notes notes (release_metadata s)) s)).
Proof. intros s _. split; [exact I | split; reflexivity]. Qed.

Ltac fixed_steps :=
  repeat first
    [ apply fixed_print | apply fixed_print_error
    | apply fixed_git | apply fixed_active_branch_name | apply fixed_read_file
    | apply fixed_write_file | apply fixed_isdir | apply fixed_rmtree
    | apply fixed_copytree | apply fixed_walk | apply fixed_input
    | apply fixed_requests_post | apply fixed_make_installers
    | apply fixed_assign_new_version | apply fixed_assign_release_notes
    | apply fixed_modify_config; reflexivity
    | apply (fixed_get release_metadata) | apply (fixed_get today)
    | apply (fixed_get PLUGIN_VERSION)
    | apply fixed_ret | apply fixed_raise
    | apply fixed_unless_dry_run
    | apply fixed_try_except
    | apply fixed_for_each; intros ?
    | apply fixed_outside
    | apply fixed_bind; [| intros ?]
    | apply fixed_if
    | match goal with
      | |- keeps _ _ (match ?x with _ => _ end) => destruct x
      end ].

Lemma fixed_rollback : fixed _rollback.
Proof. unfold _rollback. fixed_steps. Qed.

Lemma fixed_make_release : fixed (_make_release ext).
Proof.
  unfold _make_release, _check_branches_for_local_changes,
    _has_active_branch_local_changes, _get_next_version,
    _check_if_tag_with_new_version_already_exists, _prompt_to_proceed,
    _get_release_notes_and_modify_changelog_first_header,
    _update_version_and_release_date_in_config, update_config_entries,
    _create_release_commit, _create_release_tag,
    _prepare_gh_pages_for_update, _make_installers, _push_release_commit,
    _push_release_tag, _create_github_release, _upload_installers_to_github,
    raise_for_status, _print_error_and_exit, sys_exit.
  fixed_steps.
Qed.

Lemma fixed_run_release : fixed (run_release ext).
Proof.
  apply keeps_run_release;
    [ exact same_checkpoints_refl | exact same_checkpoints_trans
    | intros s _; split; [exact I | split; reflexivity]
    | intros message; apply fixed_print_error
    | exact fixed_rollback
    | intros s _; split; [exact I |]
    | exact fixed_make_release ].
  assert (H : fixed (rollback_after_tag_deletion (release_metadata s)))
    by (unfold rollback_after_tag_deletion; fixed_steps).
  exact (proj2 (H s I)).
Qed.

End Checkpoints.

(** In a dry run a step is what it does before it looks at [dry_run]:
    two scripts that agree after [m] on every state of a dry run agree
    with [m] before them. *)
Lemma dry_bind_agrees {A B : Type} (m : M A) (k1 k2 : A -> M B) (s : state) :
  keeps in_dry_run untouched m -> in_dry_run s ->
  (forall a s1, in_dry_run s1 -> k1 a s1 = k2 a s1) ->
  bind m k1 s = bind m k2 s.
Proof.
  intros Hm Hs Hk. unfold bind. destruct (Hm s Hs) as [Hi _].
  destruct (m s) as [[a | e |] s1]; try reflexivity.
  apply Hk. exact Hi.
Qed.

(** The line of a step, and nothing after it. *)
Lemma dry_print_then_return (line : string) (rest : M unit) (s : state) :
  in_dry_run s ->
  (print line ;; unless_dry_run rest) s
  = (Returned tt, set_stdout (stdout s ++ [line]) s).
Proof.
  intros Hs. unfold bind, print, modify, unless_dry_run.
  change (dry_run (release_metadata (set_stdout (stdout s ++ [line]) s)))
    with (dry_run (release_metadata s)).
  unfold in_dry_run in Hs. now rewrite Hs.
Qed.

(** C3. For every starting state, the full step sequence of a dry run,
    with whatever failure or interruption and with the rollback these
    trigger, leaves both repositories, the files (metadata and changelog
    among them) and the directories as they were; what it does outside
    consists of queries only (no mutating git command, no file write, no
    network call, no build). Every mutating step on its own keeps this
    frame, and is no more than the announcement of its action: the step
    that tags, the step that builds, the step that pushes the tag and the
    step that creates the release print their line and return; the steps
    that commit, prepare the pages and push a commit ask for the name of
    the active branch, print their line and return; the step of the
    configuration file assigns the version and the date to the
    configuration in memory, prints its line and returns; the step of the
    changelog reads the changelog, takes the release notes from it,
    prints its line and returns. *)
Theorem dry_run_mutates_nothing (ext : externals) (s : state) :
  dry_run (release_metadata s) = true ->
  untouched s (snd (run_release ext s))
  /\ (untouched s (snd (_get_release_notes_and_modify_changelog_first_header ext s))
      /\ _get_release_notes_and_modify_changelog_first_header ext s
         = (changelog_contents <- read_file CHANGELOG_FILEPATH ;;
            let (header_raw, release_notes) := find_section ext changelog_contents in
            rm <- get_rm ;;
            match search match_first_level_header header_raw with
            | Some (_, (group2, group3)) =>
                if not_in group2 (released_versions rm)
                   && not_in group3 (released_versions rm)
                then
                  modify (fun s => set_release_metadata
                            (with_new_version_release_notes (strip release_notes)
                               (release_metadata s)) s) ;;
                  print ("Replacing header name '"
                         ++ py_str (if truthy group2 then group2 else group3)
                         ++ "' in the changelog with the new version")
                else ret tt
            | None => ret tt
            end) s)
  /\ (untouched s (snd (_update_version_and_release_date_in_config s))
      /\ _update_version_and_release_date_in_config s
         = (Returned tt,
            set_stdout
              (stdout s
               ++ [("Modifying the following entries in file '"
                    ++ PLUGIN_CONFIG_FILEPATH
                    ++ "': PLUGIN_VERSION, PLUGIN_VERSION_RELEASE_DATE")%string])
              (set_PLUGIN_VERSION_RELEASE_DATE (today s)
                 (set_PLUGIN_VERSION (new_version (release_metadata s)) s))))
  /\ (forall r,
        untouched s (snd (_create_release_commit r s))
        /\ _create_release_commit r s
           = (name <- active_branch_name r ;;
              print ("Creating release commit from branch '" ++ name ++ "'")) s)
  /\ (untouched s (snd (_create_release_tag s))
      /\ _create_release_tag s
         = (Returned tt,
            set_stdout
              (stdout s
               ++ [("Creating tag '" ++ py_str (new_version (release_metadata s))
                    ++ "'")%string])
              s))
  /\ (untouched s (snd (_prepare_gh_pages_for_update s))
      /\ _prepare_gh_pages_for_update s
         = (name <- active_branch_name PagesRepo ;;
            print ("Preparing branch '" ++ name ++ "' for update")) s)
  /\ (untouched s (snd (_make_installers s))
      /\ _make_installers s
         = (Returned tt, set_stdout (stdout s ++ ["Creating installers"]) s))
  /\ (forall r remote_branch_arg,
        untouched s (snd (_push_release_commit r remote_branch_arg s))
        /\ _push_release_commit r remote_branch_arg s
           = (name <- active_branch_name r ;;
              print ("Pushing release commit from branch '" ++ name ++ "' to remote '"
                     ++ remote_name (release_metadata s) ++ " "
                     ++ match remote_branch_arg with
                        | None => remote_branch (release_metadata s)
                        | Some b => b
                        end ++ "'")) s)
  /\ (untouched s (snd (_push_release_tag s))
      /\ _push_release_tag s
         = (Returned tt,
            set_stdout
              (stdout s
               ++ [("Pushing tag '" ++ py_str (new_version (release_metadata s))
                    ++ "' to remote '" ++ remote_name (release_metadata s)
                    ++ "'")%string])
              s))
  /\ (untouched s (snd (_create_github_release s))
      /\ _create_github_release s
         = (Returned tt, set_stdout (stdout s ++ ["Creating GitHub release"]) s)).
Proof.
  intros Hd.
  assert (Hs : in_dry_run s) by exact Hd.
  assert (Hprinted : forall line, untouched s (set_stdout (stdout s ++ [line]) s)).
  { intros line. exact (proj2 (dry_print line s Hs)). }
  split; [apply (dry_run_release ext s Hs) |].
  split.
  { split; [apply (dry_changelog ext s Hs) |].
    unfold _get_release_notes_and_modify_changelog_first_header.
    apply dry_bind_agrees; [apply dry_read_file | exact Hs |].
    intros changelog_contents s1 H1.
    destruct (find_section ext changelog_contents) as [header_raw release_notes].
    destruct (search match_first_level_header header_raw) as [[? [group2 group3]] |];
      [| reflexivity].
    apply dry_bind_agrees; [apply (dry_get release_metadata) | exact H1 |].
    intros rm s2 H2.
    destruct (not_in group2 (released_versions rm)
              && not_in group3 (released_versions rm));
      [| reflexivity].
    apply dry_bind_agrees; [apply dry_set_metadata; reflexivity | exact H2 |].
    intros ? s3 H3. cbv beta.
    rewrite (dry_print_then_return _ _ s3 H3). reflexivity. }
  split.
  { split; [apply (dry_config s Hs) |].
    unfold _update_version_and_release_date_in_config.
    unfold bind at 1. unfold get_rm at 1.
    unfold bind at 1. unfold bind at 1. unfold modify at 1.
    unfold bind at 1. unfold modify at 1.
    exact (dry_print_then_return _ _
             (set_PLUGIN_VERSION_RELEASE_DATE (today s)
                (set_PLUGIN_VERSION (new_version (release_metadata s)) s)) Hs). }
  split.
  { intros r. split.
    - refine (proj2 (_ s Hs)). unfold _create_release_commit.
      apply dry_bind; [apply dry_active_branch_name | intros ?].
      apply dry_bind; [apply dry_print | intros ?]. apply dry_unless_dry_run.
    - unfold _create_release_commit.
      apply dry_bind_agrees; [apply dry_active_branch_name | exact Hs |].
      intros name s1 H1. cbv beta.
      rewrite (dry_print_then_return _ _ s1 H1). reflexivity. }
  split.
  { assert (E : _create_release_tag s
                = (Returned tt,
                   set_stdout
                     (stdout s
                      ++ [("Creating tag '" ++ py_str (new_version (release_metadata s))
                           ++ "'")%string])
                     s)).
    { unfold _create_release_tag. unfold bind at 1. unfold get_rm.
      exact (dry_print_then_return _ _ s Hs). }
    rewrite E. split; [apply Hprinted | reflexivity]. }
  split.
  { split.
    - refine (proj2 (_ s Hs)). unfold _prepare_gh_pages_for_update.
      apply dry_bind; [apply dry_active_branch_name | intros ?].
      apply dry_bind; [apply dry_print | intros ?]. apply dry_unless_dry_run.
    - unfold _prepare_gh_pages_for_update.
      apply dry_bind_agrees; [apply dry_active_branch_name | exact Hs |].
      intros name s1 H1. cbv beta.
      rewrite (dry_print_then_return _ _ s1 H1). reflexivity. }
  split.
  { assert (E : _make_installers s
                = (Returned tt, set_stdout (stdout s ++ ["Creating installers"]) s))
      by exact (dry_print_then_return _ _ s Hs).
    rewrite E. split; [apply Hprinted | reflexivity]. }
  split.
  { intros r remote_branch_arg. split.
    - refine (proj2 (_ s Hs)). unfold _push_release_commit.
      apply dry_bind; [apply (dry_get release_metadata) | intros ?].
      apply dry_bind; [apply dry_active_branch_name | intros ?].
      apply dry_bind; [apply dry_print | intros ?]. apply dry_unless_dry_run.
    - unfold _push_release_commit. unfold bind at 1. unfold get_rm. cbv zeta.
      apply dry_bind_agrees; [apply dry_active_branch_name | exact Hs |].
      intros name s1 H1. cbv beta.
      rewrite (dry_print_then_return _ _ s1 H1). reflexivity. }
  split.
  { assert (E : _push_release_tag s
                = (Returned tt,
                   set_stdout
                     (stdout s
                      ++ [("Pushing tag '" ++ py_str (new_version (release_metadata s))
                           ++ "' to remote '" ++ remote_name (release_metadata s)
                           ++ "'")%string])
                     s)).
    { unfold _push_release_tag. unfold bind at 1. unfold get_rm.
      exact (dry_print_then_return _ _ s Hs). }
    rewrite E. split; [apply Hprinted | reflexivity]. }
  assert (E : _create_github_release s
              = (Returned tt, set_stdout (stdout s ++ ["Creating GitHub release"]) s))
    by exact (dry_print_then_return _ _ s Hs).
  rewrite E. split; [apply Hprinted | reflexivity].
Qed.

(** C9. In a dry run the rollback is a no-op: it returns at once and
    leaves the state as it is; the two handlers that call it, on an
    exception and on SIGINT, only print their message and exit with
    status 1. *)
Theorem rollback_is_noop_in_dry_run (s : state) :
  dry_run (release_metadata s) = true ->
  _rollback s = (Returned tt, s)
  /\ handle_sigint s
     = (Raised (SystemExit 1),
        set_stderr (stderr s ++ [newline ++ "Performing rollback and aborting."]) s)
  /\ forall e, exists message,
       handle_exception e s
       = (Raised (SystemExit 1), set_stderr (stderr s ++ [message]) s).
Proof.
  intros Hd.
  assert (Hr : forall s0, dry_run (release_metadata s0) = true ->
                          _rollback s0 = (Returned tt, s0)).
  { intros s0 H0. unfold _rollback, unless_dry_run. now rewrite H0. }
  split; [apply Hr; exact Hd |].
  split.
  - unfold handle_sigint, bind, _print_error, modify. rewrite Hr; [reflexivity | exact Hd].
  - intros e. eexists.
    unfold handle_exception, bind, _print_error, modify. rewrite Hr; [reflexivity | exact Hd].
Qed.

(** ** The shared configuration object *)

(** Case analysis on the innermost scrutinee, until none is left. *)
Ltac case_matches :=
  repeat match goal with
         | |- context [match ?x with _ => _ end] =>
             lazymatch x with
             | context [match _ with _ => _ end] => fail
             | _ => destruct x; simpl
             end
         end.

Lemma update_config_entries_keeps_config (entries : list (string * option string))
  (s : state) :
  PLUGIN_VERSION (snd (update_config_entries entries s)) = PLUGIN_VERSION s
  /\ PLUGIN_VERSION_RELEASE_DATE (snd (update_config_entries entries s))
     = PLUGIN_VERSION_RELEASE_DATE s.
Proof.
  cbv beta iota delta [update_config_entries read_file write_file outside bind
    _print_error_and_exit _print_error sys_exit raise modify ret].
  case_matches; split; reflexivity.
Qed.

(** C10. The configuration step assigns the new version and the new
    release date to the shared in-memory configuration object in every
    run, before the early return of the dry run is reached: after the step
    the two fields hold these values, whether or not [dry_run] is set and
    however the step ends. In a dry run the step then prints its line and
    returns, and the metadata file is not touched. *)
Theorem config_step_assigns_shared_config (s : state) :
  let r := _update_version_and_release_date_in_config s in
  PLUGIN_VERSION (snd r) = new_version (release_metadata s)
  /\ PLUGIN_VERSION_RELEASE_DATE (snd r) = today s
  /\ (if dry_run (release_metadata s)
      then r = (Returned tt,
                set_stdout
                  (stdout s
                   ++ ["Modifying the following entries in file '"
                       ++ PLUGIN_CONFIG_FILEPATH
                       ++ "': PLUGIN_VERSION, PLUGIN_VERSION_RELEASE_DATE"])
                  (set_PLUGIN_VERSION_RELEASE_DATE (today s)
                     (set_PLUGIN_VERSION (new_version (release_metadata s)) s)))
           /\ files (snd r) = files s /\ trace (snd r) = trace s
      else True).
Proof.
  set (s1 := set_stdout
               (stdout s
                ++ ["Modifying the following entries in file '"
                    ++ PLUGIN_CONFIG_FILEPATH
                    ++ "': PLUGIN_VERSION, PLUGIN_VERSION_RELEASE_DATE"])
               (set_PLUGIN_VERSION_RELEASE_DATE (today s)
                  (set_PLUGIN_VERSION (new_version (release_metadata s)) s))).
  assert (E : _update_version_and_release_date_in_config s
              = if dry_run (release_metadata s) then (Returned tt, s1)
                else update_config_entries
                       [("PLUGIN_VERSION", new_version (release_metadata s));
                        ("PLUGIN_VERSION_RELEASE_DATE", Some (today s))] s1)
    by reflexivity.
  cbv zeta. rewrite E.
  destruct (dry_run (release_metadata s)).
  - repeat split; reflexivity.
  - match goal with
    | |- context [update_config_entries ?es ?s0] =>
        destruct (update_config_entries_keeps_config es s0) as [H1 H2]
    end.
    rewrite H1, H2. repeat split; reflexivity.
Qed.

(** ** What can be raised *)

Section Raises.

Variable P : exn -> Prop.

Lemma raises_ret {A : Type} (a : A) : raises_only P (ret a).
Proof. intros s e H. discriminate. Qed.

Lemma raises_raise {A : Type} (e : exn) : P e -> raises_only P (@raise A e).
Proof. intros He s e' H. simpl in H. congruence. Qed.

Lemma raises_modify (f : state -> state) : raises_only P (modify f).
Proof. intros s e H. discriminate. Qed.

Lemma raises_get {A : Type} (f : state -> A) : raises_only P (fun s => (Returned (f s), s)).
Proof. intros s e H. discriminate. Qed.

Lemma raises_bind {A B : Type} (m : M A) (k : A -> M B) :
  raises_only P m -> (forall a, raises_only P (k a)) -> raises_only P (bind m k).
Proof.
  intros Hm Hk s e. unfold bind. specialize (Hm s).
  destruct (m s) as [[a | e' |] s1]; simpl in *.
  - apply Hk.
  - intros H. apply Hm. congruence.
  - discriminate.
Qed.

Lemma raises_if {A : Type} (b : bool) (m1 m2 : M A) :
  raises_only P m1 -> raises_only P m2 -> raises_only P (if b then m1 else m2).
Proof. destruct b; auto. Qed.

Lemma raises_for_each {A : Type} (l : list A) (body : A -> M unit) :
  (forall x, raises_only P (body x)) -> raises_only P (for_each l body).
Proof.
  intros Hb. induction l as [| x t IH]; simpl.
  - apply raises_ret.
  - apply raises_bind; auto.
Qed.

Lemma raises_try_except {A : Type} (m h : M A) (handles : exn -> bool) :
  raises_only P m -> raises_only P h -> raises_only P (try_except m handles h).
Proof.
  intros Hm Hh s e. unfold try_except. specialize (Hm s).
  destruct (m s) as [[a | e' |] s1]; simpl in *; try discriminate.
  destruct (handles e'); [apply Hh | intros H; apply Hm; exact H].
Qed.

Lemma raises_unless_dry_run (rest : M unit) :
  raises_only P rest -> raises_only P (unless_dry_run rest).
Proof.
  intros Hr s e. unfold unless_dry_run.
  destruct (dry_run (release_metadata s)); [discriminate | apply Hr].
Qed.

Lemma raises_outside {A : Type} (ev : event) (err : option exn) (act : M A) :
  match err with Some e => P e | None => True end ->
  raises_only P act -> raises_only P (outside ev err act).
Proof.
  intros He Ha s e. unfold outside.
  destruct (sigint_due s); [discriminate |].
  destruct err as [e0 |]; [| apply Ha].
  destruct (fault_due s); [| apply Ha].
  simpl. congruence.
Qed.

End Raises.

Section RaisesScript.

Variable ext : externals.
Variable P : exn -> Prop.
Hypothesis P_Exception : forall e, is_Exception e = true -> P e.

Lemma raises_git (r : repo_id) (c : git_cmd) : raises_only P (git r c).
Proof using P_Exception.
  apply raises_outside; [apply P_Exception; reflexivity |].
  intros s e. destruct (git_exec c (get_repo r s) (worktree r s)) as [[out r'] |]; simpl;
    [discriminate | intros H; injection H as <-; apply P_Exception; reflexivity].
Qed.

Ltac raises_prim :=
  apply raises_outside; [try (apply P_Exception; reflexivity); exact I |];
  intros s e; simpl; case_matches; intros H;
  first [discriminate | injection H as <-; apply P_Exception; reflexivity].

Lemma raises_active_branch_name (r : repo_id) : raises_only P (active_branch_name r).
Proof using P_Exception. raises_prim. Qed.

Lemma raises_read_file (path : string) : raises_only P (read_file path).
Proof using P_Exception. raises_prim. Qed.

Lemma raises_write_file (path text : string) : raises_only P (write_file path text).
Proof using P_Exception. raises_prim. Qed.

Lemma raises_isdir (path : string) : raises_only P (isdir path).
Proof using P_Exception. raises_prim. Qed.

Lemma raises_rmtree (path : string) : raises_only P (rmtree path).
Proof using P_Exception. raises_prim. Qed.

Lemma raises_copytree (src dst : string) : raises_only P (copytree src dst).
Proof using P_Exception. raises_prim. Qed.

Lemma raises_walk (path : string) : raises_only P (walk path).
Proof using P_Exception. raises_prim. Qed.

Lemma raises_input (prompt : string) : raises_only P (input prompt).
Proof using P_Exception. raises_prim. Qed.

Lemma raises_requests_post url headers body params :
  raises_only P (requests_post url headers body params).
Proof using P_Exception. raises_prim. Qed.

Lemma raises_make_installers (f : bool) (l : list string) :
  raises_only P (make_installers f l).
Proof using P_Exception. raises_prim. Qed.

Ltac raises_steps :=
  repeat first
    [ apply raises_git | apply raises_active_branch_name | apply raises_read_file
    | apply raises_write_file | apply raises_isdir | apply raises_rmtree
    | apply raises_copytree | apply raises_walk | apply raises_input
    | apply raises_requests_post | apply raises_make_installers
    | apply raises_modify | apply raises_get | apply raises_ret
    | apply raises_raise; apply P_Exception; reflexivity
    | apply raises_unless_dry_run | apply raises_try_except
    | apply raises_for_each; intros ?
    | apply raises_outside; [apply P_Exception; reflexivity |]
    | apply raises_bind; [| intros ?]
    | apply raises_if
    | match goal with
      | |- raises_only _ (match ?x with _ => _ end) => destruct x
      end ].

Lemma raises_rollback : raises_only P _rollback.
Proof using P_Exception. unfold _rollback. raises_steps. Qed.

Hypothesis P_exit_1 : P (SystemExit 1).
Hypothesis P_exit_2 : P (SystemExit PROMPT_NO_EXIT_STATUS).

Lemma raises_make_release : raises_only P (_make_release ext).
Proof using P_Exception P_exit_1 P_exit_2.
  unfold _make_release, _check_branches_for_local_changes,
    _has_active_branch_local_changes, _get_next_version,
    _check_if_tag_with_new_version_already_exists, _prompt_to_proceed,
    _get_release_notes_and_modify_changelog_first_header,
    _update_version_and_release_date_in_config, update_config_entries,
    _create_release_commit, _create_release_tag,
    _prepare_gh_pages_for_update, _make_installers, _push_release_commit,
    _push_release_tag, _create_github_release, _upload_installers_to_github,
    raise_for_status, print, _print_error.
  raises_steps; apply raises_raise; assumption.
Qed.

End RaisesScript.

(** ** Failures, exits and rollback *)

Lemma exit_status_of_Exception {A : Type} (e : exn) :
  is_Exception e = true -> exit_status (@Raised A e) = 1%Z.
Proof. destruct e; simpl; intros H; [discriminate | reflexivity ..]. Qed.

Lemma rollback_raises_Exception (s : state) (e : exn) :
  fst (_rollback s) = Raised e -> is_Exception e = true.
Proof.
  apply (raises_rollback (fun e => is_Exception e = true)). intros e0 H. exact H.
Qed.

(** The handlers print, roll back and exit: they never return, and the
    status of the process is 1 however the rollback ends. *)
Lemma handlers_exit_with_1 (message : string) (s : state) :
  exit_status (fst ((_print_error message ;; _rollback ;; @sys_exit unit 1) s)) = 1%Z
  /\ forall u, fst ((_print_error message ;; _rollback ;; @sys_exit unit 1) s)
               <> Returned u.
Proof.
  set (s0 := set_stderr (stderr s ++ [message]) s).
  assert (E0 : (_print_error message ;; _rollback ;; @sys_exit unit 1) s
               = match _rollback s0 with
                 | (Returned _, s1) => (Raised (SystemExit 1), s1)
                 | (Raised e, s1) => (Raised e, s1)
                 | (Interrupted, s1) => (Interrupted, s1)
                 end) by reflexivity.
  rewrite E0.
  destruct (_rollback s0) as [[[] | e |] s1] eqn:E; simpl;
    (split; [| intros u Hu; discriminate Hu]); try reflexivity.
  apply (@exit_status_of_Exception unit).
  apply (rollback_raises_Exception s0). now rewrite E.
Qed.

(** On a run that is not a dry run, the rollback leaves the attempt to
    delete the tag in the trace, unless a signal stops it before. *)
Lemma rollback_leaves_its_mark (s : state) :
  dry_run (release_metadata s) = false -> sigint_due s = false ->
  rollback_attempted (snd (_rollback s)) = true.
Proof.
  intros Hd Hs. unfold _rollback, unless_dry_run. rewrite Hd.
  cbv beta iota delta [bind try_except get_rm git outside isdir rmtree ret modify raise].
  rewrite Hs.
  case_matches; unfold rollback_attempted; simpl;
    rewrite ?existsb_app; simpl; rewrite ?orb_true_r; reflexivity.
Qed.

(** C1, counterexample. The main repository has local changes and the run
    is not forced: the check prints its message and the process exits with
    status 1. The only thing done outside is the status query: no rollback
    has run, although the run is not a dry run. *)
Lemma dirty_tree_exits_without_rollback :
  let r := run_release Model.ext Runs.dirty_state in
  fst r = Raised (SystemExit 1)
  /\ stderr (snd r)
     = ["Repository contains local changes. "
        ++ "Please remove or commit changes before proceeding."]
  /\ dry_run (release_metadata (snd r)) = false
  /\ trace (snd r) = [EvGit MainRepo StatusPorcelain]
  /\ rollback_attempted (snd r) = false.
Proof. vm_compute. repeat split; reflexivity. Qed.

(** ** The rollback *)

Lemma mem_remove_string (v : string) (l : list string) :
  mem v (remove_string v l) = false.
Proof.
  unfold mem, remove_string. induction l as [| x t IH]; simpl; [reflexivity |].
  destruct (String.eqb v x) eqn:E; simpl; [exact IH | now rewrite E].
Qed.

Lemma remove_string_absent (v : string) (l : list string) :
  mem v l = false -> remove_string v l = l.
Proof.
  unfold mem, remove_string. induction l as [| x t IH]; simpl; [reflexivity |].
  destruct (String.eqb v x) eqn:E; simpl; [discriminate |].
  intros H. now rewrite IH.
Qed.

Lemma lookup_delete {V : Type} (k : string) (l : list (string * V)) :
  lookup k (delete k l) = None.
Proof.
  unfold delete. induction l as [| [k' v] t IH]; simpl; [reflexivity |].
  destruct (String.eqb k k') eqn:E; simpl; [exact IH | now rewrite E].
Qed.

Lemma quiet_no_sigint (s : state) : quiet s -> sigint_due s = false.
Proof. intros [_ H]. unfold sigint_due. now rewrite H. Qed.

Lemma quiet_no_fault (s : state) : quiet s -> fault_due s = false.
Proof. intros [H _]. unfold fault_due. now rewrite H. Qed.

(** In a quiet world an outside action is logged and then performed. *)
Lemma outside_quiet {A : Type} (ev : event) (err : option exn) (act : M A) (s : state) :
  quiet s -> outside ev err act s = act (logged ev s).
Proof.
  intros H. unfold outside.
  rewrite (quiet_no_sigint s H), (quiet_no_fault s H). now destruct err.
Qed.

(** The deletion of the tag, with its error swallowed, goes on to the rest
    of the rollback whatever its outcome. *)
Lemma rollback_unfolds (s : state) :
  dry_run (release_metadata s) = false ->
  _rollback s
  = rollback_after_tag_deletion (release_metadata s)
      (snd (git MainRepo (TagDelete (new_version (release_metadata s))) s)).
Proof.
  intros Hd. unfold _rollback, unless_dry_run. rewrite Hd.
  unfold bind at 1. unfold get_rm at 1. unfold bind at 1.
  unfold try_except, bind at 1, git, outside.
  destruct (sigint_due s) eqn:Hs.
  - simpl. unfold rollback_after_tag_deletion, bind at 1, isdir, outside.
    now rewrite Hs.
  - destruct (fault_due s); [reflexivity |].
    destruct (git_exec _ _ _) as [[out r'] |]; reflexivity.
Qed.

(** C2. On a run that is not a dry run, the rollback
    - first tries to delete the tag named [new_version], and goes on
      whatever the outcome of that command (its error is swallowed, no
      other is: the rest is a plain sequence, the first error of which
      ends the rollback and is raised to the caller);
    - in a quiet world returns with the tag absent (it may have been
      absent before), the output directory of the installers removed if
      it was there, and both repositories reset to the commits recorded
      when the metadata was built;
    and neither the whole run, rollback included, nor the rollback alone
    ever changes the two recorded commits. *)
Theorem rollback_restores_checkpoints (ext : externals) (s : state) :
  dry_run (release_metadata s) = false ->
  let rm := release_metadata s in
  _rollback s
  = rollback_after_tag_deletion rm (snd (git MainRepo (TagDelete (new_version rm)) s))
  /\ (forall e s', rollback_after_tag_deletion rm
                     (snd (git MainRepo (TagDelete (new_version rm)) s))
                   = (Raised e, s') ->
                   _rollback s = (Raised e, s'))
  /\ (quiet s ->
      let s' := snd (_rollback s) in
      fst (_rollback s) = Returned tt
      /\ tags (main_repo s')
         = match new_version rm with
           | Some v => remove_string v (tags (main_repo s))
           | None => tags (main_repo s)
           end
      /\ (forall v, new_version rm = Some v -> mem v (tags (main_repo s')) = false)
      /\ lookup INSTALLERS_OUTPUT_DIRPATH (dirs s') = None
      /\ head (main_repo s') = last_commit_id_before_release rm
      /\ head (pages_repo s') = last_gh_pages_commit_id_before_release rm)
  /\ same_checkpoints s (snd (_rollback s))
  /\ same_checkpoints s (snd (run_release ext s)).
Proof.
  intros Hd rm.
  split; [apply rollback_unfolds; exact Hd |].
  split; [intros e s' H; rewrite rollback_unfolds by exact Hd; exact H |].
  split; [| split; [apply (fixed_rollback s I) | apply (fixed_run_release ext s I)]].
  intros Hq.
  assert (H : exists sf,
             _rollback s = (Returned tt, sf)
             /\ tags (main_repo sf)
                = match new_version rm with
                  | Some v => remove_string v (tags (main_repo s))
                  | None => tags (main_repo s)
                  end
             /\ lookup INSTALLERS_OUTPUT_DIRPATH (dirs sf) = None
             /\ head (main_repo sf) = last_commit_id_before_release rm
             /\ head (pages_repo sf) = last_gh_pages_commit_id_before_release rm).
  { rewrite (rollback_unfolds s Hd). fold rm.
    unfold git. rewrite (outside_quiet _ _ _ s Hq).
    set (s0 := logged (EvGit MainRepo (TagDelete (new_version rm))) s).
    assert (Htags : exists s1,
               snd (match git_exec (TagDelete (new_version rm)) (get_repo MainRepo s0)
                            (worktree MainRepo s0) with
                    | Some (out, r') => (Returned out, set_repo MainRepo r' s0)
                    | None => (Raised GitCommandError, s0)
                    end) = s1
               /\ quiet s1
               /\ tags (main_repo s1)
                  = match new_version rm with
                    | Some v => remove_string v (tags (main_repo s))
                    | None => tags (main_repo s)
                    end).
    { eexists. split; [reflexivity |]. simpl.
      destruct (new_version rm) as [v |]; simpl.
      - destruct (mem v (tags (main_repo s))) eqn:Hm; simpl.
        + repeat split; try apply Hq; reflexivity.
        + repeat split; try apply Hq; try reflexivity.
          symmetry. apply remove_string_absent. exact Hm.
      - repeat split; try apply Hq; reflexivity. }
    destruct Htags as (s1 & -> & Hq1 & Ht1).
    unfold rollback_after_tag_deletion.
    unfold bind at 1. unfold isdir. rewrite (outside_quiet _ _ _ s1 Hq1).
    set (s2 := logged (EvIsDir INSTALLERS_OUTPUT_DIRPATH) s1).
    assert (Hq2 : quiet s2) by exact Hq1.
    assert (Hrm : exists s3,
               (if match lookup INSTALLERS_OUTPUT_DIRPATH (dirs s2) with
                   | Some _ => true
                   | None => false
                   end
                then rmtree INSTALLERS_OUTPUT_DIRPATH else ret tt) s2 = (Returned tt, s3)
               /\ quiet s3 /\ main_repo s3 = main_repo s1
               /\ lookup INSTALLERS_OUTPUT_DIRPATH (dirs s3) = None).
    { destruct (lookup INSTALLERS_OUTPUT_DIRPATH (dirs s2)) as [d |] eqn:El.
      - unfold rmtree. rewrite (outside_quiet _ _ _ s2 Hq2).
        change (dirs (logged (EvRmTree INSTALLERS_OUTPUT_DIRPATH) s2)) with (dirs s2).
        rewrite El. eexists. split; [reflexivity |].
        repeat split; try apply Hq2. simpl. apply lookup_delete.
      - eexists. split; [reflexivity |]. repeat split; try apply Hq2. exact El. }
    destruct Hrm as (s3 & E3 & Hq3 & Hm3 & Hl3).
    cbv beta iota. unfold bind at 1. rewrite E3.
    unfold bind, git.
    rewrite (outside_quiet _ _ _ s3 Hq3). simpl git_exec. cbv beta iota.
    match goal with
    | |- context [outside ?ev ?err ?act ?st] =>
        rewrite (outside_quiet ev err act st) by exact Hq3
    end.
    simpl. eexists. split; [reflexivity |]. simpl.
    repeat split; try reflexivity.
    - rewrite Hm3. exact Ht1.
    - exact Hl3. }
  destruct H as (sf & E & Ht & Hl & Hh1 & Hh2).
  cbv zeta. rewrite E. simpl.
  repeat split; auto.
  intros v Hv. rewrite Ht, Hv. apply mem_remove_string.
Qed.

(** ** The steps before the first mutation, in a quiet world *)

Lemma bind_returned {A B : Type} (m : M A) (k : A -> M B) (s s1 : state) (a : A) :
  m s = (Returned a, s1) -> bind m k s = k a s1.
Proof. intros H. unfold bind. now rewrite H. Qed.

Lemma bind_raised {A B : Type} (m : M A) (k : A -> M B) (s s1 : state) (e : exn) :
  m s = (Raised e, s1) -> bind m k s = (Raised e, s1).
Proof. intros H. unfold bind. now rewrite H. Qed.

Lemma asked_refl (s : state) : quiet s -> asked s s.
Proof. intros H. repeat split; try apply H. exists []. split; [now rewrite app_nil_r | reflexivity]. Qed.

Lemma asked_trans (a b c : state) : asked a b -> asked b c -> asked a c.
Proof.
  intros (_ & U1 & E1 & I1 & R1) (Q2 & U2 & E2 & I2 & R2).
  split; [exact Q2 |]. split; [eapply untouched_trans; eassumption |].
  repeat split; congruence.
Qed.

Lemma asked_logged (ev : event) (s : state) :
  is_query ev = true -> quiet s -> asked s (logged ev s).
Proof.
  intros Hq H. split; [exact H |]. split.
  - repeat split. exists [ev]. split; [reflexivity | simpl; now rewrite Hq].
  - repeat split.
Qed.

Lemma asked_print (line : string) (s : state) :
  quiet s -> asked s (set_stdout (stdout s ++ [line]) s).
Proof.
  intros H. split; [exact H |]. split.
  - repeat split. exists []. split; [simpl; now rewrite app_nil_r | reflexivity].
  - repeat split.
Qed.

Lemma status_query_quiet (r : repo_id) (s : state) :
  quiet s ->
  _has_active_branch_local_changes r s
  = (Returned (negb (String.eqb (status_porcelain (get_repo r s)) "")),
     set_repo r (get_repo r s) (logged (EvGit r StatusPorcelain) s)).
Proof.
  intros H. unfold _has_active_branch_local_changes, bind, git.
  rewrite (outside_quiet _ _ _ s H). destruct r; reflexivity.
Qed.

Lemma asked_status_query (r : repo_id) (s : state) :
  quiet s ->
  asked s (set_repo r (get_repo r s) (logged (EvGit r StatusPorcelain) s)).
Proof.
  intros H. split; [destruct r; exact H |]. split.
  - destruct (set_repo_same r (logged (EvGit r StatusPorcelain) s)) as [H1 H2].
    split; [exact H1 |]. split; [exact H2 |].
    split; [destruct r; reflexivity |]. split; [destruct r; reflexivity |].
    exists [EvGit r StatusPorcelain]. split; [destruct r; reflexivity | reflexivity].
  - destruct r; repeat split.
Qed.

Lemma check_branches_passes (s : state) :
  quiet s ->
  force (release_metadata s) = true \/ status_porcelain (main_repo s) = "" ->
  status_porcelain (pages_repo s) = "" ->
  exists s1, _check_branches_for_local_changes s = (Returned tt, s1) /\ asked s s1.
Proof.
  intros Hq Hmain Hpages.
  assert (Hfirst : exists s0,
             (if force (release_metadata s) then ret tt
              else
                changed <- _has_active_branch_local_changes MainRepo ;;
                if changed then
                  _print_error_and_exit
                    ("Repository contains local changes. "
                     ++ "Please remove or commit changes before proceeding.") 1
                else ret tt) s = (Returned tt, s0) /\ asked s s0).
  { destruct (force (release_metadata s)) eqn:Hforce.
    - exists s. split; [reflexivity | apply asked_refl; exact Hq].
    - destruct Hmain as [Hmain | Hmain]; [discriminate |].
      eexists. split.
      + rewrite (bind_returned _ _ _ _ _ (status_query_quiet MainRepo s Hq)).
        cbn [get_repo]. rewrite Hmain. reflexivity.
      + apply (asked_status_query MainRepo s Hq). }
  destruct Hfirst as (s0 & E0 & A0).
  assert (Hq0 : quiet s0) by apply A0.
  unfold _check_branches_for_local_changes.
  unfold bind at 1. unfold get_rm at 1. unfold bind at 1. rewrite E0.
  rewrite (bind_returned _ _ _ _ _ (status_query_quiet PagesRepo s0 Hq0)).
  cbn [get_repo].
  assert (Hp0 : pages_repo s0 = pages_repo s) by apply A0.
  rewrite Hp0, Hpages. simpl.
  eexists. split; [reflexivity |].
  eapply asked_trans; [exact A0 |].
  rewrite <- Hp0. apply (asked_status_query PagesRepo s0 Hq0).
Qed.

Lemma active_branch_quiet (r : repo_id) (s : state) (b : string) :
  quiet s -> branch (get_repo r s) = Some b ->
  active_branch_name r s = (Returned b, logged (EvActiveBranch r) s).
Proof.
  intros Hq Hb. unfold active_branch_name. rewrite (outside_quiet _ _ _ s Hq).
  change (get_repo r (logged (EvActiveBranch r) s)) with (get_repo r s).
  now rewrite Hb.
Qed.

Section Preflight.

Variable ext : externals.

Lemma get_next_version_returns (s : state) (v v' : Version ext) :
  quiet s ->
  Version_parse ext (current_version (release_metadata s)) = Some v ->
  Version_increment ext v (release_type (release_metadata s))
    (prerelease (release_metadata s)) = inr v' ->
  exists s1, _get_next_version ext s = (Returned (Version_str ext v'), s1)
             /\ asked s s1.
Proof.
  intros Hq Hp Hi. unfold _get_next_version.
  unfold bind at 1. unfold get_rm at 1. rewrite Hp.
  unfold bind at 1. unfold ret at 1. rewrite Hi.
  unfold bind at 1. unfold ret at 1.
  eexists. split; [reflexivity |].
  eapply asked_trans; [apply asked_print; exact Hq |].
  apply asked_print. exact Hq.
Qed.

(** The steps of [_make_release] up to the assignment of [new_version]. *)
Lemma version_computed (s : state) (b : string) (v v' : Version ext) :
  quiet s ->
  force (release_metadata s) = true \/ status_porcelain (main_repo s) = "" ->
  status_porcelain (pages_repo s) = "" ->
  branch (main_repo s) = Some b ->
  Version_parse ext (current_version (release_metadata s)) = Some v ->
  Version_increment ext v (release_type (release_metadata s))
    (prerelease (release_metadata s)) = inr v' ->
  exists s1,
    asked s s1
    /\ forall rest : M unit,
       (_check_branches_for_local_changes ;;
        name <- active_branch_name MainRepo ;;
        print ("Active branch: " ++ name) ;;
        v <- _get_next_version ext ;;
        modify (fun s => set_release_metadata
                  (with_new_version (Some v) (release_metadata s)) s) ;;
        rest) s
       = rest (set_release_metadata
                 (with_new_version (Some (Version_str ext v')) (release_metadata s))
                 s1).
Proof.
  intros Hq Hmain Hpages Hb Hp Hi.
  destruct (check_branches_passes s Hq Hmain Hpages) as (s1 & E1 & A1).
  assert (Hq1 : quiet s1) by apply A1.
  assert (Hb1 : branch (get_repo MainRepo s1) = Some b).
  { simpl. destruct A1 as (_ & (Hm & _) & _). now rewrite Hm. }
  pose proof (active_branch_quiet MainRepo s1 b Hq1 Hb1) as E2.
  set (s2 := logged (EvActiveBranch MainRepo) s1) in *.
  set (s3 := set_stdout (stdout s2 ++ ["Active branch: " ++ b]) s2).
  assert (A3 : asked s s3).
  { eapply asked_trans; [exact A1 |].
    eapply asked_trans;
      [apply (asked_logged (EvActiveBranch MainRepo)); [reflexivity | exact Hq1] |].
    apply asked_print. exact Hq1. }
  assert (Hr3 : release_metadata s3 = release_metadata s) by apply A3.
  assert (Hq3 : quiet s3) by apply A3.
  destruct (get_next_version_returns s3 v v' Hq3) as (s4 & E4 & A4);
    [now rewrite Hr3 | now rewrite Hr3 |].
  exists s4. split; [eapply asked_trans; eassumption |].
  intros rest.
  rewrite (bind_returned _ _ _ _ _ E1).
  rewrite (bind_returned _ _ _ _ _ E2).
  unfold bind at 1. unfold print at 1. unfold modify at 1. fold s3.
  rewrite (bind_returned _ _ _ _ _ E4).
  unfold bind at 1. unfold modify at 1.
  replace (release_metadata s4) with (release_metadata s); [reflexivity |].
  destruct A4 as (_ & _ & _ & _ & R4). now rewrite R4, Hr3.
Qed.

End Preflight.

Lemma tag_check_quiet (s : state) (nv : string) :
  quiet s -> new_version (release_metadata s) = Some nv -> nv <> "" ->
  _check_if_tag_with_new_version_already_exists s
  = if mem nv (tags (main_repo s))
    then (Raised (SystemExit 1),
          set_stderr
            (stderr s
             ++ ["Repository already contains tag '" ++ nv
                 ++ "', indicating that such a version is already released."])
            (set_main_repo (main_repo s) (logged (EvGit MainRepo (TagList (Some nv))) s)))
    else (Returned tt,
          set_main_repo (main_repo s) (logged (EvGit MainRepo (TagList (Some nv))) s)).
Proof.
  intros Hq Hv Hne. unfold _check_if_tag_with_new_version_already_exists.
  unfold bind at 1. unfold get_rm at 1. rewrite Hv.
  unfold bind at 1. unfold git. rewrite (outside_quiet _ _ _ s Hq).
  simpl. destruct (mem nv (tags (main_repo s))); [| reflexivity].
  destruct (String.eqb_spec nv ""); [contradiction | reflexivity].
Qed.

Lemma queries_delete_no_tag (evs : list event) :
  forallb is_query evs = true -> existsb is_tag_delete evs = false.
Proof.
  induction evs as [| ev t IH]; [reflexivity |].
  simpl. intros Q. apply andb_true_iff in Q as [Q0 Q1]. rewrite (IH Q1).
  destruct ev as [r c | | | | | | | | | |]; try reflexivity.
  destruct r, c; try reflexivity; discriminate.
Qed.

(** A step that ends in [sys.exit] ends the run: [SystemExit] is not an
    [Exception], so the except clause lets it pass. *)
Lemma exit_ends_the_run (ext : externals) (s s1 : state) (status : Z) :
  _make_release ext s = (Raised (SystemExit status), s1) ->
  run_release ext s = (Raised (SystemExit status), s1).
Proof.
  intros E. unfold run_release, except_Exception, under_sigint_handler.
  rewrite E. reflexivity.
Qed.

Lemma untouched_no_rollback (s s' : state) :
  untouched s s' -> rollback_attempted s' = rollback_attempted s.
Proof.
  intros (_ & _ & _ & _ & evs & T & Q). unfold rollback_attempted.
  rewrite T, existsb_app, (queries_delete_no_tag evs Q). apply orb_false_r.
Qed.

(** The check of the tag ends the run when the computed version is a
    tag. *)
Lemma existing_tag_ends_run (ext : externals) (s : state)
  (b : string) (v v' : Version ext) :
  quiet s ->
  force (release_metadata s) = true \/ status_porcelain (main_repo s) = "" ->
  status_porcelain (pages_repo s) = "" ->
  branch (main_repo s) = Some b ->
  Version_parse ext (current_version (release_metadata s)) = Some v ->
  Version_increment ext v (release_type (release_metadata s))
    (prerelease (release_metadata s)) = inr v' ->
  Version_str ext v' <> "" ->
  mem (Version_str ext v') (tags (main_repo s)) = true ->
  exists s',
    run_release ext s = (Raised (SystemExit 1), s')
    /\ stderr s'
       = (stderr s
          ++ [("Repository already contains tag '" ++ Version_str ext v'
               ++ "', indicating that such a version is already released.")%string])%list
    /\ files s' = files s /\ dirs s' = dirs s
    /\ main_repo s' = main_repo s /\ pages_repo s' = pages_repo s
    /\ untouched s s'
    /\ rollback_attempted s' = rollback_attempted s.
Proof.
  intros Hq Hmain Hpages Hb Hp Hi Hne Hmem.
  destruct (version_computed ext s b v v' Hq Hmain Hpages Hb Hp Hi) as (s1 & A1 & E).
  set (nv := Version_str ext v') in *.
  set (s2 := set_release_metadata
               (with_new_version (Some nv) (release_metadata s)) s1) in *.
  assert (Hq2 : quiet s2) by apply A1.
  assert (Hm2 : main_repo s2 = main_repo s) by apply A1.
  pose proof (tag_check_quiet s2 nv Hq2 eq_refl Hne) as T.
  rewrite Hm2, Hmem in T.
  assert (EM : _make_release ext s
               = (Raised (SystemExit 1),
                  set_stderr
                    (stderr s2
                     ++ ["Repository already contains tag '" ++ nv
                         ++ "', indicating that such a version is already released."])
                    (set_main_repo (main_repo s)
                       (logged (EvGit MainRepo (TagList (Some nv))) s2)))).
  { unfold _make_release. rewrite E. apply (bind_raised _ _ _ _ _ T). }
  eexists. split; [exact (exit_ends_the_run ext s _ 1%Z EM) |].
  destruct A1 as (_ & U1 & S1 & _ & _).
  destruct U1 as (M1 & P1 & F1 & D1 & evs & T1 & Q1).
  split; [simpl; now rewrite S1 |].
  split; [exact F1 |]. split; [exact D1 |]. split; [reflexivity |].
  split; [exact P1 |].
  split.
  - repeat split; auto.
    exists (evs ++ [EvGit MainRepo (TagList (Some nv))])%list. split.
    + simpl. rewrite T1. now rewrite app_assoc.
    + rewrite forallb_app, Q1. reflexivity.
  - unfold rollback_attempted. simpl. rewrite T1, !existsb_app. simpl.
    rewrite orb_false_r, (queries_delete_no_tag evs Q1). apply orb_false_r.
Qed.

(** C4. In every run that gets as far as computing the new version (the
    world is quiet, the checks for local changes pass, the version library
    accepts the current version), if the computed version is the name of a
    tag of the main repository, the run ends with the message of the
    existing tag and exit status 1. The tags are those of the repository
    at that moment, whatever [released_versions] holds. Up to there the
    script has only asked questions: no file, directory or repository has
    changed, and nothing runs afterwards. *)
Theorem existing_tag_aborts_before_any_write (ext : externals) (s : state)
  (b : string) (v v' : Version ext) :
  quiet s ->
  force (release_metadata s) = true \/ status_porcelain (main_repo s) = "" ->
  status_porcelain (pages_repo s) = "" ->
  branch (main_repo s) = Some b ->
  Version_parse ext (current_version (release_metadata s)) = Some v ->
  Version_increment ext v (release_type (release_metadata s))
    (prerelease (release_metadata s)) = inr v' ->
  Version_str ext v' <> "" ->
  mem (Version_str ext v') (tags (main_repo s)) = true ->
  exists s',
    run_release ext s = (Raised (SystemExit 1), s')
    /\ stderr s'
       = (stderr s
          ++ [("Repository already contains tag '" ++ Version_str ext v'
               ++ "', indicating that such a version is already released.")%string])%list
    /\ files s' = files s /\ dirs s' = dirs s
    /\ main_repo s' = main_repo s /\ pages_repo s' = pages_repo s
    /\ untouched s s'
    /\ rollback_attempted s' = rollback_attempted s.
Proof. exact (existing_tag_ends_run ext s b v v'). Qed.

Lemma prompt_declined (s : state) (response : string) (rest : list string) :
  quiet s -> stdin s = response :: rest -> strtobool response <> Some true ->
  _prompt_to_proceed s
  = (Raised (SystemExit PROMPT_NO_EXIT_STATUS),
     set_stderr (stderr s ++ ["Aborting."])
       (set_stdin rest (logged (EvInput "Proceed with release? [y/n] ") s))).
Proof.
  intros Hq Hin Hno. unfold _prompt_to_proceed.
  unfold bind at 1. unfold input. rewrite (outside_quiet _ _ _ s Hq).
  change (stdin (logged (EvInput "Proceed with release? [y/n] ") s)) with (stdin s).
  rewrite Hin.
  destruct (strtobool response) as [[|] |]; [congruence | reflexivity | reflexivity].
Qed.

(** C8, amended. In an interactive run that reaches the prompt, an answer
    that [strtobool] does not read as true makes the script print
    [Aborting.] on the error stream and exit with status 2. The prompt is
    the last thing the script does outside: the rollback does not run, and
    nothing has been changed. *)
Theorem declined_prompt_exits_with_2 (ext : externals) (s : state)
  (b : string) (v v' : Version ext) (response : string) (rest : list string) :
  quiet s ->
  interactive (release_metadata s) = true ->
  force (release_metadata s) = true \/ status_porcelain (main_repo s) = "" ->
  status_porcelain (pages_repo s) = "" ->
  branch (main_repo s) = Some b ->
  Version_parse ext (current_version (release_metadata s)) = Some v ->
  Version_increment ext v (release_type (release_metadata s))
    (prerelease (release_metadata s)) = inr v' ->
  Version_str ext v' <> "" ->
  mem (Version_str ext v') (tags (main_repo s)) = false ->
  stdin s = response :: rest ->
  strtobool response <> Some true ->
  exists s',
    run_release ext s = (Raised (SystemExit 2), s')
    /\ exit_status (fst (run_release ext s)) = 2%Z
    /\ stderr s' = (stderr s ++ ["Aborting."])%list
    /\ (exists evs, trace s'
                    = (trace s ++ evs ++ [EvInput "Proceed with release? [y/n] "])%list)
    /\ untouched s s'
    /\ rollback_attempted s' = rollback_attempted s.
Proof.
  intros Hq Hint Hmain Hpages Hb Hp Hi Hne Hmem Hin Hno.
  destruct (version_computed ext s b v v' Hq Hmain Hpages Hb Hp Hi) as (s1 & A1 & E).
  set (nv := Version_str ext v') in *.
  set (s2 := set_release_metadata
               (with_new_version (Some nv) (release_metadata s)) s1) in *.
  assert (Hq2 : quiet s2) by apply A1.
  assert (Hm2 : main_repo s2 = main_repo s) by apply A1.
  pose proof (tag_check_quiet s2 nv Hq2 eq_refl Hne) as T.
  rewrite Hm2, Hmem in T.
  set (s3 := set_main_repo (main_repo s) (logged (EvGit MainRepo (TagList (Some nv))) s2)) in *.
  assert (Hq3 : quiet s3) by exact Hq2.
  assert (Hin3 : stdin s3 = response :: rest).
  { destruct A1 as (_ & _ & _ & I1 & _). simpl. now rewrite I1. }
  pose proof (prompt_declined s3 response rest Hq3 Hin3 Hno) as Pr.
  assert (R : run_release ext s
              = (Raised (SystemExit 2),
                 set_stderr (stderr s3 ++ ["Aborting."])
                   (set_stdin rest (logged (EvInput "Proceed with release? [y/n] ") s3)))).
  { unfold run_release, under_sigint_handler, except_Exception, _make_release.
    rewrite E. rewrite (bind_returned _ _ _ _ _ T).
    unfold bind at 1. unfold get_rm at 1.
    change (interactive (release_metadata s3)) with (interactive (release_metadata s)).
    rewrite Hint. rewrite (bind_raised _ _ _ _ _ Pr). reflexivity. }
  rewrite R. eexists. split; [reflexivity |].
  destruct A1 as (_ & U1 & S1 & _ & _).
  destruct U1 as (M1 & P1 & F1 & D1 & evs & T1 & Q1).
  split; [reflexivity |].
  split; [simpl; now rewrite S1 |].
  split.
  { exists (evs ++ [EvGit MainRepo (TagList (Some nv))])%list.
    simpl. rewrite T1. now rewrite <- !app_assoc. }
  split.
  - repeat split; auto.
    exists (evs ++ [EvGit MainRepo (TagList (Some nv));
                    EvInput "Proceed with release? [y/n] "])%list. split.
    + simpl. rewrite T1. now rewrite <- !app_assoc.
    + rewrite forallb_app, Q1. reflexivity.
  - unfold rollback_attempted. simpl. rewrite T1, !existsb_app. simpl.
    rewrite !orb_false_r, (queries_delete_no_tag evs Q1). apply orb_false_r.
Qed.

(** C8, counterexample. The user answers [n] in a run that is not a dry
    run: the process prints [Aborting.] and exits with status 2, and the
    rollback has not run (no attempt to delete the tag, no reset: the
    prompt is the last event). *)
Lemma declined_prompt_skips_rollback :
  let r := run_release Model.ext Runs.declined_state in
  fst r = Raised (SystemExit 2)
  /\ stderr (snd r) = ["Aborting."]
  /\ dry_run (release_metadata (snd r)) = false
  /\ trace (snd r)
     = [EvGit MainRepo StatusPorcelain; EvGit PagesRepo StatusPorcelain;
        EvActiveBranch MainRepo; EvGit MainRepo (TagList (Some "1.3.0"));
        EvInput "Proceed with release? [y/n] "]
  /\ rollback_attempted (snd r) = false.
Proof. vm_compute. repeat split; reflexivity. Qed.

(** ** The scan of the configuration file *)

Lemma strip_prefix_app (p s r : string) : strip_prefix p s = Some r -> s = p ++ r.
Proof.
  revert s. induction p as [| a p IH]; intros s H; simpl in *.
  - now injection H as ->.
  - destruct s as [| c s']; [discriminate |].
    destruct (Ascii.eqb_spec a c) as [-> |]; [| discriminate].
    simpl. f_equal. apply IH. exact H.
Qed.

Lemma append_assoc (a b c : string) : (a ++ b) ++ c = a ++ b ++ c.
Proof. induction a as [| x a IH]; simpl; [reflexivity | now rewrite IH]. Qed.

Lemma span_line_app (s l t : string) : span_line s = (l, t) -> s = l ++ t.
Proof.
  revert l t. induction s as [| c s IH]; intros l t H; simpl in H.
  - now injection H as <- <-.
  - destruct (Ascii.eqb c LF).
    + now injection H as <- <-.
    + destruct (span_line s) as [l0 t0]. injection H as <- <-.
      simpl. f_equal. now apply IH.
Qed.

Lemma last_char_app (s : string) (c : ascii) :
  last_char s = Some c -> s = drop_last s ++ String c "".
Proof.
  induction s as [| a s IH]; simpl; [discriminate |].
  destruct s as [| b s'].
  - intros H. now injection H as ->.
  - intros H. simpl. f_equal. apply IH. exact H.
Qed.

(** A line that matches the pattern of [name] is [c.name = "old"], with
    or without a final line feed. *)
Lemma match_entry_shape (name line g tail : string) :
  match_entry name line = Some (g, tail) ->
  g = "c." ++ name ++ " = "
  /\ (tail = "" \/ tail = newline)
  /\ exists old, line = g ++ quoted old ++ tail.
Proof.
  unfold match_entry. intros H.
  destruct (strip_prefix ("c." ++ name ++ " = ") line) as [[| q r] |] eqn:Hp;
    try discriminate.
  destruct (span_line r) as [body tl] eqn:Hs.
  destruct (Ascii.eqb_spec q dquote) as [-> | Hq]; [| discriminate].
  simpl in H.
  destruct (String.eqb tl "" || String.eqb tl newline) eqn:Ht; [| discriminate].
  simpl in H.
  destruct (last_char body) as [c |] eqn:Hl; [| discriminate].
  destruct (Ascii.eqb_spec c dquote) as [-> | Hc]; [| discriminate].
  injection H as <- <-.
  split; [reflexivity |]. split.
  - apply orb_true_iff in Ht as [Ht | Ht]; apply String.eqb_eq in Ht; auto.
  - exists (drop_last body).
    apply strip_prefix_app in Hp. apply span_line_app in Hs. apply last_char_app in Hl.
    rewrite Hp, Hs. unfold quoted. rewrite Hl at 1.
    simpl. now rewrite !append_assoc.
Qed.

Lemma contains_char_app (c : ascii) (a b : string) :
  contains_char c (a ++ b) = contains_char c a || contains_char c b.
Proof.
  induction a as [| x a IH]; simpl; [reflexivity |].
  rewrite IH. now rewrite orb_assoc.
Qed.

(** A template without a backslash stands for itself. *)
Lemma expand_template_plain (g t : string) :
  contains_char backslash t = false -> expand_template g t = t.
Proof.
  induction t as [| c t IH]; simpl; [reflexivity |].
  intros H. apply orb_false_iff in H as [Hc Ht].
  rewrite Hc. now rewrite IH.
Qed.

Lemma expand_entry_template (g v : string) :
  contains_char backslash v = false ->
  expand_template g (String backslash "1" ++ quoted v) = g ++ quoted v.
Proof.
  intros Hv. simpl. unfold quoted. do 2 f_equal.
  apply expand_template_plain.
  rewrite contains_char_app, Hv. reflexivity.
Qed.

Lemma sub_entry_shape (name v line g tail : string) :
  contains_char backslash v = false ->
  match_entry name line = Some (g, tail) ->
  sub_entry name (String backslash "1" ++ quoted v) line
  = "c." ++ name ++ " = " ++ quoted v ++ tail.
Proof.
  intros Hv Hm. unfold sub_entry. rewrite Hm.
  rewrite (expand_entry_template g v Hv).
  destruct (match_entry_shape _ _ _ _ Hm) as (-> & _ & _).
  now rewrite !append_assoc.
Qed.

(** Two names without a space whose patterns match one line are one name. *)
Lemma names_agree (n1 n2 r1 r2 : string) :
  n1 ++ " = " ++ r1 = n2 ++ " = " ++ r2 ->
  contains_char " " n1 = false -> contains_char " " n2 = false -> n1 = n2.
Proof.
  revert n2. induction n1 as [| a n1 IH]; intros [| c n2] H H1 H2; simpl in *.
  - reflexivity.
  - injection H as <- _. discriminate.
  - injection H as -> _. discriminate.
  - injection H as -> H.
    apply orb_false_iff in H1 as [_ H1]. apply orb_false_iff in H2 as [_ H2].
    f_equal. now apply IH.
Qed.

Lemma entry_matches_one_name (n1 n2 line : string) :
  contains_char " " n1 = false -> contains_char " " n2 = false ->
  entry_matches n1 line = true -> entry_matches n2 line = true -> n1 = n2.
Proof.
  unfold entry_matches. intros H1 H2 M1 M2.
  destruct (match_entry n1 line) as [[g1 t1] |] eqn:E1; [| discriminate].
  destruct (match_entry n2 line) as [[g2 t2] |] eqn:E2; [| discriminate].
  destruct (match_entry_shape _ _ _ _ E1) as (-> & _ & old1 & L1).
  destruct (match_entry_shape _ _ _ _ E2) as (-> & _ & old2 & L2).
  rewrite L1 in L2. rewrite !append_assoc in L2. simpl in L2.
  injection L2 as L2.
  exact (names_agree n1 n2 _ _ L2 H1 H2).
Qed.

Lemma filter_some_values (P : string -> bool) (es : list (string * string)) :
  filter (fun e => P (fst e)) (some_values es)
  = some_values (filter (fun e => P (fst e)) es).
Proof.
  induction es as [| e es IH]; simpl; [reflexivity |].
  destruct (P (fst e)); simpl; now rewrite IH.
Qed.

Lemma filter_filter {A : Type} (P Q : A -> bool) (l : list A) :
  filter P (filter Q l) = filter (fun x => Q x && P x) l.
Proof.
  induction l as [| x l IH]; simpl; [reflexivity |].
  destruct (Q x); simpl; [destruct (P x) |]; now rewrite IH.
Qed.

Lemma filter_all {A : Type} (P : A -> bool) (l : list A) :
  (forall x, In x l -> P x = true) -> filter P l = l.
Proof.
  induction l as [| x l IH]; simpl; intros H; [reflexivity |].
  rewrite (H x (or_introl eq_refl)). f_equal. apply IH. auto.
Qed.

Lemma filter_none {A : Type} (P : A -> bool) (l : list A) :
  (forall x, In x l -> P x = false) -> filter P l = [].
Proof.
  induction l as [| x l IH]; simpl; intros H; [reflexivity |].
  rewrite (H x (or_introl eq_refl)). apply IH. auto.
Qed.

Lemma NoDup_names_filter (P : string * string -> bool) (l : list (string * string)) :
  NoDup (map fst l) -> NoDup (map fst (filter P l)).
Proof.
  induction l as [| x l IH]; simpl; intros H; [constructor |].
  inversion H as [| ? ? Hn Hr]; subst.
  destruct (P x); simpl; [| auto].
  constructor; [| auto].
  intros Hin. apply Hn. apply in_map_iff in Hin as (y & Hy & Hin).
  apply filter_In in Hin as [Hin _]. apply in_map_iff. eauto.
Qed.

Lemma plain_filter (P : string * string -> bool) (l : list (string * string)) :
  Forall plain_entry l -> Forall plain_entry (filter P l).
Proof.
  intros H. apply Forall_forall. intros x Hx.
  apply filter_In in Hx as [Hx _]. rewrite Forall_forall in H. auto.
Qed.

Lemma scan_line_cons (line name v : string) (rest : list (string * option string))
  (cur : string) (to_find : list (string * option string)) :
  scan_line line ((name, Some v) :: rest) cur to_find
  = if entry_matches name line
    then scan_line line rest
           (sub_entry name (String backslash "1" ++ quoted v) line)
           (delete name to_find)
    else scan_line line rest cur to_find.
Proof. reflexivity. Qed.

Section ScanLine.

Variable line : string.

Local Abbreviation same_name_match snap :=
  (fun e : string * string =>
     negb (existsb (fun x : string * string =>
                      entry_matches (fst x) line && String.eqb (fst x) (fst e))
                   snap)).

(** The inner loop: what stays to find, and what the line has become. *)
Lemma scan_line_spec (snap : list (string * string)) :
  forall (cur : string) (tf : list (string * string)),
  NoDup (map fst snap) -> Forall plain_entry snap ->
  exists cur',
    scan_line line (some_values snap) cur (some_values tf)
    = Some (cur', some_values (filter (same_name_match snap) tf))
    /\ (existsb (fun x => entry_matches (fst x) line) snap = false -> cur' = cur)
    /\ (forall n v, In (n, v) snap -> entry_matches n line = true ->
          cur' = sub_entry n (String backslash "1" ++ quoted v) line).
Proof.
  induction snap as [| [n0 v0] rest IH]; intros cur tf Hnd Hpl.
  - exists cur. simpl. split; [| split; [auto | intros n v []]].
    rewrite filter_all; [reflexivity | auto].
  - inversion Hnd as [| ? ? Hn0 Hnd']; subst.
    inversion Hpl as [| ? ? Hp0 Hpl']; subst.
    change (some_values ((n0, v0) :: rest)) with ((n0, Some v0) :: some_values rest).
    rewrite scan_line_cons.
    destruct (entry_matches n0 line) eqn:Em.
    + assert (Hrest : existsb (fun x => entry_matches (fst x) line) rest = false).
      { destruct (existsb _ rest) eqn:Ex; [| reflexivity].
        apply existsb_exists in Ex as (x & Hx & Mx).
        exfalso. apply Hn0.
        rewrite Forall_forall in Hpl'.
        assert (fst x = n0).
        { apply (entry_matches_one_name (fst x) n0 line); auto.
          - apply (Hpl' x Hx).
          - apply Hp0. }
        subst n0. apply in_map. exact Hx. }
      unfold delete.
      rewrite (filter_some_values (fun k => negb (String.eqb n0 k)) tf).
      destruct (IH (sub_entry n0 (String backslash "1" ++ quoted v0) line)
                  (filter (fun e => negb (String.eqb n0 (fst e))) tf) Hnd' Hpl')
        as (cur' & E & Ha & Hb).
      exists cur'. split; [| split].
      * rewrite E. do 3 f_equal. rewrite filter_filter.
        apply filter_ext. intros e. simpl. rewrite Em. simpl. now rewrite negb_orb.
      * simpl. rewrite Em. discriminate.
      * intros n v [Hin | Hin] Mn.
        -- injection Hin as <- <-. apply Ha. exact Hrest.
        -- exfalso.
           assert (Ht : existsb (fun x => entry_matches (fst x) line) rest = true).
           { apply existsb_exists. exists (n, v). auto. }
           congruence.
    + destruct (IH cur tf Hnd' Hpl') as (cur' & E & Ha & Hb).
      exists cur'. split; [| split].
      * rewrite E. do 3 f_equal. apply filter_ext. intros e. simpl. now rewrite Em.
      * simpl. rewrite Em. intros H. apply Ha. exact H.
      * intros n v [Hin | Hin] Mn.
        -- injection Hin as <- <-. congruence.
        -- apply (Hb n v Hin Mn).
Qed.

Lemma same_name_match_self (tf : list (string * string)) :
  filter (same_name_match tf) tf
  = filter (fun e => negb (entry_matches (fst e) line)) tf.
Proof.
  apply filter_ext_in. intros e He. f_equal.
  destruct (entry_matches (fst e) line) eqn:Em.
  - apply existsb_exists. exists e. split; [exact He |].
    now rewrite Em, String.eqb_refl.
  - destruct (existsb _ tf) eqn:Ex; [| reflexivity].
    apply existsb_exists in Ex as (x & _ & Hx).
    apply andb_true_iff in Hx as [Mx Nx]. apply String.eqb_eq in Nx.
    rewrite Nx in Mx. congruence.
Qed.

End ScanLine.

Lemma first_matching_line_nth (name : string) (lines : list string) (i : nat) :
  first_matching_line name lines = Some i ->
  exists l, nth_error lines i = Some l /\ entry_matches name l = true.
Proof.
  revert i. induction lines as [| l lines IH]; intros i H; simpl in H; [discriminate |].
  destruct (entry_matches name l) eqn:Em.
  - injection H as <-. exists l. auto.
  - destruct (first_matching_line name lines) as [j |]; [| discriminate].
    injection H as <-. apply (IH j eq_refl).
Qed.

(** The two loops: the names that stay are those that no line matches, and
    the first line that matches a requested name carries its new value. *)
Lemma scan_lines_spec (lines : list string) :
  forall tf : list (string * string),
  NoDup (map fst tf) -> Forall plain_entry tf ->
  exists lines',
    scan_lines lines (some_values tf)
    = Some (lines', some_values (missing_entries lines tf))
    /\ forall n v i, In (n, v) tf -> first_matching_line n lines = Some i ->
         nth_error lines' i
         = option_map (sub_entry n (String backslash "1" ++ quoted v))
             (nth_error lines i).
Proof.
  induction lines as [| line rest IH]; intros tf Hnd Hpl.
  - exists []. split; [| intros n v i _ H; discriminate H].
    simpl. unfold missing_entries. rewrite filter_all; [reflexivity | auto].
  - destruct (scan_line_spec line tf line tf Hnd Hpl) as (cur & E & Ha & Hb).
    rewrite same_name_match_self in E.
    simpl scan_lines. rewrite E.
    destruct (filter (fun e => negb (entry_matches (fst e) line)) tf)
      as [| e1 tf1] eqn:Hf.
    + exists (cur :: rest). split.
      * simpl. unfold missing_entries. rewrite filter_none; [reflexivity |].
        intros x Hx. simpl.
        destruct (entry_matches (fst x) line) eqn:Em; [reflexivity |].
        exfalso. assert (Hin : In x []).
        { rewrite <- Hf. apply filter_In. split; [exact Hx | now rewrite Em]. }
        exact Hin.
      * intros n v i Hin Hi.
        assert (Em : entry_matches n line = true).
        { destruct (entry_matches n line) eqn:Em; [reflexivity |].
          exfalso. assert (Hx : In (n, v) []).
          { rewrite <- Hf. apply filter_In. split; [exact Hin | simpl; now rewrite Em]. }
          exact Hx. }
        simpl in Hi. rewrite Em in Hi. injection Hi as <-.
        simpl. f_equal. apply (Hb n v Hin Em).
    + assert (Hnd1 : NoDup (map fst (e1 :: tf1))).
      { rewrite <- Hf. apply NoDup_names_filter. exact Hnd. }
      assert (Hpl1 : Forall plain_entry (e1 :: tf1)).
      { rewrite <- Hf. apply plain_filter. exact Hpl. }
      destruct (IH (e1 :: tf1) Hnd1 Hpl1) as (rest' & E' & Hr).
      exists (cur :: rest'). split.
      * change (some_values (e1 :: tf1))
          with ((fst e1, Some (snd e1)) :: some_values tf1) in *.
        rewrite E'. do 3 f_equal. unfold missing_entries.
        rewrite <- Hf, filter_filter.
        apply filter_ext. intros e. simpl. now rewrite negb_orb.
      * intros n v i Hin Hi. simpl in Hi.
        destruct (entry_matches n line) eqn:Em.
        -- injection Hi as <-. simpl. f_equal. apply (Hb n v Hin Em).
        -- destruct (first_matching_line n rest) as [j |] eqn:Hj; [| discriminate].
           injection Hi as <-. simpl. apply Hr; [| exact Hj].
           rewrite <- Hf. apply filter_In. split; [exact Hin | simpl; now rewrite Em].
Qed.

Lemma lookup_insert {V : Type} (k : string) (v : V) (l : list (string * V)) :
  lookup k (insert k v l) = Some v.
Proof. unfold insert. simpl. now rewrite String.eqb_refl. Qed.

Lemma names_of_some_values (es : list (string * string)) :
  map fst (some_values es) = map fst es.
Proof. unfold some_values. rewrite map_map. reflexivity. Qed.

(** C5. For every list of lines and every set of requested entries (names
    without a space, as after [c.]; values without a backslash, as version
    and date strings are), the scan leaves to find exactly the requested
    names that no line matches; the first line that matches a requested
    name carries the new value in the scanned lines, whether or not other
    names are missing. When a name is missing the update prints the list
    of the missing names and exits with status 1, and the file is not
    written; when every name is found it raises nothing and writes the
    scanned lines. *)
Theorem config_update_reports_missing_entries (entries : list (string * string))
  (contents : string) (s : state) :
  quiet s ->
  lookup PLUGIN_CONFIG_FILEPATH (files s) = Some contents ->
  NoDup (map fst entries) ->
  Forall plain_entry entries ->
  let lines := readlines contents in
  let missing := missing_entries lines entries in
  exists lines',
    scan_lines lines (some_values entries) = Some (lines', some_values missing)
    /\ (forall n v i, In (n, v) entries -> first_matching_line n lines = Some i ->
          exists old tail,
            nth_error lines i = Some ("c." ++ n ++ " = " ++ quoted old ++ tail)
            /\ nth_error lines' i = Some ("c." ++ n ++ " = " ++ quoted v ++ tail))
    /\ match missing with
       | [] =>
           exists s',
             update_config_entries (some_values entries) s = (Returned tt, s')
             /\ lookup PLUGIN_CONFIG_FILEPATH (files s')
                = Some (String.concat "" lines')
             /\ stderr s' = stderr s
       | _ :: _ =>
           exists s',
             update_config_entries (some_values entries) s
             = (Raised (SystemExit 1), s')
             /\ stderr s'
                = (stderr s
                   ++ [("Error: missing the following entries in file '"
                        ++ PLUGIN_CONFIG_FILEPATH ++ "': "
                        ++ join ", " (map fst missing))%string])%list
             /\ files s' = files s
       end.
Proof.
  intros Hq Hfile Hnd Hpl lines missing.
  destruct (scan_lines_spec lines entries Hnd Hpl) as (lines' & E & Hsub).
  fold missing in E.
  exists lines'. split; [exact E |]. split.
  - intros n v i Hin Hi.
    destruct (first_matching_line_nth n lines i Hi) as (l & Hl & Em).
    unfold entry_matches in Em.
    destruct (match_entry n l) as [[g tail] |] eqn:Hm; [| discriminate].
    destruct (match_entry_shape n l g tail Hm) as (Hg & _ & old & Hshape).
    exists old, tail. split.
    + rewrite Hl, Hshape, Hg. now rewrite !append_assoc.
    + rewrite (Hsub n v i Hin Hi), Hl. simpl. f_equal.
      apply (sub_entry_shape n v l g tail); [| exact Hm].
      rewrite Forall_forall in Hpl. apply (Hpl (n, v) Hin).
  - assert (R : update_config_entries (some_values entries) s
                = (match some_values missing with
                   | [] => ret tt
                   | _ :: _ =>
                       _print_error_and_exit
                         ("Error: missing the following entries in file '"
                          ++ PLUGIN_CONFIG_FILEPATH ++ "': "
                          ++ join ", " (map fst (some_values missing))) 1
                   end ;;
                   write_file PLUGIN_CONFIG_FILEPATH (String.concat "" lines'))
                  (logged (EvRead PLUGIN_CONFIG_FILEPATH) s)).
    { unfold update_config_entries. unfold bind at 1. unfold read_file.
      rewrite (outside_quiet _ _ _ s Hq).
      change (files (logged (EvRead PLUGIN_CONFIG_FILEPATH) s)) with (files s).
      rewrite Hfile. fold lines. rewrite E. reflexivity. }
    rewrite R. rewrite names_of_some_values.
    destruct missing as [| e m].
    + simpl some_values. cbv iota.
      unfold bind, ret, write_file.
      rewrite outside_quiet by exact Hq.
      eexists. split; [reflexivity |]. split; [apply lookup_insert | reflexivity].
    + eexists. split; [reflexivity |]. split; reflexivity.
Qed.

(** ** The changelog *)

(** Whatever the section finder, once it has located the header
    [# Unreleased] of the changelog with a preamble, the substitution
    runs on the whole document and lands in the preamble. *)
Lemma retitle_lands_in_preamble (ext : externals) (notes : string) :
  find_section ext Runs.preamble_changelog = ("# Unreleased" ++ newline, notes) ->
  lookup CHANGELOG_FILEPATH
    (files (snd (_get_release_notes_and_modify_changelog_first_header ext
                   Runs.preamble_state)))
  = Some ("Notes for C# 1.3.0" ++ newline
          ++ "# Unreleased" ++ newline ++ "* a fix" ++ newline
          ++ "# 1.2.0" ++ newline ++ "* older" ++ newline).
Proof.
  intros H. unfold _get_release_notes_and_modify_changelog_first_header.
  assert (E : read_file CHANGELOG_FILEPATH Runs.preamble_state
              = (Returned Runs.preamble_changelog,
                 logged (EvRead CHANGELOG_FILEPATH) Runs.preamble_state))
    by reflexivity.
  rewrite (bind_returned _ _ _ _ _ E). rewrite H.
  vm_compute. reflexivity.
Qed.

(** C6, the code at a failing input. The changelog has a line of preamble
    that contains a hash and a space, then the header [# Unreleased],
    which is not a released version. The step leaves the header as it is
    and rewrites the preamble: the title is not retitled, and text outside
    the header and its notes is changed. *)
Theorem retitle_misses_header_after_preamble :
  let r := _get_release_notes_and_modify_changelog_first_header Model.ext
             Runs.preamble_state in
  Model.find_section Runs.preamble_changelog
  = ("# Unreleased" ++ newline, "* a fix" ++ newline)
  /\ mem "Unreleased" (released_versions (release_metadata Runs.preamble_state)) = false
  /\ new_version (release_metadata Runs.preamble_state) = Some "1.3.0"
  /\ fst r = Returned tt
  /\ lookup CHANGELOG_FILEPATH (files (snd r))
     = Some ("Notes for C# 1.3.0" ++ newline
             ++ "# Unreleased" ++ newline ++ "* a fix" ++ newline
             ++ "# 1.2.0" ++ newline ++ "* older" ++ newline).
Proof. vm_compute. repeat split; reflexivity. Qed.

(** A header with an empty title is not retitled either: neither group of
    the match is truthy, and the file is written back as it was. *)
Lemma retitle_skips_empty_title :
  let r := _get_release_notes_and_modify_changelog_first_header Model.ext
             Runs.untitled_state in
  fst r = Returned tt
  /\ lookup CHANGELOG_FILEPATH (files (snd r))
     = Some ("# " ++ newline ++ "* a fix" ++ newline).
Proof. vm_compute. split; reflexivity. Qed.

(** C7, the code at a failing input. The step is run on the changelog
    with a preamble, and run again on its output with the new version now
    among the released ones. The first header of the output is still
    [Unreleased], not the new version; the second run does not find it
    released, announces the replacement again and writes the file again. *)
Theorem second_run_rewrites_again :
  let step := _get_release_notes_and_modify_changelog_first_header Model.ext in
  let s1 := snd (step Runs.preamble_state) in
  let r2 := step (Runs.released s1) in
  mem "1.3.0" (released_versions (release_metadata (Runs.released s1))) = true
  /\ option_map (fun doc => fst (Model.find_section doc))
       (lookup CHANGELOG_FILEPATH (files s1))
     = Some ("# Unreleased" ++ newline)
  /\ fst r2 = Returned tt
  /\ stdout (snd r2)
     = ["Replacing header name 'Unreleased' in the changelog with the new version";
        "Replacing header name 'Unreleased' in the changelog with the new version"]
  /\ length (filter (fun e => match e with EvWrite _ _ => true | _ => false end)
               (trace (snd r2))) = 2.
Proof. vm_compute. repeat split; reflexivity. Qed.

(** What holds of the retitling: a document that begins with its header
    is retitled in place, in either style, and a header whose title is a
    released version is left alone. *)

Lemma span_line_title (title rest : string) :
  contains_char LF title = false ->
  span_line (title ++ String LF rest) = (title, String LF rest).
Proof.
  induction title as [| c t IH]; simpl; intros H; [reflexivity |].
  apply orb_false_iff in H as [Hc Ht]. rewrite Hc, (IH Ht). reflexivity.
Qed.

Lemma span_equals_underline (n : nat) (rest : string) :
  span_equals (repeat_char "=" n ++ String LF rest) = (n, String LF rest).
Proof. induction n as [| n IH]; simpl; [reflexivity | now rewrite IH]. Qed.

Lemma expand_template_app_plain (g v t : string) :
  contains_char backslash v = false ->
  expand_template g (v ++ t) = v ++ expand_template g t.
Proof.
  induction v as [| c v IH]; simpl; intros H; [reflexivity |].
  apply orb_false_iff in H as [Hc Hv]. rewrite Hc, (IH Hv). reflexivity.
Qed.

Lemma underline_has_no_backslash (n : nat) :
  contains_char backslash (repeat_char "=" n ++ newline) = false.
Proof. induction n as [| n IH]; simpl; [reflexivity | exact IH]. Qed.

Lemma search_at_start {A : Type} (m : string -> option A) (s : string) (a : A) :
  m s = Some a -> search m s = Some ("", a).
Proof. intros H. destruct s; simpl; now rewrite H. Qed.

Lemma retitle_hash_header_at_start (title rest v : string) :
  contains_char LF title = false ->
  contains_char backslash v = false ->
  sub_first hash_line ("# " ++ v ++ raw_n) ("# " ++ title ++ newline ++ rest)
  = "# " ++ v ++ newline ++ rest.
Proof.
  intros Ht Hv. unfold sub_first.
  change ("# " ++ title ++ newline ++ rest)
    with (String "#" (String " " (title ++ String LF rest))).
  assert (E : hash_line (String "#" (String " " (title ++ String LF rest)))
              = Some ("", rest)).
  { unfold hash_line, match_hash_header.
    change (strip_prefix "# " (String "#" (String " " (title ++ String LF rest))))
      with (Some (title ++ String LF rest)).
    cbv iota beta. now rewrite (span_line_title title rest Ht). }
  rewrite (search_at_start _ _ _ E).
  change ("# " ++ v ++ raw_n) with (String "#" (String " " (v ++ raw_n))).
  simpl. rewrite (expand_template_app_plain "" v raw_n Hv).
  rewrite append_assoc. reflexivity.
Qed.

Lemma retitle_underlined_header_at_start (title rest v : string) (n : nat) :
  contains_char LF title = false ->
  contains_char backslash v = false ->
  sub_first underlined_line
    (v ++ raw_n ++ repeat_char "=" (String.length v) ++ newline)
    (title ++ newline ++ repeat_char "=" (S n) ++ newline ++ rest)
  = v ++ newline ++ repeat_char "=" (String.length v) ++ newline ++ rest.
Proof.
  intros Ht Hv. unfold sub_first.
  change (title ++ newline ++ repeat_char "=" (S n) ++ newline ++ rest)
    with (title ++ String LF (repeat_char "=" (S n) ++ String LF rest)).
  set (doc := title ++ String LF (repeat_char "=" (S n) ++ String LF rest)).
  assert (E : underlined_line doc = Some ("", rest)).
  { unfold underlined_line, match_underlined_header, doc.
    rewrite (span_line_title title _ Ht).
    rewrite (span_equals_underline (S n) rest).
    now rewrite Ascii.eqb_refl. }
  rewrite (search_at_start _ _ _ E). simpl.
  rewrite (expand_template_app_plain "" v _ Hv). simpl.
  rewrite (expand_template_plain "" _ (underline_has_no_backslash (String.length v))).
  rewrite append_assoc. simpl. now rewrite append_assoc.
Qed.

Lemma released_header_is_left_alone (ext : externals) (s : state)
  (doc header_raw notes before : string) (group2 group3 : option string) :
  quiet s ->
  lookup CHANGELOG_FILEPATH (files s) = Some doc ->
  find_section ext doc = (header_raw, notes) ->
  search match_first_level_header header_raw = Some (before, (group2, group3)) ->
  not_in group2 (released_versions (release_metadata s))
  && not_in group3 (released_versions (release_metadata s)) = false ->
  _get_release_notes_and_modify_changelog_first_header ext s
  = (Returned tt, logged (EvRead CHANGELOG_FILEPATH) s).
Proof.
  intros Hq Hl Hf Hs Hr.
  unfold _get_release_notes_and_modify_changelog_first_header.
  assert (E : read_file CHANGELOG_FILEPATH s
              = (Returned doc, logged (EvRead CHANGELOG_FILEPATH) s)).
  { unfold read_file. rewrite (outside_quiet _ _ _ s Hq).
    change (files (logged (EvRead CHANGELOG_FILEPATH) s)) with (files s).
    now rewrite Hl. }
  rewrite (bind_returned _ _ _ _ _ E). rewrite Hf.
  unfold bind at 1. unfold get_rm at 1. rewrite Hs.
  change (release_metadata (logged (EvRead CHANGELOG_FILEPATH) s))
    with (release_metadata s).
  rewrite Hr. reflexivity.
Qed.

(** The checks that precede every mutation end the script through
    [sys.exit] with status 1. *)
Lemma print_error_and_exit_raises {A : Type} (message : string) (status : Z)
  (s : state) :
  @_print_error_and_exit A message status s
  = (Raised (SystemExit status), set_stderr (stderr s ++ [message]) s).
Proof. reflexivity. Qed.

Lemma dirty_main_repo_exits (s : state) :
  quiet s -> force (release_metadata s) = false ->
  status_porcelain (main_repo s) <> "" ->
  fst (_check_branches_for_local_changes s) = Raised (SystemExit 1).
Proof.
  intros Hq Hf Hd. unfold _check_branches_for_local_changes.
  unfold bind at 1. unfold get_rm at 1. rewrite Hf.
  unfold bind at 1.
  rewrite (bind_returned _ _ _ _ _ (status_query_quiet MainRepo s Hq)).
  cbn [get_repo].
  destruct (String.eqb_spec (status_porcelain (main_repo s)) ""); [contradiction |].
  reflexivity.
Qed.

Lemma invalid_version_exits (ext : externals) (s : state) :
  Version_parse ext (current_version (release_metadata s)) = None ->
  fst (_get_next_version ext s) = Raised (SystemExit 1).
Proof.
  intros H. unfold _get_next_version.
  unfold bind at 1. unfold get_rm at 1. unfold bind at 1. rewrite H. reflexivity.
Qed.

Lemma increment_conflict_exits (ext : externals) (s : state) (v : Version ext)
  (message : string) :
  Version_parse ext (current_version (release_metadata s)) = Some v ->
  Version_increment ext v (release_type (release_metadata s))
    (prerelease (release_metadata s)) = inl message ->
  fst (_get_next_version ext s) = Raised (SystemExit 1).
Proof.
  intros Hp Hi. unfold _get_next_version.
  unfold bind at 1. unfold get_rm at 1. unfold bind at 1. rewrite Hp.
  unfold ret at 1. unfold bind at 1. rewrite Hi. reflexivity.
Qed.

(** The checkpoints are the heads of the two repositories at the moment
    the metadata is built, and stay so to the end of the run. *)
Lemma rev_parse_quiet (r : repo_id) (s : state) :
  quiet s ->
  git r RevParseHead s
  = (Returned (head (get_repo r s)),
     set_repo r (get_repo r s) (logged (EvGit r RevParseHead) s)).
Proof.
  intros Hq. unfold git. rewrite (outside_quiet _ _ _ s Hq). destruct r; reflexivity.
Qed.

Lemma checkpoints_are_initial_heads (ext : externals) (kwargs : options) (s : state) :
  quiet s ->
  let s' := snd (make_release ext kwargs s) in
  last_commit_id_before_release (release_metadata s') = head (main_repo s)
  /\ last_gh_pages_commit_id_before_release (release_metadata s') = head (pages_repo s).
Proof.
  intros Hq.
  assert (E : exists st,
             make_release ext kwargs s = run_release ext st
             /\ last_commit_id_before_release (release_metadata st) = head (main_repo s)
             /\ last_gh_pages_commit_id_before_release (release_metadata st)
                = head (pages_repo s)).
  { unfold make_release. unfold bind at 1.
    assert (E1 : git MainRepo (TagList None) s
                 = (Returned (join newline (tags (main_repo s))),
                    set_main_repo (main_repo s)
                      (logged (EvGit MainRepo (TagList None)) s))).
    { unfold git. rewrite (outside_quiet _ _ _ s Hq). reflexivity. }
    rewrite (bind_returned _ _ _ _ _ E1).
    set (s1 := set_main_repo (main_repo s) (logged (EvGit MainRepo (TagList None)) s)).
    assert (Hq1 : quiet s1) by exact Hq.
    rewrite (bind_returned _ _ _ _ _ (rev_parse_quiet MainRepo s1 Hq1)).
    set (s2 := set_repo MainRepo (get_repo MainRepo s1)
                 (logged (EvGit MainRepo RevParseHead) s1)).
    assert (Hq2 : quiet s2) by exact Hq.
    rewrite (bind_returned _ _ _ _ _ (rev_parse_quiet PagesRepo s2 Hq2)).
    unfold bind at 1. unfold modify at 1.
    eexists. split; [reflexivity |]. split; reflexivity. }
  destruct E as (st & E & H1 & H2).
  cbv zeta. rewrite E.
  destruct (fixed_run_release ext st I) as [_ [K1 K2]].
  rewrite K1, K2. split; assumption.
Qed.

(** ** The statements at concrete worlds *)

Lemma dry_run_mutates_nothing_witness :
  dry_run (release_metadata Runs.dry_state) = true
  /\ untouched Runs.dry_state (snd (run_release Model.ext Runs.dry_state)).
Proof.
  split; [reflexivity |].
  exact (proj1 (dry_run_mutates_nothing Model.ext Runs.dry_state eq_refl)).
Defined.

Lemma rollback_is_noop_in_dry_run_witness :
  dry_run (release_metadata Runs.dry_state) = true
  /\ _rollback Runs.dry_state = (Returned tt, Runs.dry_state).
Proof.
  split; [reflexivity |].
  exact (proj1 (rollback_is_noop_in_dry_run Runs.dry_state eq_refl)).
Defined.

Lemma rollback_restores_checkpoints_witness :
  dry_run (release_metadata Runs.built_state) = false
  /\ quiet Runs.built_state
  /\ fst (_rollback Runs.built_state) = Returned tt
  /\ mem "1.3.0" (tags (main_repo (snd (_rollback Runs.built_state)))) = false
  /\ lookup INSTALLERS_OUTPUT_DIRPATH (dirs (snd (_rollback Runs.built_state))) = None
  /\ head (main_repo (snd (_rollback Runs.built_state))) = "c0"
  /\ head (pages_repo (snd (_rollback Runs.built_state))) = "p0".
Proof.
  split; [reflexivity |]. split; [split; reflexivity |].
  destruct (rollback_restores_checkpoints Model.ext Runs.built_state eq_refl)
    as (_ & _ & H & _).
  destruct (H (conj eq_refl eq_refl)) as (H1 & _ & H3 & H4 & H5 & H6).
  split; [exact H1 |]. split; [exact (H3 "1.3.0" eq_refl) |].
  split; [exact H4 |]. split; [exact H5 | exact H6].
Defined.

Lemma existing_tag_aborts_before_any_write_witness :
  mem "1.3.0" (tags (main_repo Runs.tagged_state)) = true
  /\ exists s',
       run_release Model.ext Runs.tagged_state = (Raised (SystemExit 1), s')
       /\ files s' = files Runs.tagged_state.
Proof.
  split; [reflexivity |].
  destruct (existing_tag_aborts_before_any_write Model.ext Runs.tagged_state "master"
              (Model.mkVersion 1 2 (Some 0) None None)
              (Model.mkVersion 1 3 (Some 0) None None))
    as (s' & E & _ & F & _).
  - split; reflexivity.
  - right. reflexivity.
  - reflexivity.
  - reflexivity.
  - reflexivity.
  - reflexivity.
  - intros H. vm_compute in H. discriminate H.
  - reflexivity.
  - exists s'. split; [exact E | exact F].
Defined.

Lemma declined_prompt_exits_with_2_witness :
  strtobool "n" <> Some true
  /\ exists s',
       run_release Model.ext Runs.declined_state = (Raised (SystemExit 2), s')
       /\ stderr s' = ["Aborting."].
Proof.
  assert (Hn : strtobool "n" <> Some true).
  { intros H. vm_compute in H. discriminate H. }
  split; [exact Hn |].
  destruct (declined_prompt_exits_with_2 Model.ext Runs.declined_state "master"
              (Model.mkVersion 1 2 (Some 0) None None)
              (Model.mkVersion 1 3 (Some 0) None None) "n" [])
    as (s' & E & _ & S & _).
  - split; reflexivity.
  - reflexivity.
  - right. reflexivity.
  - reflexivity.
  - reflexivity.
  - reflexivity.
  - reflexivity.
  - intros H. vm_compute in H. discriminate H.
  - reflexivity.
  - reflexivity.
  - exact Hn.
  - exists s'. split; [exact E | exact S].
Defined.

Lemma config_update_reports_missing_entries_witness :
  exists s',
    update_config_entries
      (some_values [("PLUGIN_VERSION", "1.3.0");
                    ("PLUGIN_VERSION_RELEASE_DATE", "November 04, 2026")])
      Runs.config_state
    = (Raised (SystemExit 1), s')
    /\ stderr s'
       = ["Error: missing the following entries in file '"
          ++ PLUGIN_CONFIG_FILEPATH ++ "': PLUGIN_VERSION_RELEASE_DATE"]
    /\ files s' = files Runs.config_state.
Proof.
  destruct (config_update_reports_missing_entries
              [("PLUGIN_VERSION", "1.3.0");
               ("PLUGIN_VERSION_RELEASE_DATE", "November 04, 2026")]
              Runs.config_without_date Runs.config_state)
    as (lines' & _ & _ & H).
  - split; reflexivity.
  - reflexivity.
  - repeat constructor; simpl; intuition discriminate.
  - repeat constructor.
  - exact H.
Defined.

(** ** The text functions at concrete inputs *)

Example search_hash_midline :
  search match_hash_header ("## a" ++ newline ++ "rest")
  = Some ("#", ("a", "rest")).
Proof. reflexivity. Qed.

Example first_level_underlined :
  match_first_level_header ("3.3.1" ++ newline ++ "=====" ++ newline)
  = Some (None, Some "3.3.1").
Proof. reflexivity. Qed.

Example sub_entry_line :
  sub_entry "PLUGIN_VERSION" ("\1" ++ quoted "3.4")
    ("c.PLUGIN_VERSION = " ++ quoted "3.3" ++ newline)
  = "c.PLUGIN_VERSION = " ++ quoted "3.4" ++ newline.
Proof. reflexivity. Qed.

Example readlines_ex :
  readlines ("a" ++ newline ++ newline ++ "bc") = ["a" ++ newline; newline; "bc"].
Proof. reflexivity. Qed.

Example split_ex : split_newline (strip_newlines "") = [""].
Proof. reflexivity. Qed.

Example strtobool_ex : strtobool "Yes" = Some true /\ strtobool "maybe" = None.
Proof. split; reflexivity. Qed.

Example splitext_ex : splitext_ext "a.tar.zip" = ".zip" /\ splitext_ext ".hidden" = "".
Proof. split; reflexivity. Qed.

Example full_release_runs :
  let r := run_release Model.ext Model.base_state in
  fst r = Returned tt
  /\ tags (main_repo (snd r)) = ["1.3.0"; "1.2.0"]
  /\ pushed (main_repo (snd r))
     = [("origin", Some "1.3.0"); ("origin", Some "master:master")]
  /\ lookup CHANGELOG_FILEPATH (files (snd r))
     = Some ("# 1.3.0" ++ newline ++ "* a fix" ++ newline
             ++ "# 1.2.0" ++ newline ++ "* older" ++ newline)
  /\ PLUGIN_VERSION (snd r) = Some "1.3.0".
Proof. vm_compute. repeat split; reflexivity. Qed.

(** A failed build after the tag: the tag is deleted and both
    repositories are back at their checkpoints. *)
Example failed_build_is_rolled_back :
  let r := run_release Model.ext (mkState Model.base_metadata (Some "1.2.0")
             "January 01, 2019" (main_repo Model.base_state)
             (pages_repo Model.base_state) (files Model.base_state)
             (dirs Model.base_state) [] [] [] (replies Model.base_state)
             (built Model.base_state) "November 04, 2026" [] 0 [25] None) in
  fst r = Raised (SystemExit 1)
  /\ tags (main_repo (snd r)) = ["1.2.0"]
  /\ head (main_repo (snd r)) = "c0"
  /\ head (pages_repo (snd r)) = "p0"
  /\ rollback_attempted (snd r) = true.
Proof. vm_compute. repeat split; reflexivity. Qed.

(** * Further properties of the script *)

(** ** The upload address and the list of released versions *)

Lemma span_line_without_line_feed (s : string) :
  contains_char LF s = false -> span_line s = (s, "").
Proof.
  induction s as [| c s IH]; simpl; intros H; [reflexivity |].
  apply orb_false_iff in H as [Hc Hs]. rewrite Hc, (IH Hs). reflexivity.
Qed.

Lemma before_last_brace_none (s : string) :
  contains_char "{" s = false -> before_last_brace s = None.
Proof.
  induction s as [| c s IH]; simpl; intros H; [reflexivity |].
  apply orb_false_iff in H as [Hc Hs]. rewrite (IH Hs), Hc. reflexivity.
Qed.

Lemma before_last_brace_app (base suffix : string) :
  contains_char "{" suffix = false ->
  before_last_brace (base ++ String "{" suffix) = Some base.
Proof.
  intros H. induction base as [| c b IH]; simpl.
  - now rewrite (before_last_brace_none suffix H).
  - now rewrite IH.
Qed.

(** X1. The address for the uploads is the text of [upload_url] before its
    last opening brace: a one-line address [base{suffix}], with or without
    a final line feed, becomes [base] (with that line feed); an address
    without a brace is kept as it is. *)
Theorem upload_url_template_is_stripped (base suffix : string) :
  contains_char LF base = false ->
  contains_char LF suffix = false ->
  contains_char "{" suffix = false ->
  strip_url_template (base ++ String "{" suffix) = base
  /\ strip_url_template (base ++ String "{" suffix ++ newline) = base ++ newline
  /\ (contains_char "{" base = false -> strip_url_template base = base).
Proof.
  intros Hb Hs Hn.
  assert (Hl : contains_char LF (base ++ String "{" suffix) = false).
  { rewrite contains_char_app, Hb. simpl. exact Hs. }
  split; [| split].
  - unfold strip_url_template.
    rewrite (span_line_without_line_feed _ Hl). simpl.
    rewrite (before_last_brace_app base suffix Hn).
    clear. induction base as [| c b IH]; simpl; [reflexivity | now rewrite IH].
  - unfold strip_url_template.
    replace (base ++ String "{" suffix ++ newline)
      with ((base ++ String "{" suffix) ++ String LF "")
      by (rewrite append_assoc; reflexivity).
    rewrite (span_line_title _ "" Hl). simpl.
    now rewrite (before_last_brace_app base suffix Hn).
  - intros Hc. unfold strip_url_template.
    rewrite (span_line_without_line_feed _ Hb). simpl.
    now rewrite (before_last_brace_none base Hc).
Qed.

Lemma upload_url_template_is_stripped_witness :
  strip_url_template "https://uploads.example/assets{?name,label}"
  = "https://uploads.example/assets".
Proof.
  exact (proj1 (upload_url_template_is_stripped
                  "https://uploads.example/assets" "?name,label}"
                  eq_refl eq_refl eq_refl)).
Defined.

Lemma split_newline_line (x : string) :
  contains_char LF x = false -> split_newline x = [x].
Proof.
  induction x as [| c x IH]; simpl; intros H; [reflexivity |].
  apply orb_false_iff in H as [Hc Hx]. rewrite Hc, (IH Hx). reflexivity.
Qed.

Lemma split_newline_app (x rest : string) :
  contains_char LF x = false ->
  split_newline (x ++ String LF rest) = x :: split_newline rest.
Proof.
  induction x as [| c x IH]; simpl; intros H; [reflexivity |].
  apply orb_false_iff in H as [Hc Hx]. rewrite Hc, (IH Hx). reflexivity.
Qed.

Lemma split_join_newline (l : list string) :
  l <> [] -> Forall (fun t => contains_char LF t = false) l ->
  split_newline (join newline l) = l.
Proof.
  induction l as [| x t IH]; intros Hne Hl; [contradiction |].
  inversion Hl as [| ? ? Hx Ht]; subst.
  destruct t as [| y t'].
  - simpl. apply split_newline_line. exact Hx.
  - change (join newline (x :: y :: t'))
      with (x ++ String LF (join newline (y :: t'))).
    rewrite (split_newline_app x _ Hx). f_equal.
    apply IH; [discriminate | exact Ht].
Qed.

Lemma lstrip_char_head (c a : ascii) (s : string) :
  Ascii.eqb a c = false -> lstrip_char c (String a s) = String a s.
Proof. intros H. simpl. now rewrite H. Qed.

Lemma rstrip_char_keeps (c : ascii) (s : string) (a : ascii) :
  last_char s = Some a -> Ascii.eqb a c = false -> rstrip_char c s = s.
Proof.
  induction s as [| b s IH]; simpl; intros Hl Ha; [discriminate |].
  destruct s as [| b' s'].
  - injection Hl as ->. simpl. now rewrite Ha.
  - rewrite (IH Hl Ha). reflexivity.
Qed.

Lemma last_char_append (s t : string) (a : ascii) :
  last_char t = Some a -> last_char (s ++ t) = Some a.
Proof.
  intros Ht. induction s as [| b s IH]; simpl; [exact Ht |].
  destruct (s ++ t) eqn:E; [| exact IH].
  destruct s; simpl in E; [subst t; discriminate Ht | discriminate E].
Qed.

Lemma last_char_of_line (t : string) :
  t <> "" -> contains_char LF t = false ->
  exists a, last_char t = Some a /\ Ascii.eqb a LF = false.
Proof.
  induction t as [| b t IH]; intros Hne Hl; [contradiction |].
  simpl in Hl. apply orb_false_iff in Hl as [Hb Ht].
  destruct t as [| b' t'].
  - exists b. split; [reflexivity | exact Hb].
  - destruct (IH ltac:(discriminate) Ht) as (a & Ha & Hn).
    exists a. split; [exact Ha | exact Hn].
Qed.

Lemma last_char_join (l : list string) :
  l <> [] -> Forall (fun t => t <> "" /\ contains_char LF t = false) l ->
  exists a, last_char (join newline l) = Some a /\ Ascii.eqb a LF = false.
Proof.
  induction l as [| x t IH]; intros Hne Hl; [contradiction |].
  inversion Hl as [| ? ? [Hx1 Hx2] Ht]; subst.
  destruct t as [| y t'].
  - simpl. apply last_char_of_line; assumption.
  - destruct (IH ltac:(discriminate) Ht) as (a & Ha & Hn).
    exists a. split; [| exact Hn].
    change (join newline (x :: y :: t'))
      with (x ++ newline ++ join newline (y :: t')).
    apply last_char_append. apply last_char_append. exact Ha.
Qed.

(** The listing of the tags, stripped of line feeds at both ends and
    split at line feeds, gives back the names of the tags as long as
    there is a tag; without tags it gives one empty name, not an empty
    list. *)
Lemma listing_gives_back_the_tags (l : list string) :
  Forall (fun t => t <> "" /\ contains_char LF t = false) l ->
  split_newline (strip_newlines (join newline l))
  = match l with
    | [] => [""]
    | _ :: _ => l
    end.
Proof.
  intros Hl. destruct l as [| x t]; [reflexivity |].
  assert (Hne : x :: t <> []) by discriminate.
  assert (Hs : strip_newlines (join newline (x :: t)) = join newline (x :: t)).
  { unfold strip_newlines.
    assert (Hhead : lstrip_char LF (join newline (x :: t)) = join newline (x :: t)).
    { inversion Hl as [| ? ? [Hx1 Hx2] _]; subst.
      destruct x as [| a x']; [contradiction |].
      simpl in Hx2. apply orb_false_iff in Hx2 as [Ha _].
      destruct t; simpl; now rewrite Ha. }
    rewrite Hhead.
    destruct (last_char_join (x :: t) Hne Hl) as (a & Ha & Hn).
    apply (rstrip_char_keeps LF _ a Ha Hn). }
  rewrite Hs. apply split_join_newline; [exact Hne |].
  eapply Forall_impl; [| exact Hl]. intros a [_ H]. exact H.
Qed.

(** ** The check for local changes *)

Lemma untouched_after_queries (s s' : state) (evs : list event) :
  main_repo s' = main_repo s -> pages_repo s' = pages_repo s ->
  files s' = files s -> dirs s' = dirs s ->
  trace s' = (trace s ++ evs)%list -> forallb is_query evs = true ->
  untouched s s'.
Proof. intros. repeat split; auto. exists evs. auto. Qed.

(** The outcome of the check for local changes, in a quiet world. *)
Lemma check_branches_outcome (s : state) (b : string) :
  quiet s ->
  branch (pages_repo s) = Some b ->
  let main_dirty := negb (String.eqb (status_porcelain (main_repo s)) "") in
  let pages_dirty := negb (String.eqb (status_porcelain (pages_repo s)) "") in
  let blocked := negb (force (release_metadata s)) && main_dirty in
  exists s',
    _check_branches_for_local_changes s
    = (if blocked || pages_dirty then Raised (SystemExit 1) else Returned tt, s')
    /\ stderr s'
       = (stderr s
          ++ (if blocked then
                [("Repository contains local changes. "
                  ++ "Please remove or commit changes before proceeding.")%string]
              else if pages_dirty then
                [("Repository in the '" ++ b ++ "' branch contains local changes. "
                  ++ "Please remove or commit changes before proceeding.")%string]
              else []))%list
    /\ untouched s s'.
Proof.
  intros Hq Hb. cbv zeta.
  unfold _check_branches_for_local_changes.
  unfold bind at 1. unfold get_rm at 1.
  destruct (force (release_metadata s)) eqn:Hf; cbn [negb andb orb].
  - unfold bind at 1. unfold ret at 1.
    rewrite (bind_returned _ _ _ _ _ (status_query_quiet PagesRepo s Hq)).
    cbn [get_repo].
    destruct (String.eqb (status_porcelain (pages_repo s)) ""); cbn [negb].
    + eexists. split; [reflexivity |]. split; [simpl; now rewrite app_nil_r |].
      apply (untouched_after_queries _ _ [EvGit PagesRepo StatusPorcelain]);
        reflexivity.
    + set (s1 := set_repo PagesRepo (pages_repo s)
                   (logged (EvGit PagesRepo StatusPorcelain) s)).
      assert (Hq1 : quiet s1) by exact Hq.
      rewrite (bind_returned _ _ _ _ _ (active_branch_quiet PagesRepo s1 b Hq1 Hb)).
      eexists. split; [reflexivity |]. split; [reflexivity |].
      apply (untouched_after_queries _ _
               [EvGit PagesRepo StatusPorcelain; EvActiveBranch PagesRepo]);
        try reflexivity.
      simpl. now rewrite <- app_assoc.
  - unfold bind at 1.
    rewrite (bind_returned _ _ _ _ _ (status_query_quiet MainRepo s Hq)).
    cbn [get_repo].
    destruct (String.eqb (status_porcelain (main_repo s)) ""); cbn [negb orb].
    + set (s1 := set_repo MainRepo (main_repo s)
                   (logged (EvGit MainRepo StatusPorcelain) s)).
      assert (Hq1 : quiet s1) by exact Hq.
      unfold ret at 1.
      rewrite (bind_returned _ _ _ _ _ (status_query_quiet PagesRepo s1 Hq1)).
      cbn [get_repo].
      change (pages_repo s1) with (pages_repo s).
      destruct (String.eqb (status_porcelain (pages_repo s)) ""); cbn [negb].
      * eexists. split; [reflexivity |]. split; [simpl; now rewrite app_nil_r |].
        apply (untouched_after_queries _ _
                 [EvGit MainRepo StatusPorcelain; EvGit PagesRepo StatusPorcelain]);
          try reflexivity.
        simpl. now rewrite <- app_assoc.
      * set (s2 := set_repo PagesRepo (pages_repo s)
                     (logged (EvGit PagesRepo StatusPorcelain) s1)).
        assert (Hq2 : quiet s2) by exact Hq.
        rewrite (bind_returned _ _ _ _ _ (active_branch_quiet PagesRepo s2 b Hq2 Hb)).
        eexists. split; [reflexivity |]. split; [reflexivity |].
        apply (untouched_after_queries _ _
                 [EvGit MainRepo StatusPorcelain; EvGit PagesRepo StatusPorcelain;
                  EvActiveBranch PagesRepo]);
          try reflexivity.
        simpl. now rewrite <- !app_assoc.
    + eexists. split; [reflexivity |]. split; [reflexivity |].
      apply (untouched_after_queries _ _ [EvGit MainRepo StatusPorcelain]);
        reflexivity.
Qed.

(** X3. In a quiet world the check for local changes ends the script with
    status 1 exactly when the main repository has local changes and
    [force] is not set, or the repository of the pages has local changes:
    [force] exempts the main repository only. The message names the
    repository at fault (the main one first), and the check only asks for
    the status: nothing is changed. *)
Theorem force_exempts_the_main_repository_only (s : state) (b : string) :
  quiet s ->
  branch (pages_repo s) = Some b ->
  let main_dirty := negb (String.eqb (status_porcelain (main_repo s)) "") in
  let pages_dirty := negb (String.eqb (status_porcelain (pages_repo s)) "") in
  let blocked := negb (force (release_metadata s)) && main_dirty in
  exists s',
    _check_branches_for_local_changes s
    = (if blocked || pages_dirty then Raised (SystemExit 1) else Returned tt, s')
    /\ stderr s'
       = (stderr s
          ++ (if blocked then
                [("Repository contains local changes. "
                  ++ "Please remove or commit changes before proceeding.")%string]
              else if pages_dirty then
                [("Repository in the '" ++ b ++ "' branch contains local changes. "
                  ++ "Please remove or commit changes before proceeding.")%string]
              else []))%list
    /\ untouched s s'.
Proof. intros Hq Hb. exact (check_branches_outcome s b Hq Hb). Qed.

Lemma force_exempts_the_main_repository_only_witness :
  exists s',
    _check_branches_for_local_changes
      (set_release_metadata
         (mkReleaseMetadata None "" "c0" "p0" (Some "1.2.0") ["1.2.0"]
            "khalim19" "gimp-plugin-export-layers" "minor" "token" true ["all"]
            false None "origin" "master" false)
         Runs.dirty_state)
    = (Returned tt, s')
    /\ stderr s' = []
    /\ untouched Runs.dirty_state s'.
Proof.
  destruct (force_exempts_the_main_repository_only
              (set_release_metadata
                 (mkReleaseMetadata None "" "c0" "p0" (Some "1.2.0") ["1.2.0"]
                    "khalim19" "gimp-plugin-export-layers" "minor" "token" true ["all"]
                    false None "origin" "master" false)
                 Runs.dirty_state)
              "gh-pages" (conj eq_refl eq_refl) eq_refl)
    as (s' & H1 & H2 & H3).
  exists s'. split; [exact H1 |]. split; [exact H2 | exact H3].
Defined.

(** ** The computation of the next version *)

Lemma get_next_version_exits (ext : externals) (s : state) (message : string) :
  (Version_parse ext (current_version (release_metadata s)) = None
   /\ message = "Version string '" ++ py_str (current_version (release_metadata s))
                ++ "' has invalid format; valid format: " ++ VERSION_STRING_FORMAT)
  \/ (exists v,
        Version_parse ext (current_version (release_metadata s)) = Some v
        /\ Version_increment ext v (release_type (release_metadata s))
             (prerelease (release_metadata s)) = inl message) ->
  _get_next_version ext s
  = (Raised (SystemExit 1), set_stderr (stderr s ++ [message]) s).
Proof.
  intros [[Hp ->] | (v & Hp & Hi)]; unfold _get_next_version;
    unfold bind at 1; unfold get_rm at 1; unfold bind at 1; rewrite Hp.
  - reflexivity.
  - unfold ret at 1. unfold bind at 1. rewrite Hi. reflexivity.
Qed.

(** A version error ends the run once the checks for local changes have
    passed. *)
Lemma version_error_ends_run (ext : externals) (s : state) (b message : string) :
  quiet s ->
  force (release_metadata s) = true \/ status_porcelain (main_repo s) = "" ->
  status_porcelain (pages_repo s) = "" ->
  branch (main_repo s) = Some b ->
  (Version_parse ext (current_version (release_metadata s)) = None
   /\ message = "Version string '" ++ py_str (current_version (release_metadata s))
                ++ "' has invalid format; valid format: " ++ VERSION_STRING_FORMAT)
  \/ (exists v,
        Version_parse ext (current_version (release_metadata s)) = Some v
        /\ Version_increment ext v (release_type (release_metadata s))
             (prerelease (release_metadata s)) = inl message) ->
  exists s',
    run_release ext s = (Raised (SystemExit 1), s')
    /\ stderr s' = (stderr s ++ [message])%list
    /\ release_metadata s' = release_metadata s
    /\ untouched s s'
    /\ rollback_attempted s' = rollback_attempted s.
Proof.
  intros Hq Hmain Hpages Hb Hv.
  destruct (check_branches_passes s Hq Hmain Hpages) as (s1 & E1 & A1).
  assert (Hq1 : quiet s1) by apply A1.
  assert (Hb1 : branch (get_repo MainRepo s1) = Some b).
  { simpl. destruct A1 as (_ & (Hm & _) & _). now rewrite Hm. }
  pose proof (active_branch_quiet MainRepo s1 b Hq1 Hb1) as E2.
  set (s2 := logged (EvActiveBranch MainRepo) s1) in *.
  set (s3 := set_stdout (stdout s2 ++ ["Active branch: " ++ b]) s2).
  assert (A3 : asked s s3).
  { eapply asked_trans; [exact A1 |].
    eapply asked_trans;
      [apply (asked_logged (EvActiveBranch MainRepo)); [reflexivity | exact Hq1] |].
    apply asked_print. exact Hq1. }
  assert (Hr3 : release_metadata s3 = release_metadata s) by apply A3.
  assert (E4 : _get_next_version ext s3
               = (Raised (SystemExit 1), set_stderr (stderr s3 ++ [message]) s3)).
  { apply get_next_version_exits. rewrite Hr3. exact Hv. }
  assert (E : _make_release ext s
              = (Raised (SystemExit 1), set_stderr (stderr s3 ++ [message]) s3)).
  { unfold _make_release.
    rewrite (bind_returned _ _ _ _ _ E1).
    rewrite (bind_returned _ _ _ _ _ E2).
    unfold bind at 1. unfold print at 1. unfold modify at 1. fold s3.
    apply (bind_raised _ _ _ _ _ E4). }
  eexists. split; [exact (exit_ends_the_run ext s _ 1%Z E) |].
  destruct A3 as (_ & U3 & S3 & _ & R3).
  split.
  { change ((stderr s3 ++ [message])%list = (stderr s ++ [message])%list).
    now rewrite S3. }
  split; [exact R3 |].
  assert (U : untouched s (set_stderr (stderr s3 ++ [message]) s3)).
  { destruct U3 as (M3 & P3 & F3 & D3 & evs & T3 & Q3).
    repeat split; auto. exists evs. auto. }
  split; [exact U | exact (untouched_no_rollback _ _ U)].
Qed.

(** X4. A current version that the version library does not accept, or
    an increment that it refuses, ends the run with the message of the
    error and exit status 1 as soon as the checks for local changes have
    passed. Up to there the script has only asked questions; the new
    version is not assigned, nothing is changed and no rollback runs. *)
Theorem version_error_aborts_before_any_change (ext : externals) (s : state)
  (b message : string) :
  quiet s ->
  force (release_metadata s) = true \/ status_porcelain (main_repo s) = "" ->
  status_porcelain (pages_repo s) = "" ->
  branch (main_repo s) = Some b ->
  (Version_parse ext (current_version (release_metadata s)) = None
   /\ message = "Version string '" ++ py_str (current_version (release_metadata s))
                ++ "' has invalid format; valid format: " ++ VERSION_STRING_FORMAT)
  \/ (exists v,
        Version_parse ext (current_version (release_metadata s)) = Some v
        /\ Version_increment ext v (release_type (release_metadata s))
             (prerelease (release_metadata s)) = inl message) ->
  exists s',
    run_release ext s = (Raised (SystemExit 1), s')
    /\ stderr s' = (stderr s ++ [message])%list
    /\ release_metadata s' = release_metadata s
    /\ untouched s s'
    /\ rollback_attempted s' = rollback_attempted s.
Proof. exact (version_error_ends_run ext s b message). Qed.

Lemma version_error_aborts_before_any_change_witness :
  exists s',
    run_release Model.ext
      (set_release_metadata
         (mkReleaseMetadata None "" "c0" "p0" (Some "1.2.0-alpha") ["1.2.0"]
            "khalim19" "gimp-plugin-export-layers" "minor" "token" false ["all"]
            false None "origin" "master" false)
         Model.base_state)
    = (Raised (SystemExit 1), s')
    /\ stderr s' = ["the version has the prerelease 'alpha'"].
Proof.
  destruct (version_error_aborts_before_any_change Model.ext
              (set_release_metadata
                 (mkReleaseMetadata None "" "c0" "p0" (Some "1.2.0-alpha") ["1.2.0"]
                    "khalim19" "gimp-plugin-export-layers" "minor" "token" false ["all"]
                    false None "origin" "master" false)
                 Model.base_state)
              "master" "the version has the prerelease 'alpha'")
    as (s' & E & S & _).
  - split; reflexivity.
  - right. reflexivity.
  - reflexivity.
  - reflexivity.
  - right. exists (Model.mkVersion 1 2 (Some 0) (Some "alpha") None).
    split; reflexivity.
  - exists s'. split; [exact E | exact S].
Defined.

(** ** Failures, signals and the checks that exit *)

(** With no signal pending nothing is interrupted. *)
Lemma calm_ret {A : Type} (a : A) : calm (ret a).
Proof. intros s Hs. split; [discriminate | exact Hs]. Qed.

Lemma calm_raise {A : Type} (e : exn) : calm (@raise A e).
Proof. intros s Hs. split; [discriminate | exact Hs]. Qed.

Lemma calm_bind {A B : Type} (m : M A) (k : A -> M B) :
  calm m -> (forall a, calm (k a)) -> calm (bind m k).
Proof.
  intros Hm Hk s Hs. unfold bind. destruct (Hm s Hs) as [Hn Hi].
  destruct (m s) as [[a | e |] s1]; simpl in *.
  - apply Hk. exact Hi.
  - split; [discriminate | exact Hi].
  - contradiction.
Qed.

Lemma calm_try_except {A : Type} (m h : M A) (handles : exn -> bool) :
  calm m -> calm h -> calm (try_except m handles h).
Proof.
  intros Hm Hh s Hs. unfold try_except. destruct (Hm s Hs) as [Hn Hi].
  destruct (m s) as [[a | e |] s1]; simpl in *.
  - split; [discriminate | exact Hi].
  - destruct (handles e); [apply Hh; exact Hi | split; [discriminate | exact Hi]].
  - contradiction.
Qed.

Lemma calm_if {A : Type} (b : bool) (m1 m2 : M A) :
  calm m1 -> calm m2 -> calm (if b then m1 else m2).
Proof. destruct b; auto. Qed.

Lemma calm_unless_dry_run (rest : M unit) : calm rest -> calm (unless_dry_run rest).
Proof.
  intros Hr s Hs. unfold unless_dry_run.
  destruct (dry_run (release_metadata s)); [split; [discriminate | exact Hs] |].
  apply Hr. exact Hs.
Qed.

Lemma calm_outside {A : Type} (ev : event) (err : option exn) (act : M A) :
  calm act -> calm (outside ev err act).
Proof.
  intros Ha s Hs. unfold outside, sigint_due. rewrite Hs.
  destruct err as [e |]; [destruct (fault_due s) |];
    try (apply Ha; exact Hs).
  split; [discriminate | exact Hs].
Qed.

Lemma calm_print_error (message : string) : calm (_print_error message).
Proof. intros s Hs. split; [discriminate | exact Hs]. Qed.

Lemma calm_git (r : repo_id) (c : git_cmd) : calm (git r c).
Proof.
  apply calm_outside. intros s Hs.
  destruct (git_exec c (get_repo r s) (worktree r s)) as [[out r'] |]; simpl;
    (split; [discriminate | try (destruct r); exact Hs]).
Qed.

Lemma calm_isdir (path : string) : calm (isdir path).
Proof. apply calm_outside. intros s Hs. split; [discriminate | exact Hs]. Qed.

Lemma calm_rmtree (path : string) : calm (rmtree path).
Proof.
  apply calm_outside. intros s Hs.
  destruct (lookup path (dirs s)); simpl; (split; [discriminate | exact Hs]).
Qed.

Lemma calm_rollback_after_tag_deletion (rm : ReleaseMetadata) :
  calm (rollback_after_tag_deletion rm).
Proof.
  unfold rollback_after_tag_deletion.
  apply calm_bind; [apply calm_isdir | intros present].
  apply calm_bind; [apply calm_if; [apply calm_rmtree | apply calm_ret] | intros _].
  apply calm_bind; [apply calm_git | intros _].
  apply calm_bind; [apply calm_git | intros _]. apply calm_ret.
Qed.

Lemma calm_rollback : calm _rollback.
Proof.
  unfold _rollback. apply calm_unless_dry_run.
  apply calm_bind; [intros s Hs; split; [discriminate | exact Hs] | intros rm].
  apply calm_bind.
  { apply calm_try_except; [| apply calm_ret].
    apply calm_bind; [apply calm_git | intros _; apply calm_ret]. }
  intros _. apply (calm_rollback_after_tag_deletion rm).
Qed.

(** A handler prints, rolls back and exits: with no signal pending it
    ends by raising, [SystemExit] or what its rollback raises. *)
Lemma handler_raises (message : string) (s : state) :
  sigint_at s = None ->
  exists e s',
    (_print_error message ;; _rollback ;; @sys_exit unit 1) s = (Raised e, s')
    /\ sigint_at s' = None.
Proof.
  intros Hs.
  assert (Hc : calm (_print_error message ;; _rollback ;; @sys_exit unit 1)).
  { apply calm_bind; [apply calm_print_error | intros _].
    apply calm_bind; [apply calm_rollback | intros _]. apply calm_raise. }
  destruct (Hc s Hs) as [Hn Hi].
  destruct (handlers_exit_with_1 message s) as [_ Hr].
  destruct ((_print_error message ;; _rollback ;; @sys_exit unit 1) s)
    as [[u | e |] s'] eqn:E; simpl in *.
  - exfalso. apply (Hr u). reflexivity.
  - exists e, s'. split; [reflexivity | exact Hi].
  - contradiction.
Qed.

(** With no signal pending the except clause is the handler of the
    exception. *)
Lemma except_clause_without_signal (e : exn) (s : state) :
  fst (handle_exception e s) <> Interrupted ->
  except_clause e s = handle_exception e s.
Proof.
  intros Hn. unfold except_clause.
  destruct (handle_exception e s) as [[u | e' |] s']; simpl in *;
    [reflexivity | reflexivity | contradiction].
Qed.

(** The exit status of the except clause is 1, wherever a signal comes. *)
Lemma except_clause_exits_with_1 (e : exn) (s : state) :
  exit_status (fst (except_clause e s)) = 1%Z.
Proof.
  unfold except_clause.
  pose proof (handlers_exit_with_1
                (newline ++ "The following error has occurred:" ++ newline
                 ++ format_exc e ++ newline ++ "Performing rollback and aborting.") s)
    as [H1 _].
  change ((_print_error
             (newline ++ "The following error has occurred:" ++ newline
              ++ format_exc e ++ newline ++ "Performing rollback and aborting.") ;;
           _rollback ;; @sys_exit unit 1) s)
    with (handle_exception e s) in H1.
  destruct (handle_exception e s) as [[u | e' |] s2]; [exact H1 | exact H1 |].
  unfold sigint_in_except_clause.
  pose proof (handlers_exit_with_1 (newline ++ "Performing rollback and aborting.")
                (set_sigint_at None s2)) as [H2 _].
  change ((_print_error (newline ++ "Performing rollback and aborting.") ;;
           _rollback ;; @sys_exit unit 1) (set_sigint_at None s2))
    with (handle_sigint (set_sigint_at None s2)) in H2.
  destruct (handle_sigint (set_sigint_at None s2)) as [[u | e' |] s3];
    [exact H2 | | exact H2].
  destruct e'; try exact H2.
  destruct (Nat.eqb (clock s2) (clock s)); [| reflexivity].
  unfold bind.
  destruct (rollback_after_tag_deletion (release_metadata s3) s3)
    as [[u | e' |] s4] eqn:E; [reflexivity | | reflexivity].
  apply (@exit_status_of_Exception unit).
  assert (H : raises_only (fun e0 => is_Exception e0 = true)
                (rollback_after_tag_deletion (release_metadata s3))).
  { unfold rollback_after_tag_deletion.
    apply raises_bind; [apply raises_isdir; auto | intros present].
    apply raises_bind;
      [apply raises_if; [apply raises_rmtree; auto | apply raises_ret] | intros _].
    apply raises_bind; [apply raises_git; auto | intros _].
    apply raises_bind; [apply raises_git; auto | intros _]. apply raises_ret. }
  apply (H s3). now rewrite E.
Qed.

(** The two checks for local changes end the run. *)
Lemma dirty_main_ends_run (ext : externals) (s : state) :
  quiet s ->
  force (release_metadata s) = false ->
  status_porcelain (main_repo s) <> "" ->
  ends_at_check s (run_release ext s)
    ("Repository contains local changes. "
     ++ "Please remove or commit changes before proceeding.").
Proof.
  intros Hq Hf Hd.
  set (message := "Repository contains local changes. "
                  ++ "Please remove or commit changes before proceeding.").
  set (s1 := set_repo MainRepo (main_repo s) (logged (EvGit MainRepo StatusPorcelain) s)).
  assert (E : _check_branches_for_local_changes s
              = (Raised (SystemExit 1), set_stderr (stderr s1 ++ [message]) s1)).
  { unfold _check_branches_for_local_changes.
    unfold bind at 1. unfold get_rm at 1. rewrite Hf.
    unfold bind at 1.
    rewrite (bind_returned _ _ _ _ _ (status_query_quiet MainRepo s Hq)).
    cbn [get_repo].
    destruct (String.eqb_spec (status_porcelain (main_repo s)) ""); [contradiction |].
    reflexivity. }
  assert (EM : _make_release ext s
               = (Raised (SystemExit 1), set_stderr (stderr s1 ++ [message]) s1)).
  { unfold _make_release. apply (bind_raised _ _ _ _ _ E). }
  unfold ends_at_check. rewrite (exit_ends_the_run ext s _ 1%Z EM).
  assert (U : untouched s (set_stderr (stderr s1 ++ [message]) s1)).
  { apply (untouched_after_queries _ _ [EvGit MainRepo StatusPorcelain]); reflexivity. }
  split; [reflexivity |]. split; [reflexivity |].
  split; [exact U | exact (untouched_no_rollback _ _ U)].
Qed.

Lemma dirty_pages_ends_run (ext : externals) (s : state) (b : string) :
  quiet s ->
  force (release_metadata s) = true \/ status_porcelain (main_repo s) = "" ->
  status_porcelain (pages_repo s) <> "" ->
  branch (pages_repo s) = Some b ->
  ends_at_check s (run_release ext s)
    ("Repository in the '" ++ b ++ "' branch contains local changes. "
     ++ "Please remove or commit changes before proceeding.").
Proof.
  intros Hq Hmain Hpages Hb.
  destruct (check_branches_outcome s b Hq Hb) as (s' & E & S & U).
  assert (Hblocked : negb (force (release_metadata s))
                     && negb (String.eqb (status_porcelain (main_repo s)) "") = false).
  { destruct Hmain as [-> | ->]; [reflexivity | apply andb_false_r]. }
  assert (Hdirty : negb (String.eqb (status_porcelain (pages_repo s)) "") = true).
  { destruct (String.eqb_spec (status_porcelain (pages_repo s)) "");
      [contradiction | reflexivity]. }
  rewrite Hblocked, Hdirty in E. rewrite Hblocked, Hdirty in S. cbn [orb] in E.
  assert (EM : _make_release ext s = (Raised (SystemExit 1), s')).
  { unfold _make_release. apply (bind_raised _ _ _ _ _ E). }
  unfold ends_at_check. rewrite (exit_ends_the_run ext s _ 1%Z EM).
  split; [reflexivity |]. split; [exact S |].
  split; [exact U | exact (untouched_no_rollback _ _ U)].
Qed.

(** C1, amended. Every exception proper that a step raises (a failed git
    command, a failed build, a failed request or upload, an input or
    output error) and a SIGINT that comes during the step sequence lead to
    the rollback routine and then to exit status 1; the handler of the
    signal and the handler of the exception run the same [_rollback]. The
    handler of the signal runs where the signal comes, inside the [try]
    block: when its rollback fails with an exception proper, the except
    clause runs after it, with its own message and rollback. A signal
    that comes while the except clause runs is answered by the handler
    too; without one the except clause is the handler of the exception.
    The checks that precede every mutation report through
    [_print_error_and_exit], which always raises [SystemExit]: a step that
    ends this way ends the process at once, with the status it gives (1,
    or 2 at the prompt) and without rollback. In a quiet world this is
    how the run ends at each of the checks: local changes in the main
    repository without [force], local changes in the repository of the
    pages, a current version of invalid format, an increment that the
    version library refuses and a new version that is a tag already; the
    status is 1, the message of the check is the only one on the error
    stream, nothing is changed and no rollback is attempted. No failure
    ends with status 0. *)
Theorem failures_and_rollback (ext : externals) (s : state) :
  let r := run_release ext s in
  let rm := release_metadata s in
  handle_sigint
  = (_print_error (newline ++ "Performing rollback and aborting.") ;;
     _rollback ;; sys_exit 1)
  /\ (forall e, exists message,
        handle_exception e = (_print_error message ;; _rollback ;; sys_exit 1))
  /\ (forall message status s0,
        @_print_error_and_exit unit message status s0
        = (Raised (SystemExit status), set_stderr (stderr s0 ++ [message]) s0))
  /\ match _make_release ext s with
     | (Returned _, s1) => r = (Returned tt, s1)
     | (Raised e, s1) =>
         if is_Exception e
         then r = except_clause e s1
              /\ (fst (handle_exception e s1) <> Interrupted
                  -> r = handle_exception e s1)
              /\ exit_status (fst r) = 1%Z
         else r = (Raised e, s1)
              /\ (e = SystemExit 1 \/ e = SystemExit PROMPT_NO_EXIT_STATUS)
     | (Interrupted, s1) =>
         exit_status (fst r) = 1%Z
         /\ exists e s2,
              handle_sigint (set_sigint_at None s1) = (Raised e, s2)
              /\ r = if is_Exception e then handle_exception e s2 else (Raised e, s2)
     end
  /\ (quiet s ->
      (force rm = false -> status_porcelain (main_repo s) <> "" ->
       ends_at_check s r
         ("Repository contains local changes. "
          ++ "Please remove or commit changes before proceeding."))
      /\ (forall b,
            force rm = true \/ status_porcelain (main_repo s) = "" ->
            status_porcelain (pages_repo s) <> "" ->
            branch (pages_repo s) = Some b ->
            ends_at_check s r
              ("Repository in the '" ++ b ++ "' branch contains local changes. "
               ++ "Please remove or commit changes before proceeding."))
      /\ (forall b,
            force rm = true \/ status_porcelain (main_repo s) = "" ->
            status_porcelain (pages_repo s) = "" ->
            branch (main_repo s) = Some b ->
            (Version_parse ext (current_version rm) = None ->
             ends_at_check s r
               ("Version string '" ++ py_str (current_version rm)
                ++ "' has invalid format; valid format: " ++ VERSION_STRING_FORMAT))
            /\ (forall v message,
                  Version_parse ext (current_version rm) = Some v ->
                  Version_increment ext v (release_type rm) (prerelease rm)
                  = inl message ->
                  ends_at_check s r message)
            /\ (forall v v',
                  Version_parse ext (current_version rm) = Some v ->
                  Version_increment ext v (release_type rm) (prerelease rm) = inr v' ->
                  Version_str ext v' <> "" ->
                  mem (Version_str ext v') (tags (main_repo s)) = true ->
                  ends_at_check s r
                    ("Repository already contains tag '" ++ Version_str ext v'
                     ++ "', indicating that such a version is already released.")))).
Proof.
  cbv zeta. split; [reflexivity |]. split; [intros e; eexists; reflexivity |].
  split; [reflexivity |].
  split.
  { unfold run_release, under_sigint_handler, except_Exception.
    destruct (_make_release ext s) as [[[] | e |] s1] eqn:E.
    - reflexivity.
    - destruct (is_Exception e) eqn:He.
      + split; [reflexivity |].
        split; [intros Hn; apply except_clause_without_signal; exact Hn |].
        apply except_clause_exits_with_1.
      + split; [reflexivity |].
        assert (H : script_failure e).
        { apply (raises_make_release ext script_failure) with (s := s).
          - intros e0 H0. left. exact H0.
          - right. left. reflexivity.
          - right. right. reflexivity.
          - now rewrite E. }
        destruct H as [H | H]; [congruence | exact H].
    - destruct (handler_raises (newline ++ "Performing rollback and aborting.")
                  (set_sigint_at None s1) eq_refl) as (e & s2 & EH & Hi).
      change ((_print_error (newline ++ "Performing rollback and aborting.") ;;
               _rollback ;; @sys_exit unit 1) (set_sigint_at None s1))
        with (handle_sigint (set_sigint_at None s1)) in EH.
      rewrite EH.
      assert (Hc : calm (handle_exception e)).
      { unfold handle_exception.
        apply calm_bind; [apply calm_print_error | intros _].
        apply calm_bind; [apply calm_rollback | intros _]. apply calm_raise. }
      assert (EC : except_clause e s2 = handle_exception e s2)
        by (apply except_clause_without_signal; apply (Hc s2 Hi)).
      split.
      + destruct (is_Exception e) eqn:He.
        * apply except_clause_exits_with_1.
        * destruct (handlers_exit_with_1 (newline ++ "Performing rollback and aborting.")
                      (set_sigint_at None s1)) as [H1 _].
          change ((_print_error (newline ++ "Performing rollback and aborting.") ;;
                   _rollback ;; @sys_exit unit 1) (set_sigint_at None s1))
            with (handle_sigint (set_sigint_at None s1)) in H1.
          rewrite EH in H1. exact H1.
      + exists e, s2. split; [reflexivity |].
        destruct (is_Exception e); [exact EC | reflexivity]. }
  intros Hq.
  split; [intros Hf Hd; exact (dirty_main_ends_run ext s Hq Hf Hd) |].
  split; [intros b Hmain Hpages Hb; exact (dirty_pages_ends_run ext s b Hq Hmain Hpages Hb) |].
  intros b Hmain Hpages Hb.
  assert (Hv : forall message,
             (Version_parse ext (current_version (release_metadata s)) = None
              /\ message = "Version string '"
                           ++ py_str (current_version (release_metadata s))
                           ++ "' has invalid format; valid format: "
                           ++ VERSION_STRING_FORMAT)
             \/ (exists v,
                   Version_parse ext (current_version (release_metadata s)) = Some v
                   /\ Version_increment ext v (release_type (release_metadata s))
                        (prerelease (release_metadata s)) = inl message) ->
             ends_at_check s (run_release ext s) message).
  { intros message H.
    destruct (version_error_ends_run ext s b message Hq Hmain Hpages Hb H)
      as (s' & E & S & _ & U & R).
    unfold ends_at_check. rewrite E. repeat split; try assumption; apply U. }
  split; [intros Hp; apply Hv; left; split; [exact Hp | reflexivity] |].
  split; [intros v message Hp Hi; apply Hv; right; exists v; split; assumption |].
  intros v v' Hp Hi Hne Hmem.
  destruct (existing_tag_ends_run ext s b v v' Hq Hmain Hpages Hb Hp Hi Hne Hmem)
    as (s' & E & S & _ & _ & _ & _ & U & R).
  unfold ends_at_check. rewrite E. repeat split; try assumption; apply U.
Qed.

Lemma failures_and_rollback_witness :
  quiet Runs.tagged_state
  /\ ends_at_check Runs.tagged_state (run_release Model.ext Runs.tagged_state)
       ("Repository already contains tag '1.3.0', "
        ++ "indicating that such a version is already released.").
Proof.
  split; [split; reflexivity |].
  destruct (failures_and_rollback Model.ext Runs.tagged_state) as (_ & _ & _ & _ & H).
  destruct (H (conj eq_refl eq_refl)) as (_ & _ & H3).
  destruct (H3 "master" (or_intror eq_refl) eq_refl eq_refl) as (_ & _ & H4).
  apply (H4 (Model.mkVersion 1 2 (Some 0) None None)
            (Model.mkVersion 1 3 (Some 0) None None));
    [reflexivity | reflexivity | discriminate | reflexivity].
Defined.

(** ** The checkpoints of the rollback *)

(** An outside action goes through when neither a failure nor the signal
    is due at its time. *)
Lemma not_due_yet (s : state) (k : nat) :
  (forall n, In n (faults s) -> (clock s + S k <= n)%nat) ->
  (forall n, sigint_at s = Some n -> (clock s + S k <= n)%nat) ->
  sigint_due s = false /\ fault_due s = false.
Proof.
  intros Hf Hs. split.
  - unfold sigint_due. destruct (sigint_at s) as [n |] eqn:E; [| reflexivity].
    apply Nat.eqb_neq. specialize (Hs n eq_refl). lia.
  - unfold fault_due. destruct (existsb (Nat.eqb (clock s)) (faults s)) eqn:E;
      [| reflexivity].
    apply existsb_exists in E as (n & Hn & Hc). apply Nat.eqb_eq in Hc.
    specialize (Hf n Hn). lia.
Qed.

Lemma outside_not_due {A : Type} (ev : event) (err : option exn) (act : M A)
  (s : state) :
  sigint_due s = false -> fault_due s = false ->
  outside ev err act s = act (logged ev s).
Proof. intros H1 H2. unfold outside. rewrite H1, H2. now destruct err. Qed.

Lemma git_query_not_due (r : repo_id) (c : git_cmd) (s : state) (out : string) :
  sigint_due s = false -> fault_due s = false ->
  git_exec c (get_repo r s) (worktree r s) = Some (out, get_repo r s) ->
  git r c s = (Returned out, set_repo r (get_repo r s) (logged (EvGit r c) s)).
Proof.
  intros H1 H2 He. unfold git. rewrite (outside_not_due _ _ _ s H1 H2).
  replace (get_repo r (logged (EvGit r c) s)) with (get_repo r s)
    by (destruct r; reflexivity).
  change (worktree r (logged (EvGit r c) s)) with (worktree r s).
  now rewrite He.
Qed.

(** X5. The two commits that the rollback resets to are the heads of the
    two repositories at the moment the metadata is built, and stay so to
    the end of the run: whatever fails or interrupts the run afterwards,
    and whatever the rollback does, the recorded commits at the end are
    the heads the repositories had when the script started. *)
Theorem checkpoints_are_the_heads_at_start (ext : externals) (kwargs : options)
  (s : state) :
  (forall n, In n (faults s) -> (clock s + 3 <= n)%nat) ->
  (forall n, sigint_at s = Some n -> (clock s + 3 <= n)%nat) ->
  let s' := snd (make_release ext kwargs s) in
  last_commit_id_before_release (release_metadata s') = head (main_repo s)
  /\ last_gh_pages_commit_id_before_release (release_metadata s') = head (pages_repo s).
Proof.
  intros Hf Hs.
  assert (E : exists st,
             make_release ext kwargs s = run_release ext st
             /\ last_commit_id_before_release (release_metadata st) = head (main_repo s)
             /\ last_gh_pages_commit_id_before_release (release_metadata st)
                = head (pages_repo s)).
  { unfold make_release. unfold bind at 1.
    destruct (not_due_yet s 2 Hf Hs) as [N1 N2].
    rewrite (bind_returned _ _ _ _ _
               (git_query_not_due MainRepo (TagList None) s _ N1 N2 eq_refl)).
    set (s1 := set_repo MainRepo (get_repo MainRepo s)
                 (logged (EvGit MainRepo (TagList None)) s)).
    destruct (not_due_yet s1 1) as [N3 N4].
    { intros n Hn. specialize (Hf n Hn). simpl. lia. }
    { intros n Hn. specialize (Hs n Hn). simpl. lia. }
    rewrite (bind_returned _ _ _ _ _
               (git_query_not_due MainRepo RevParseHead s1 _ N3 N4 eq_refl)).
    set (s2 := set_repo MainRepo (get_repo MainRepo s1)
                 (logged (EvGit MainRepo RevParseHead) s1)).
    destruct (not_due_yet s2 0) as [N5 N6].
    { intros n Hn. specialize (Hf n Hn). simpl. lia. }
    { intros n Hn. specialize (Hs n Hn). simpl. lia. }
    rewrite (bind_returned _ _ _ _ _
               (git_query_not_due PagesRepo RevParseHead s2 _ N5 N6 eq_refl)).
    unfold bind at 1. unfold modify at 1.
    eexists. split; [reflexivity |]. split; reflexivity. }
  destruct E as (st & E & H1 & H2).
  cbv zeta. rewrite E.
  destruct (fixed_run_release ext st I) as [_ [K1 K2]].
  rewrite K1, K2. split; assumption.
Qed.

Lemma checkpoints_are_the_heads_at_start_witness :
  let s := mkState Model.base_metadata (Some "1.2.0") "January 01, 2019"
             (main_repo Model.base_state) (pages_repo Model.base_state)
             (files Model.base_state) (dirs Model.base_state) [] [] []
             (replies Model.base_state) (built Model.base_state)
             "November 04, 2026" [] 0 [25] (Some 30) in
  let s' := snd (make_release Model.ext
                   (mkOptions "minor" "token" false ["all"] false None
                      "origin" "master" false) s) in
  last_commit_id_before_release (release_metadata s') = "c0"
  /\ last_gh_pages_commit_id_before_release (release_metadata s') = "p0".
Proof.
  cbv zeta.
  apply (checkpoints_are_the_heads_at_start Model.ext).
  - simpl. intros n [<- | []]. lia.
  - simpl. intros n H. injection H as <-. lia.
Defined.

(** ** The changelog of a document that begins with its header *)

Lemma lookup_delete_other {V : Type} (p k : string) (l : list (string * V)) :
  p <> k -> lookup p (delete k l) = lookup p l.
Proof.
  intros Hp. unfold delete. induction l as [| [k' v] t IH]; simpl; [reflexivity |].
  destruct (String.eqb_spec k k') as [<- | Hk]; simpl.
  - destruct (String.eqb_spec p k); [contradiction | exact IH].
  - now rewrite IH.
Qed.

Lemma lookup_insert_other {V : Type} (p k : string) (v : V) (l : list (string * V)) :
  p <> k -> lookup p (insert k v l) = lookup p l.
Proof.
  intros Hp. unfold insert. simpl.
  destruct (String.eqb_spec p k); [contradiction |].
  apply lookup_delete_other. exact Hp.
Qed.

Lemma read_file_quiet (path text : string) (s : state) :
  quiet s -> lookup path (files s) = Some text ->
  read_file path s = (Returned text, logged (EvRead path) s).
Proof.
  intros Hq Hl. unfold read_file. rewrite (outside_quiet _ _ _ s Hq).
  change (files (logged (EvRead path) s)) with (files s). now rewrite Hl.
Qed.

Lemma write_file_quiet (path text : string) (s : state) :
  quiet s ->
  write_file path text s
  = (Returned tt,
     set_files (insert path text (files s)) (logged (EvWrite path text) s)).
Proof. intros Hq. unfold write_file. now rewrite (outside_quiet _ _ _ s Hq). Qed.

Lemma hash_header_found (title : string) :
  contains_char LF title = false ->
  search match_first_level_header ("# " ++ title ++ newline)
  = Some ("", (Some title, None)).
Proof.
  intros Ht. apply search_at_start.
  unfold match_first_level_header, match_hash_header.
  change (strip_prefix "# " ("# " ++ title ++ newline))
    with (Some (title ++ String LF "")).
  cbv iota beta. now rewrite (span_line_title title "" Ht).
Qed.

(** The step on such a changelog: what it changes, the trace and the
    clock apart. *)
Lemma changelog_retitled_quiet (ext : externals) (s : state)
  (title rest notes v : string) :
  quiet s ->
  dry_run (release_metadata s) = false ->
  new_version (release_metadata s) = Some v ->
  title <> "" ->
  contains_char LF title = false ->
  contains_char backslash v = false ->
  mem title (released_versions (release_metadata s)) = false ->
  lookup CHANGELOG_FILEPATH (files s) = Some ("# " ++ title ++ newline ++ rest) ->
  find_section ext ("# " ++ title ++ newline ++ rest)
  = ("# " ++ title ++ newline, notes) ->
  exists T C,
    _get_release_notes_and_modify_changelog_first_header ext s
    = (Returned tt,
       set_files (insert CHANGELOG_FILEPATH ("# " ++ v ++ newline ++ rest) (files s))
         (set_release_metadata
            (with_new_version_release_notes (strip notes) (release_metadata s))
            (set_stdout
               (stdout s
                ++ [("Replacing header name '" ++ title
                     ++ "' in the changelog with the new version")%string])
               (set_trace T (set_clock C s))))).
Proof.
  intros Hq Hd Hv Hne Ht Hvb Hrel Hdoc Hfind.
  assert (Htruthy : truthy (Some title) = true).
  { simpl. destruct (String.eqb_spec title ""); [contradiction | reflexivity]. }
  set (doc := "# " ++ title ++ newline ++ rest) in *.
  set (doc' := "# " ++ v ++ newline ++ rest).
  unfold _get_release_notes_and_modify_changelog_first_header.
  rewrite (bind_returned _ _ _ _ _ (read_file_quiet _ _ s Hq Hdoc)).
  rewrite Hfind. unfold bind at 1. unfold get_rm at 1.
  rewrite (hash_header_found title Ht).
  change (release_metadata (logged (EvRead CHANGELOG_FILEPATH) s))
    with (release_metadata s).
  cbn [not_in]. rewrite Hrel. cbn [negb andb]. rewrite Htruthy, Hv.
  unfold bind at 1. unfold modify at 1.
  unfold bind at 1. unfold print at 1. unfold modify at 1.
  change (py_str (Some title)) with title.
  set (s2 := set_stdout _ _).
  assert (Hq2 : quiet s2) by exact Hq.
  unfold unless_dry_run.
  change (dry_run (release_metadata s2)) with (dry_run (release_metadata s)).
  rewrite Hd. unfold bind at 1. unfold ret at 1.
  unfold doc. rewrite (retitle_hash_header_at_start title rest v Ht Hvb).
  fold doc'. rewrite (write_file_quiet CHANGELOG_FILEPATH doc' s2 Hq2).
  match goal with
  | |- exists T C, (Returned tt, ?sf) = _ => exists (trace sf), (clock sf)
  end.
  unfold s2. destruct s; reflexivity.
Qed.

(** X6. A changelog that begins with its header, written with a hash, is
    retitled in place: when the title is not a released version, the step
    stores the stripped notes of the section, announces the replacement
    and writes the document back with the new version as the title of the
    header and the rest of the text as it was; no other file changes. Run
    again on its own output, with the new version now among the released
    ones, the step only reads the file: nothing is printed, assigned or
    written. *)
Theorem header_first_changelog_round_trip (ext : externals) (s : state)
  (title rest notes v : string) :
  quiet s ->
  dry_run (release_metadata s) = false ->
  new_version (release_metadata s) = Some v ->
  title <> "" ->
  contains_char LF title = false ->
  contains_char LF v = false ->
  contains_char backslash v = false ->
  mem title (released_versions (release_metadata s)) = false ->
  lookup CHANGELOG_FILEPATH (files s) = Some ("# " ++ title ++ newline ++ rest) ->
  find_section ext ("# " ++ title ++ newline ++ rest)
  = ("# " ++ title ++ newline, notes) ->
  exists s1,
    _get_release_notes_and_modify_changelog_first_header ext s = (Returned tt, s1)
    /\ lookup CHANGELOG_FILEPATH (files s1) = Some ("# " ++ v ++ newline ++ rest)
    /\ (forall p, p <> CHANGELOG_FILEPATH -> lookup p (files s1) = lookup p (files s))
    /\ new_version_release_notes (release_metadata s1) = strip notes
    /\ stdout s1
       = (stdout s
          ++ [("Replacing header name '" ++ title
               ++ "' in the changelog with the new version")%string])%list
    /\ forall (s2 : state) (notes2 : string),
         quiet s2 ->
         files s2 = files s1 ->
         mem v (released_versions (release_metadata s2)) = true ->
         find_section ext ("# " ++ v ++ newline ++ rest)
         = ("# " ++ v ++ newline, notes2) ->
         _get_release_notes_and_modify_changelog_first_header ext s2
         = (Returned tt, logged (EvRead CHANGELOG_FILEPATH) s2).
Proof.
  intros Hq Hd Hv Hne Ht Hvl Hvb Hrel Hdoc Hfind.
  destruct (changelog_retitled_quiet ext s title rest notes v Hq Hd Hv Hne Ht Hvb
              Hrel Hdoc Hfind) as (T & C & E).
  eexists. split; [exact E |].
  split; [apply lookup_insert |].
  split.
  { intros p Hp.
    apply (lookup_insert_other p CHANGELOG_FILEPATH _ (files s) Hp). }
  split; [reflexivity |]. split; [reflexivity |].
  intros s3 notes2 Hq3 Hf3 Hrel3 Hfind3.
  apply (released_header_is_left_alone ext s3 ("# " ++ v ++ newline ++ rest)
           ("# " ++ v ++ newline) notes2 "" (Some v) None Hq3).
  - rewrite Hf3. apply lookup_insert.
  - exact Hfind3.
  - apply (hash_header_found v Hvl).
  - cbn [not_in]. rewrite Hrel3. reflexivity.
Qed.

Lemma header_first_changelog_round_trip_witness :
  exists s1,
    _get_release_notes_and_modify_changelog_first_header Model.ext
      (set_release_metadata (with_new_version (Some "1.3.0") Model.base_metadata)
         Model.base_state)
    = (Returned tt, s1)
    /\ lookup CHANGELOG_FILEPATH (files s1)
       = Some ("# 1.3.0" ++ newline ++ "* a fix" ++ newline
               ++ "# 1.2.0" ++ newline ++ "* older" ++ newline)
    /\ new_version_release_notes (release_metadata s1) = "* a fix".
Proof.
  destruct (header_first_changelog_round_trip Model.ext
              (set_release_metadata (with_new_version (Some "1.3.0") Model.base_metadata)
                 Model.base_state)
              "Unreleased"
              ("* a fix" ++ newline ++ "# 1.2.0" ++ newline ++ "* older" ++ newline)
              ("* a fix" ++ newline) "1.3.0")
    as (s1 & E & D & _ & N & _).
  - split; reflexivity.
  - reflexivity.
  - reflexivity.
  - discriminate.
  - reflexivity.
  - reflexivity.
  - reflexivity.
  - reflexivity.
  - reflexivity.
  - reflexivity.
  - exists s1. split; [exact E |]. split; [exact D | exact N].
Defined.

Lemma underlined_header_found (title : string) (n : nat) :
  strip_prefix "#" title = None ->
  contains_char LF title = false ->
  search match_first_level_header
    (title ++ newline ++ repeat_char "=" (S n) ++ newline)
  = Some ("", (None, Some title)).
Proof.
  intros Hh Ht. apply search_at_start.
  unfold match_first_level_header.
  assert (E1 : match_hash_header (title ++ newline ++ repeat_char "=" (S n) ++ newline)
               = None).
  { unfold match_hash_header. destruct title as [| c t]; [reflexivity |].
    change (strip_prefix "#" (String c t))
      with (if Ascii.eqb "#" c then Some t else None) in Hh.
    change (strip_prefix "# " (String c t ++ newline ++ repeat_char "=" (S n) ++ newline))
      with (if Ascii.eqb "#" c
            then strip_prefix " " (t ++ newline ++ repeat_char "=" (S n) ++ newline)
            else None).
    destruct (Ascii.eqb "#" c); [discriminate | reflexivity]. }
  rewrite E1. unfold match_underlined_header.
  change (title ++ newline ++ repeat_char "=" (S n) ++ newline)
    with (title ++ String LF (repeat_char "=" (S n) ++ String LF "")).
  rewrite (span_line_title title _ Ht).
  rewrite (span_equals_underline (S n) "").
  now rewrite Ascii.eqb_refl.
Qed.

(** X7. A changelog that begins with an underlined header (a title line
    that does not begin with a hash, then a line of equals signs) is
    retitled in place as well: the title becomes the new version and the
    underline is redrawn with as many equals signs as the new version has
    characters, whatever its length was; the rest of the document and the
    other files stay as they were. *)
Theorem underlined_changelog_header_is_redrawn (ext : externals) (s : state)
  (title rest notes v : string) (n : nat) :
  quiet s ->
  dry_run (release_metadata s) = false ->
  new_version (release_metadata s) = Some v ->
  title <> "" ->
  strip_prefix "#" title = None ->
  contains_char LF title = false ->
  contains_char backslash v = false ->
  mem title (released_versions (release_metadata s)) = false ->
  lookup CHANGELOG_FILEPATH (files s)
  = Some (title ++ newline ++ repeat_char "=" (S n) ++ newline ++ rest) ->
  find_section ext (title ++ newline ++ repeat_char "=" (S n) ++ newline ++ rest)
  = (title ++ newline ++ repeat_char "=" (S n) ++ newline, notes) ->
  exists s1,
    _get_release_notes_and_modify_changelog_first_header ext s = (Returned tt, s1)
    /\ lookup CHANGELOG_FILEPATH (files s1)
       = Some (v ++ newline ++ repeat_char "=" (String.length v) ++ newline ++ rest)
    /\ (forall p, p <> CHANGELOG_FILEPATH -> lookup p (files s1) = lookup p (files s))
    /\ new_version_release_notes (release_metadata s1) = strip notes.
Proof.
  intros Hq Hd Hv Hne Hh Ht Hvb Hrel Hdoc Hfind.
  assert (Htruthy : truthy (Some title) = true).
  { simpl. destruct (String.eqb_spec title ""); [contradiction | reflexivity]. }
  set (doc := title ++ newline ++ repeat_char "=" (S n) ++ newline ++ rest) in *.
  set (doc' := v ++ newline ++ repeat_char "=" (String.length v) ++ newline ++ rest).
  set (s0 := logged (EvRead CHANGELOG_FILEPATH) s).
  set (s1 := set_release_metadata
               (with_new_version_release_notes (strip notes) (release_metadata s0)) s0).
  set (s2 := set_stdout
               (stdout s1
                ++ [("Replacing header name '" ++ title
                     ++ "' in the changelog with the new version")%string]) s1).
  assert (Hq2 : quiet s2) by exact Hq.
  assert (E : _get_release_notes_and_modify_changelog_first_header ext s
              = (Returned tt,
                 set_files (insert CHANGELOG_FILEPATH doc' (files s2))
                   (logged (EvWrite CHANGELOG_FILEPATH doc') s2))).
  { unfold _get_release_notes_and_modify_changelog_first_header.
    rewrite (bind_returned _ _ _ _ _ (read_file_quiet _ _ s Hq Hdoc)).
    rewrite Hfind. unfold bind at 1. unfold get_rm at 1.
    rewrite (underlined_header_found title n Hh Ht).
    change (release_metadata (logged (EvRead CHANGELOG_FILEPATH) s))
      with (release_metadata s).
    cbn [not_in]. rewrite Hrel. cbn [negb andb].
    change (truthy None) with false. cbv iota. rewrite Htruthy, Hv.
    unfold bind at 1. unfold modify at 1. fold s0. fold s1.
    unfold bind at 1. unfold print at 1. unfold modify at 1.
    change (py_str (Some title)) with title. fold s2.
    unfold unless_dry_run.
    change (dry_run (release_metadata s2)) with (dry_run (release_metadata s)).
    rewrite Hd. unfold bind at 1. unfold ret at 1.
    unfold doc. rewrite (retitle_underlined_header_at_start title rest v n Ht Hvb).
    fold doc'. apply (write_file_quiet CHANGELOG_FILEPATH doc' s2 Hq2). }
  eexists. split; [exact E |].
  split; [apply lookup_insert |].
  split; [intros p Hp; apply (lookup_insert_other p CHANGELOG_FILEPATH doc' (files s) Hp) |].
  reflexivity.
Qed.

Lemma underlined_changelog_header_is_redrawn_witness :
  exists s1,
    _get_release_notes_and_modify_changelog_first_header Model.ext
      (set_files [(CHANGELOG_FILEPATH,
                   "Unreleased" ++ newline ++ "===" ++ newline ++ "* a fix" ++ newline)]
         (set_release_metadata (with_new_version (Some "1.3.0") Model.base_metadata)
            Model.base_state))
    = (Returned tt, s1)
    /\ lookup CHANGELOG_FILEPATH (files s1)
       = Some ("1.3.0" ++ newline ++ "=====" ++ newline ++ "* a fix" ++ newline).
Proof.
  destruct (underlined_changelog_header_is_redrawn Model.ext
              (set_files [(CHANGELOG_FILEPATH,
                           "Unreleased" ++ newline ++ "===" ++ newline
                           ++ "* a fix" ++ newline)]
                 (set_release_metadata
                    (with_new_version (Some "1.3.0") Model.base_metadata)
                    Model.base_state))
              "Unreleased" ("* a fix" ++ newline) ("* a fix" ++ newline) "1.3.0" 2)
    as (s1 & E & D & _).
  - split; reflexivity.
  - reflexivity.
  - reflexivity.
  - discriminate.
  - reflexivity.
  - reflexivity.
  - reflexivity.
  - reflexivity.
  - reflexivity.
  - reflexivity.
  - exists s1. split; [exact E | exact D].
Defined.

(** ** The directories of the pages *)

Lemma rmtree_quiet (path : string) (d : directory) (s : state) :
  quiet s -> lookup path (dirs s) = Some d ->
  rmtree path s
  = (Returned tt, set_dirs (delete path (dirs s)) (logged (EvRmTree path) s)).
Proof.
  intros Hq Hl. unfold rmtree. rewrite (outside_quiet _ _ _ s Hq).
  change (dirs (logged (EvRmTree path) s)) with (dirs s). now rewrite Hl.
Qed.

Lemma copytree_quiet (src dst : string) (d : directory) (s : state) :
  quiet s -> lookup src (dirs s) = Some d -> lookup dst (dirs s) = None ->
  copytree src dst s
  = (Returned tt,
     set_dirs (insert dst d (dirs s)) (logged (EvCopyTree src dst) s)).
Proof.
  intros Hq Hs Hd. unfold copytree. rewrite (outside_quiet _ _ _ s Hq).
  change (dirs (logged (EvCopyTree src dst) s)) with (dirs s). now rewrite Hs, Hd.
Qed.

Lemma copytree_without_source (src dst : string) (s : state) :
  quiet s -> lookup src (dirs s) = None ->
  copytree src dst s = (Raised OSError, logged (EvCopyTree src dst) s).
Proof.
  intros Hq Hs. unfold copytree. rewrite (outside_quiet _ _ _ s Hq).
  change (dirs (logged (EvCopyTree src dst) s)) with (dirs s). now rewrite Hs.
Qed.

Lemma delete_delete {V : Type} (k : string) (l : list (string * V)) :
  delete k (delete k l) = delete k l.
Proof.
  unfold delete. induction l as [| [k' v] t IH]; simpl; [reflexivity |].
  destruct (String.eqb k k') eqn:E; simpl; [exact IH | now rewrite E, IH].
Qed.

(** One turn of the loop of [_prepare_gh_pages_for_update]. *)
Lemma pages_directory_replaced (dirname : string) (old new : directory) (s : state) :
  quiet s ->
  path_join (path_join GITHUB_PAGE_DIRPATH "dev") dirname
  <> path_join GITHUB_PAGE_DIRPATH dirname ->
  lookup (path_join GITHUB_PAGE_DIRPATH dirname) (dirs s) = Some old ->
  lookup (path_join (path_join GITHUB_PAGE_DIRPATH "dev") dirname) (dirs s) = Some new ->
  exists s',
    (rmtree (path_join GITHUB_PAGE_DIRPATH dirname) ;;
     copytree (path_join (path_join GITHUB_PAGE_DIRPATH "dev") dirname)
              (path_join GITHUB_PAGE_DIRPATH dirname)) s
    = (Returned tt, s')
    /\ quiet s'
    /\ dirs s' = insert (path_join GITHUB_PAGE_DIRPATH dirname) new (dirs s)
    /\ files s' = files s /\ main_repo s' = main_repo s
    /\ pages_repo s' = pages_repo s.
Proof.
  intros Hq Hne Hold Hnew.
  set (dst := path_join GITHUB_PAGE_DIRPATH dirname) in *.
  set (src := path_join (path_join GITHUB_PAGE_DIRPATH "dev") dirname) in *.
  rewrite (bind_returned _ _ _ _ _ (rmtree_quiet dst old s Hq Hold)).
  set (s1 := set_dirs (delete dst (dirs s)) (logged (EvRmTree dst) s)).
  assert (Hq1 : quiet s1) by exact Hq.
  assert (H1 : lookup src (dirs s1) = Some new).
  { change (dirs s1) with (delete dst (dirs s)).
    now rewrite (lookup_delete_other src dst (dirs s) Hne). }
  assert (H2 : lookup dst (dirs s1) = None) by apply lookup_delete.
  rewrite (copytree_quiet src dst new s1 Hq1 H1 H2).
  eexists. split; [reflexivity |]. split; [exact Hq |].
  split; [| repeat split].
  change (insert dst new (delete dst (dirs s)) = insert dst new (dirs s)).
  unfold insert. now rewrite delete_delete.
Qed.

(** X8. On a run that is not a dry run and in a quiet world, the
    preparation of the pages replaces the directories [images] and
    [sections] of the pages by the copies kept under [dev]: afterwards
    each of the two holds what its counterpart under [dev] holds, and
    every other directory, [dev] included, the files and both
    repositories are as before. *)
Theorem pages_directories_are_replaced_from_dev (s : state) (b : string)
  (old_images old_sections new_images new_sections : directory) :
  quiet s ->
  dry_run (release_metadata s) = false ->
  branch (pages_repo s) = Some b ->
  lookup (path_join GITHUB_PAGE_DIRPATH "images") (dirs s) = Some old_images ->
  lookup (path_join GITHUB_PAGE_DIRPATH "sections") (dirs s) = Some old_sections ->
  lookup (path_join (path_join GITHUB_PAGE_DIRPATH "dev") "images") (dirs s)
  = Some new_images ->
  lookup (path_join (path_join GITHUB_PAGE_DIRPATH "dev") "sections") (dirs s)
  = Some new_sections ->
  exists s',
    _prepare_gh_pages_for_update s = (Returned tt, s')
    /\ lookup (path_join GITHUB_PAGE_DIRPATH "images") (dirs s') = Some new_images
    /\ lookup (path_join GITHUB_PAGE_DIRPATH "sections") (dirs s') = Some new_sections
    /\ (forall p,
          p <> path_join GITHUB_PAGE_DIRPATH "images" ->
          p <> path_join GITHUB_PAGE_DIRPATH "sections" ->
          lookup p (dirs s') = lookup p (dirs s))
    /\ files s' = files s
    /\ main_repo s' = main_repo s
    /\ pages_repo s' = pages_repo s.
Proof.
  intros Hq Hd Hb Hoi Hos Hni Hns.
  unfold _prepare_gh_pages_for_update.
  rewrite (bind_returned _ _ _ _ _ (active_branch_quiet PagesRepo s b Hq Hb)).
  unfold bind at 1. unfold print at 1. unfold modify at 1.
  set (s0 := set_stdout _ _).
  assert (Hq0 : quiet s0) by exact Hq.
  unfold unless_dry_run.
  change (dry_run (release_metadata s0)) with (dry_run (release_metadata s)).
  rewrite Hd.
  change (dirs s) with (dirs s0) in Hoi, Hos, Hni, Hns.
  destruct (pages_directory_replaced "images" old_images new_images s0 Hq0)
    as (s1 & E1 & Hq1 & D1 & F1 & M1 & P1);
    [intros H; vm_compute in H; discriminate H | exact Hoi | exact Hni |].
  assert (Hos1 : lookup (path_join GITHUB_PAGE_DIRPATH "sections") (dirs s1)
                 = Some old_sections).
  { rewrite D1, lookup_insert_other; [exact Hos |].
    intros H; vm_compute in H; discriminate H. }
  assert (Hns1 : lookup (path_join (path_join GITHUB_PAGE_DIRPATH "dev") "sections")
                   (dirs s1) = Some new_sections).
  { rewrite D1, lookup_insert_other; [exact Hns |].
    intros H; vm_compute in H; discriminate H. }
  destruct (pages_directory_replaced "sections" old_sections new_sections s1 Hq1)
    as (s2 & E2 & Hq2 & D2 & F2 & M2 & P2);
    [intros H; vm_compute in H; discriminate H | exact Hos1 | exact Hns1 |].
  exists s2. split.
  - cbn [for_each]. rewrite (bind_returned _ _ _ _ _ E1).
    rewrite (bind_returned _ _ _ _ _ E2). reflexivity.
  - split.
    { rewrite D2, lookup_insert_other, D1; [apply lookup_insert |].
      intros H; vm_compute in H; discriminate H. }
    split; [rewrite D2; apply lookup_insert |].
    split.
    { intros p Hp1 Hp2.
      rewrite D2, (lookup_insert_other p _ _ _ Hp2), D1.
      apply (lookup_insert_other p _ _ _ Hp1). }
    split; [now rewrite F2, F1 |].
    split; [now rewrite M2, M1 | now rewrite P2, P1].
Qed.

Lemma pages_directories_are_replaced_from_dev_witness :
  exists s',
    _prepare_gh_pages_for_update Model.base_state = (Returned tt, s')
    /\ lookup (path_join GITHUB_PAGE_DIRPATH "images") (dirs s')
       = Some (Dir [("a.png", "new")] [])
    /\ lookup (path_join GITHUB_PAGE_DIRPATH "sections") (dirs s')
       = Some (Dir [("a.md", "new")] []).
Proof.
  destruct (pages_directories_are_replaced_from_dev Model.base_state "gh-pages"
              (Dir [("a.png", "old")] []) (Dir [("a.md", "old")] [])
              (Dir [("a.png", "new")] []) (Dir [("a.md", "new")] []))
    as (s' & E & H1 & H2 & _).
  - split; reflexivity.
  - reflexivity.
  - reflexivity.
  - reflexivity.
  - reflexivity.
  - reflexivity.
  - reflexivity.
  - exists s'. split; [exact E |]. split; [exact H1 | exact H2].
Defined.

(** X9. The preparation deletes a directory of the pages before it looks
    at the copy under [dev]: when [dev] has no [images], the step fails
    with the error of the copy, and at the end of the step the pages are
    without their [images] directory; the other directories are as
    before. *)
Theorem pages_directory_is_lost_without_dev_copy (s : state) (b : string)
  (old_images : directory) :
  quiet s ->
  dry_run (release_metadata s) = false ->
  branch (pages_repo s) = Some b ->
  lookup (path_join GITHUB_PAGE_DIRPATH "images") (dirs s) = Some old_images ->
  lookup (path_join (path_join GITHUB_PAGE_DIRPATH "dev") "images") (dirs s) = None ->
  exists s',
    _prepare_gh_pages_for_update s = (Raised OSError, s')
    /\ lookup (path_join GITHUB_PAGE_DIRPATH "images") (dirs s') = None
    /\ (forall p, p <> path_join GITHUB_PAGE_DIRPATH "images" ->
                  lookup p (dirs s') = lookup p (dirs s)).
Proof.
  intros Hq Hd Hb Hoi Hni.
  unfold _prepare_gh_pages_for_update.
  rewrite (bind_returned _ _ _ _ _ (active_branch_quiet PagesRepo s b Hq Hb)).
  unfold bind at 1. unfold print at 1. unfold modify at 1.
  set (s0 := set_stdout _ _).
  assert (Hq0 : quiet s0) by exact Hq.
  unfold unless_dry_run.
  change (dry_run (release_metadata s0)) with (dry_run (release_metadata s)).
  rewrite Hd. cbn [for_each].
  set (dst := path_join GITHUB_PAGE_DIRPATH "images") in *.
  set (src := path_join (path_join GITHUB_PAGE_DIRPATH "dev") "images") in *.
  assert (E1 : rmtree dst s0
               = (Returned tt, set_dirs (delete dst (dirs s0)) (logged (EvRmTree dst) s0)))
    by (apply (rmtree_quiet dst old_images s0 Hq0); exact Hoi).
  set (s1 := set_dirs (delete dst (dirs s0)) (logged (EvRmTree dst) s0)) in *.
  assert (Hq1 : quiet s1) by exact Hq.
  assert (Hsrc : lookup src (dirs s1) = None).
  { change (dirs s1) with (delete dst (dirs s)).
    rewrite lookup_delete_other; [exact Hni |].
    intros H; vm_compute in H; discriminate H. }
  assert (E2 : (rmtree dst ;; copytree src dst) s0
               = (Raised OSError, logged (EvCopyTree src dst) s1)).
  { rewrite (bind_returned _ _ _ _ _ E1).
    apply (copytree_without_source src dst s1 Hq1 Hsrc). }
  rewrite (bind_raised _ _ _ _ _ E2).
  eexists. split; [reflexivity |]. split.
  - change (lookup dst (delete dst (dirs s)) = None). apply lookup_delete.
  - intros p Hp. change (lookup p (delete dst (dirs s)) = lookup p (dirs s)).
    apply lookup_delete_other. exact Hp.
Qed.

Lemma pages_directory_is_lost_without_dev_copy_witness :
  exists s',
    _prepare_gh_pages_for_update
      (set_dirs [(path_join GITHUB_PAGE_DIRPATH "images", Dir [("a.png", "old")] [])]
         Model.base_state)
    = (Raised OSError, s')
    /\ lookup (path_join GITHUB_PAGE_DIRPATH "images") (dirs s') = None.
Proof.
  destruct (pages_directory_is_lost_without_dev_copy
              (set_dirs [(path_join GITHUB_PAGE_DIRPATH "images", Dir [("a.png", "old")] [])]
                 Model.base_state)
              "gh-pages" (Dir [("a.png", "old")] []))
    as (s' & E & H & _).
  - split; reflexivity.
  - reflexivity.
  - reflexivity.
  - reflexivity.
  - reflexivity.
  - exists s'. split; [exact E | exact H].
Defined.

(** ** The upload of the installers *)

Lemma ext_from_last_dot_starts_with_dot (s e : string) :
  ext_from_last_dot s = Some e -> exists r, e = String "." r.
Proof.
  revert e. induction s as [| c s IH]; intros e H; simpl in H; [discriminate |].
  destruct (ext_from_last_dot s) as [e' |].
  - injection H as <-. apply IH. reflexivity.
  - destruct (Ascii.eqb_spec c "."); [| discriminate].
    injection H as <-. subst c. eexists. reflexivity.
Qed.

(** The test of the source, on the extension without its dot, is the test
    on the extension with its dot. *)
Lemma upload_choice (filename : string) :
  match splitext_ext filename with
  | String _ file_extension => lookup file_extension FILE_EXTENSIONS_AND_MIME_TYPES
  | "" => None
  end = uploaded_as filename.
Proof.
  unfold uploaded_as, splitext_ext.
  destruct (ext_from_last_dot (lstrip_char "." filename)) as [e |] eqn:E;
    [| reflexivity].
  destruct (ext_from_last_dot_starts_with_dot _ _ E) as [r ->].
  unfold FILE_EXTENSIONS_AND_MIME_TYPES. cbn [lookup].
  change (String.eqb (String "." r) ".zip") with (String.eqb r "zip").
  change (String.eqb (String "." r) ".exe") with (String.eqb r "exe").
  reflexivity.
Qed.

Lemma requests_post_quiet url headers body params (s : state) (r : response)
  (rest : list response) :
  quiet s -> replies s = r :: rest ->
  requests_post url headers body params s
  = (Returned r, set_replies rest (logged (EvPost url headers body params) s)).
Proof.
  intros Hq Hr. unfold requests_post. rewrite (outside_quiet _ _ _ s Hq).
  change (replies (logged (EvPost url headers body params) s)) with (replies s).
  now rewrite Hr.
Qed.

(** The inner loop of [_upload_installers_to_github]. *)
Lemma upload_loop (upload_url : string) (access_token_header : list (string * string))
  (root_dirpath : string) (files_ : list (string * string)) :
  forall (s : state) (oks rest : list response),
    quiet s ->
    replies s = (oks ++ rest)%list ->
    Forall (fun r => status_ok r = true) oks ->
    length oks = length (uploaded_files files_) ->
    exists s',
      for_each files_
        (fun '(filename, file_contents) =>
           match splitext_ext filename with
           | String _ file_extension =>
               match lookup file_extension FILE_EXTENSIONS_AND_MIME_TYPES with
               | Some mime_type =>
                   outside (EvRead (path_join root_dirpath filename)) (Some IOError)
                     (ret tt) ;;
                   let headers :=
                     (access_token_header ++ [("Content-Type", mime_type)])%list in
                   response <- requests_post upload_url headers (RawBody file_contents)
                                 [("name", filename)] ;;
                   raise_for_status response
               | None => ret tt
               end
           | "" => ret tt
           end) s
      = (Returned tt, s')
      /\ quiet s'
      /\ trace s'
         = (trace s
            ++ upload_events upload_url access_token_header root_dirpath files_)%list
      /\ replies s' = rest
      /\ main_repo s' = main_repo s /\ pages_repo s' = pages_repo s
      /\ files s' = files s /\ dirs s' = dirs s
      /\ stdout s' = stdout s.
Proof.
  set (body := fun '(filename, file_contents) => _).
  assert (Hbody : forall filename file_contents,
             body (filename, file_contents)
             = match uploaded_as filename with
               | Some mime_type =>
                   outside (EvRead (path_join root_dirpath filename)) (Some IOError)
                     (ret tt) ;;
                   response <- requests_post upload_url
                                 (access_token_header ++ [("Content-Type", mime_type)])%list
                                 (RawBody file_contents) [("name", filename)] ;;
                   raise_for_status response
               | None => ret tt
               end).
  { intros filename file_contents. unfold body.
    rewrite <- (upload_choice filename).
    destruct (splitext_ext filename) as [| c file_extension]; [reflexivity |].
    destruct (lookup file_extension FILE_EXTENSIONS_AND_MIME_TYPES); reflexivity. }
  clearbody body.
  induction files_ as [| [filename file_contents] t IH]; intros s oks rest Hq Hr Hok Hlen.
  - destruct oks; [| discriminate Hlen].
    exists s. simpl. rewrite app_nil_r. repeat split; try apply Hq. exact Hr.
  - cbn [for_each]. unfold bind at 1. rewrite Hbody.
    unfold uploaded_files, upload_events in *. cbn [filter flat_map fst snd] in *.
    destruct (uploaded_as filename) as [mime_type |] eqn:Hu.
    + destruct oks as [| r oks']; [discriminate Hlen |].
      inversion Hok as [| ? ? Hr1 Hok']; subst.
      unfold bind at 1. rewrite (outside_quiet _ _ _ s Hq). unfold ret at 1.
      set (s1 := logged (EvRead (path_join root_dirpath filename)) s).
      assert (Hq1 : quiet s1) by exact Hq.
      rewrite (bind_returned _ _ _ _ _
                 (requests_post_quiet upload_url _ (RawBody file_contents)
                    [("name", filename)] s1 r (oks' ++ rest)%list Hq1 Hr)).
      unfold raise_for_status. rewrite Hr1. unfold ret at 1.
      set (s2 := set_replies _ _).
      destruct (IH s2 oks' rest) as (s' & E & Hq' & T & R & M1 & P1 & F1 & D1 & O1);
        [exact Hq | reflexivity | exact Hok' | simpl in Hlen; lia |].
      exists s'. split; [exact E |]. split; [exact Hq' |].
      split; [rewrite T; simpl; now rewrite <- !app_assoc |].
      repeat split; assumption.
    + unfold ret at 1.
      destruct (IH s oks rest Hq Hr Hok Hlen) as (s' & E & H).
      exists s'. split; [exact E | exact H].
Qed.

(** The outer loop: the turns of the walk, one directory after the
    other. *)
Lemma walk_loop (upload_url : string) (access_token_header : list (string * string))
  (turns : list (string * list (string * string))) :
  forall (s : state) (oks rest : list response),
    quiet s ->
    replies s = (oks ++ rest)%list ->
    Forall (fun r => status_ok r = true) oks ->
    length oks = length (walk_uploaded_files turns) ->
    exists s',
      for_each turns
        (fun '(root_dirpath, files_) =>
           for_each files_
             (fun '(filename, file_contents) =>
                match splitext_ext filename with
                | String _ file_extension =>
                    match lookup file_extension FILE_EXTENSIONS_AND_MIME_TYPES with
                    | Some mime_type =>
                        outside (EvRead (path_join root_dirpath filename)) (Some IOError)
                          (ret tt) ;;
                        let headers :=
                          (access_token_header ++ [("Content-Type", mime_type)])%list in
                        response <- requests_post upload_url headers
                                      (RawBody file_contents) [("name", filename)] ;;
                        raise_for_status response
                    | None => ret tt
                    end
                | "" => ret tt
                end)) s
      = (Returned tt, s')
      /\ quiet s'
      /\ trace s'
         = (trace s ++ walk_upload_events upload_url access_token_header turns)%list
      /\ replies s' = rest
      /\ main_repo s' = main_repo s /\ pages_repo s' = pages_repo s
      /\ files s' = files s /\ dirs s' = dirs s
      /\ stdout s' = stdout s.
Proof.
  induction turns as [| [root_dirpath files_] t IH]; intros s oks rest Hq Hr Hok Hlen.
  - destruct oks; [| discriminate Hlen].
    exists s. simpl. rewrite app_nil_r. repeat split; try apply Hq. exact Hr.
  - unfold walk_uploaded_files, walk_upload_events in *.
    cbn [flat_map fst snd] in *. rewrite length_app in Hlen.
    set (n := length (uploaded_files files_)) in *.
    assert (Hsplit : oks = (firstn n oks ++ skipn n oks)%list)
      by (symmetry; apply firstn_skipn).
    assert (Hn : length (firstn n oks) = n) by (rewrite length_firstn; lia).
    assert (Hm : length (skipn n oks)
                 = length (flat_map (fun turn => uploaded_files (snd turn)) t))
      by (rewrite length_skipn; lia).
    rewrite Hsplit in Hok. apply Forall_app in Hok as [Hok1 Hok2].
    destruct (upload_loop upload_url access_token_header root_dirpath files_ s
                (firstn n oks) (skipn n oks ++ rest)%list Hq)
      as (s1 & E1 & Hq1 & T1 & R1 & M1 & P1 & F1 & D1 & O1);
      [rewrite app_assoc, <- Hsplit; exact Hr | exact Hok1 | exact Hn |].
    destruct (IH s1 (skipn n oks) rest Hq1 R1 Hok2 Hm)
      as (s' & E & Hq' & T & R & M2 & P2 & F2 & D2 & O2).
    exists s'. split.
    + cbn [for_each]. unfold bind at 1. cbv beta iota zeta. cbv zeta in E1.
      rewrite E1. exact E.
    + split; [exact Hq' |].
      split; [rewrite T, T1; now rewrite <- app_assoc |].
      split; [exact R |].
      repeat split; congruence.
Qed.

(** X10. In a quiet world in which the server accepts every upload, the
    upload step walks the output directory top down, the directory
    itself and then every directory below it, and posts the files whose
    extension is [.zip] or [.exe], in the order of the walk: each is read
    at its path and posted under its bare name, with the MIME type of its
    extension beside the access token and with its contents as the body;
    the other files are neither read nor posted. One answer of the server
    is consumed per uploaded file, and the step changes no file, directory
    or repository. *)
Theorem installers_are_uploaded_by_extension (upload_url : string)
  (access_token_header : list (string * string)) (output : directory) (s : state)
  (oks rest : list response) :
  quiet s ->
  lookup INSTALLERS_OUTPUT_DIRPATH (dirs s) = Some output ->
  replies s = (oks ++ rest)%list ->
  Forall (fun r => status_ok r = true) oks ->
  length oks
  = length (walk_uploaded_files (walk_tree INSTALLERS_OUTPUT_DIRPATH output)) ->
  exists s',
    _upload_installers_to_github upload_url access_token_header s = (Returned tt, s')
    /\ trace s'
       = (trace s
          ++ EvWalk INSTALLERS_OUTPUT_DIRPATH
             :: walk_upload_events upload_url access_token_header
                  (walk_tree INSTALLERS_OUTPUT_DIRPATH output))%list
    /\ replies s' = rest
    /\ main_repo s' = main_repo s /\ pages_repo s' = pages_repo s
    /\ files s' = files s /\ dirs s' = dirs s.
Proof.
  intros Hq Hl Hr Hok Hlen.
  unfold _upload_installers_to_github.
  unfold bind at 1. unfold walk. rewrite (outside_quiet _ _ _ s Hq).
  change (dirs (logged (EvWalk INSTALLERS_OUTPUT_DIRPATH) s)) with (dirs s).
  rewrite Hl.
  set (s0 := logged (EvWalk INSTALLERS_OUTPUT_DIRPATH) s).
  assert (Hq0 : quiet s0) by exact Hq.
  destruct (walk_loop upload_url access_token_header
              (walk_tree INSTALLERS_OUTPUT_DIRPATH output) s0 oks rest Hq0 Hr Hok Hlen)
    as (s' & E & _ & T & R & M1 & P1 & F1 & D1 & _).
  exists s'. split; [exact E |].
  split; [rewrite T; simpl; now rewrite <- app_assoc |].
  repeat split; assumption.
Qed.

Lemma installers_are_uploaded_by_extension_witness :
  exists s',
    _upload_installers_to_github "https://uploads.example/assets"
      [("Authorization", "token t")]
      (set_replies [mkResponse true None; mkResponse true None]
         (set_dirs [(INSTALLERS_OUTPUT_DIRPATH,
                     Dir [("export_layers.zip", "zipbytes"); ("notes.txt", "text");
                          ("Setup.EXE", "exebytes")]
                       [("windows", Dir [("setup.exe", "exebytes")] [])])]
            Model.base_state))
    = (Returned tt, s')
    /\ trace s'
       = [EvWalk INSTALLERS_OUTPUT_DIRPATH;
          EvRead (path_join INSTALLERS_OUTPUT_DIRPATH "export_layers.zip");
          EvPost "https://uploads.example/assets"
            [("Authorization", "token t");
             ("Content-Type", "application/x-zip-compressed")]
            (RawBody "zipbytes") [("name", "export_layers.zip")];
          EvRead (path_join (path_join INSTALLERS_OUTPUT_DIRPATH "windows") "setup.exe");
          EvPost "https://uploads.example/assets"
            [("Authorization", "token t");
             ("Content-Type", "application/x-msdownload")]
            (RawBody "exebytes") [("name", "setup.exe")]].
Proof.
  destruct (installers_are_uploaded_by_extension "https://uploads.example/assets"
              [("Authorization", "token t")]
              (Dir [("export_layers.zip", "zipbytes"); ("notes.txt", "text");
                    ("Setup.EXE", "exebytes")]
                 [("windows", Dir [("setup.exe", "exebytes")] [])])
              (set_replies [mkResponse true None; mkResponse true None]
                 (set_dirs [(INSTALLERS_OUTPUT_DIRPATH,
                             Dir [("export_layers.zip", "zipbytes"); ("notes.txt", "text");
                                  ("Setup.EXE", "exebytes")]
                               [("windows", Dir [("setup.exe", "exebytes")] [])])]
                    Model.base_state))
              [mkResponse true None; mkResponse true None] [])
    as (s' & E & T & _).
  - split; reflexivity.
  - reflexivity.
  - reflexivity.
  - repeat constructor.
  - reflexivity.
  - exists s'. split; [exact E | exact T].
Defined.

(** ** The release on the server *)

(** X11. The request that creates the release goes to the [releases]
    address of the repository of [username], carries the access token and
    names the new version as tag and as title, [remote_branch] as target
    and the stored release notes as body. When the server refuses it, or
    answers without an upload address, the step fails ([RequestException],
    [KeyError]) after this one request: the output directory is not
    looked at and nothing is uploaded. *)
Theorem refused_release_uploads_nothing (s : state) (r : response)
  (rest : list response) :
  quiet s ->
  dry_run (release_metadata s) = false ->
  replies s = r :: rest ->
  status_ok r = false \/ json_upload_url r = None ->
  let rm := release_metadata s in
  exists s',
    _create_github_release s
    = (Raised (if status_ok r then KeyError else RequestException), s')
    /\ trace s'
       = (trace s
          ++ [EvPost
                ("https://api.github.com/repos/" ++ username rm ++ "/"
                 ++ remote_repo_name rm ++ "/releases")%string
                [("Authorization", ("token " ++ github_access_token rm)%string)]
                (JsonBody [("tag_name", new_version rm);
                           ("target_commitish", Some (remote_branch rm));
                           ("name", new_version rm);
                           ("body", Some (new_version_release_notes rm))])
                []])%list
    /\ replies s' = rest
    /\ main_repo s' = main_repo s /\ pages_repo s' = pages_repo s
    /\ files s' = files s /\ dirs s' = dirs s.
Proof.
  intros Hq Hd Hr Hbad. cbv zeta.
  unfold _create_github_release.
  unfold bind at 1. unfold print at 1. unfold modify at 1.
  set (s0 := set_stdout _ s).
  assert (Hq0 : quiet s0) by exact Hq.
  unfold unless_dry_run.
  change (dry_run (release_metadata s0)) with (dry_run (release_metadata s)).
  rewrite Hd. unfold bind at 1. unfold get_rm at 1. cbv zeta.
  change (release_metadata s0) with (release_metadata s).
  rewrite (bind_returned _ _ _ _ _
             (requests_post_quiet _ _ _ _ s0 r rest Hq0 Hr)).
  unfold raise_for_status.
  destruct (status_ok r) eqn:Hok.
  - destruct Hbad as [Hbad | Hbad]; [discriminate |].
    unfold bind at 1. unfold ret at 1. rewrite Hbad.
    eexists. split; [reflexivity |]. repeat split.
  - eexists. split; [reflexivity |]. repeat split.
Qed.

Lemma refused_release_uploads_nothing_witness :
  exists s',
    _create_github_release
      (set_replies [mkResponse false None] Runs.built_state)
    = (Raised RequestException, s')
    /\ replies s' = []
    /\ dirs s' = dirs Runs.built_state.
Proof.
  destruct (refused_release_uploads_nothing
              (set_replies [mkResponse false None] Runs.built_state)
              (mkResponse false None) [])
    as (s' & E & _ & R & _ & _ & _ & D).
  - split; reflexivity.
  - reflexivity.
  - reflexivity.
  - left. reflexivity.
  - exists s'. split; [exact E |]. split; [exact R | exact D].
Defined.

(** The step when the server accepts everything. *)
Lemma github_release_quiet (s : state) (r : response) (url : string)
  (output : directory) (oks rest : list response) :
  quiet s ->
  dry_run (release_metadata s) = false ->
  replies s = (r :: oks ++ rest)%list ->
  status_ok r = true ->
  json_upload_url r = Some url ->
  lookup INSTALLERS_OUTPUT_DIRPATH (dirs s) = Some output ->
  Forall (fun r => status_ok r = true) oks ->
  length oks
  = length (walk_uploaded_files (walk_tree INSTALLERS_OUTPUT_DIRPATH output)) ->
  let rm := release_metadata s in
  let access_token_header :=
    [("Authorization", ("token " ++ github_access_token rm)%string)] in
  exists s',
    _create_github_release s = (Returned tt, s')
    /\ trace s'
       = (trace s
          ++ EvPost
               ("https://api.github.com/repos/" ++ username rm ++ "/"
                ++ remote_repo_name rm ++ "/releases")%string
               access_token_header
               (JsonBody [("tag_name", new_version rm);
                          ("target_commitish", Some (remote_branch rm));
                          ("name", new_version rm);
                          ("body", Some (new_version_release_notes rm))])
               []
             :: EvWalk INSTALLERS_OUTPUT_DIRPATH
             :: walk_upload_events (strip_url_template url) access_token_header
                  (walk_tree INSTALLERS_OUTPUT_DIRPATH output))%list
    /\ replies s' = rest
    /\ main_repo s' = main_repo s /\ pages_repo s' = pages_repo s
    /\ files s' = files s /\ dirs s' = dirs s
    /\ stdout s' = (stdout s ++ ["Creating GitHub release"])%list.
Proof.
  intros Hq Hd Hr Hok Hurl Hl Hoks Hlen. cbv zeta.
  unfold _create_github_release.
  unfold bind at 1. unfold print at 1. unfold modify at 1.
  set (s0 := set_stdout _ s).
  assert (Hq0 : quiet s0) by exact Hq.
  unfold unless_dry_run.
  change (dry_run (release_metadata s0)) with (dry_run (release_metadata s)).
  rewrite Hd. unfold bind at 1. unfold get_rm at 1. cbv zeta.
  change (release_metadata s0) with (release_metadata s).
  rewrite (bind_returned _ _ _ _ _
             (requests_post_quiet _ _ _ _ s0 r (oks ++ rest)%list Hq0 Hr)).
  unfold raise_for_status. rewrite Hok.
  unfold bind at 1. unfold ret at 1. rewrite Hurl.
  set (s1 := set_replies _ _).
  assert (Hq1 : quiet s1) by exact Hq.
  unfold _upload_installers_to_github.
  unfold bind at 1. unfold walk. rewrite (outside_quiet _ _ _ s1 Hq1).
  change (dirs (logged (EvWalk INSTALLERS_OUTPUT_DIRPATH) s1)) with (dirs s).
  rewrite Hl.
  set (s2 := logged (EvWalk INSTALLERS_OUTPUT_DIRPATH) s1).
  assert (Hq2 : quiet s2) by exact Hq.
  destruct (walk_loop (strip_url_template url)
              [("Authorization", ("token " ++ github_access_token (release_metadata s))%string)]
              (walk_tree INSTALLERS_OUTPUT_DIRPATH output) s2 oks rest Hq2 eq_refl
              Hoks Hlen)
    as (s' & E & _ & T & R & M1 & P1 & F1 & D1 & O1).
  exists s'. split; [exact E |].
  split; [rewrite T; simpl; rewrite <- !app_assoc; reflexivity |].
  repeat split; assumption.
Qed.

(** X12. In a quiet world, when the server accepts the release and every
    upload, the step creates the release and then uploads the installers
    to the upload address of the answer, cut before its last opening
    brace: after the request of the release comes the walk of the output
    directory and, for each file with extension [.zip] or [.exe] in it or
    below it, its reading and its upload under the same access token. *)
Theorem release_is_created_then_installers_uploaded (s : state) (r : response)
  (url : string) (output : directory) (oks rest : list response) :
  quiet s ->
  dry_run (release_metadata s) = false ->
  replies s = (r :: oks ++ rest)%list ->
  status_ok r = true ->
  json_upload_url r = Some url ->
  lookup INSTALLERS_OUTPUT_DIRPATH (dirs s) = Some output ->
  Forall (fun r => status_ok r = true) oks ->
  length oks
  = length (walk_uploaded_files (walk_tree INSTALLERS_OUTPUT_DIRPATH output)) ->
  let rm := release_metadata s in
  let access_token_header :=
    [("Authorization", ("token " ++ github_access_token rm)%string)] in
  exists s',
    _create_github_release s = (Returned tt, s')
    /\ trace s'
       = (trace s
          ++ EvPost
               ("https://api.github.com/repos/" ++ username rm ++ "/"
                ++ remote_repo_name rm ++ "/releases")%string
               access_token_header
               (JsonBody [("tag_name", new_version rm);
                          ("target_commitish", Some (remote_branch rm));
                          ("name", new_version rm);
                          ("body", Some (new_version_release_notes rm))])
               []
             :: EvWalk INSTALLERS_OUTPUT_DIRPATH
             :: walk_upload_events (strip_url_template url) access_token_header
                  (walk_tree INSTALLERS_OUTPUT_DIRPATH output))%list
    /\ replies s' = rest.
Proof.
  intros Hq Hd Hr Hok Hurl Hl Hoks Hlen. cbv zeta.
  destruct (github_release_quiet s r url output oks rest Hq Hd Hr Hok Hurl Hl Hoks Hlen)
    as (s' & E & T & R & _).
  exists s'. split; [exact E |]. split; [exact T | exact R].
Qed.

Lemma release_is_created_then_installers_uploaded_witness :
  exists s',
    _create_github_release
      (set_dirs ((INSTALLERS_OUTPUT_DIRPATH, built Model.base_state)
                 :: dirs Model.base_state) Runs.built_state)
    = (Returned tt, s')
    /\ replies s' = [].
Proof.
  destruct (release_is_created_then_installers_uploaded
              (set_dirs ((INSTALLERS_OUTPUT_DIRPATH, built Model.base_state)
                         :: dirs Model.base_state) Runs.built_state)
              (mkResponse true (Some "https://uploads.example/assets{?name,label}"))
              "https://uploads.example/assets{?name,label}"
              (built Model.base_state) [mkResponse true None; mkResponse true None] [])
    as (s' & E & _ & R).
  - split; reflexivity.
  - reflexivity.
  - reflexivity.
  - reflexivity.
  - reflexivity.
  - reflexivity.
  - repeat constructor.
  - reflexivity.
  - exists s'. split; [exact E | exact R].
Defined.

(** ** What the whole run does outside *)

(** Frames that depend on what the script reads from the metadata object:
    [P] is a property of the object that its assignments maintain, and
    [rel] looks at the world outside the process only. *)
Section Inside.

Variable P : ReleaseMetadata -> Prop.
Variable rel : state -> state -> Prop.
Hypothesis rel_trans : forall a b c, rel a b -> rel b c -> rel a c.
Hypothesis inside : forall s s', same_world s s' -> rel s s'.

Local Abbreviation frame := (keeps (holds P) rel).

Lemma inside_refl (s : state) : rel s s.
Proof using inside. apply inside. repeat split. Qed.

Lemma frame_bind {A B : Type} (m : M A) (k : A -> M B) :
  frame m -> (forall a, frame (k a)) -> frame (bind m k).
Proof using rel_trans inside. apply keeps_bind; [exact inside_refl | exact rel_trans]. Qed.

Lemma frame_ret {A : Type} (a : A) : frame (ret a).
Proof using rel_trans inside. apply keeps_ret; [exact inside_refl | exact rel_trans]. Qed.

Lemma frame_raise {A : Type} (e : exn) : frame (@raise A e).
Proof using rel_trans inside. apply keeps_raise; [exact inside_refl | exact rel_trans]. Qed.

Lemma frame_if {A : Type} (b : bool) (m1 m2 : M A) :
  frame m1 -> frame m2 -> frame (if b then m1 else m2).
Proof using rel_trans inside. apply keeps_if; [exact inside_refl | exact rel_trans]. Qed.

Lemma frame_for_each {A : Type} (l : list A) (body : A -> M unit) :
  (forall x, frame (body x)) -> frame (for_each l body).
Proof using rel_trans inside.
  apply keeps_for_each; [exact inside_refl | exact rel_trans].
Qed.

Lemma frame_try_except {A : Type} (m h : M A) (handles : exn -> bool) :
  frame m -> frame h -> frame (try_except m handles h).
Proof using rel_trans inside.
  apply keeps_try_except; [exact inside_refl | exact rel_trans].
Qed.

(** What the script reads from the metadata object has the property. *)
Lemma frame_get_rm {B : Type} (k : ReleaseMetadata -> M B) :
  (forall rm, P rm -> frame (k rm)) -> frame (bind get_rm k).
Proof using rel_trans inside.
  intros Hk s Hs. unfold bind, get_rm. apply (Hk (release_metadata s) Hs s Hs).
Qed.

(** The value that a step returns may be known to the steps after it. *)
Lemma frame_bind_returning {A B : Type} (Q : A -> Prop) (m : M A) (k : A -> M B) :
  frame m ->
  (forall s a s', holds P s -> m s = (Returned a, s') -> Q a) ->
  (forall a, Q a -> frame (k a)) ->
  frame (bind m k).
Proof using rel_trans inside.
  intros Hm Hq Hk s Hs. unfold bind.
  destruct (Hm s Hs) as [Hi Hr].
  destruct (m s) as [[a | e |] s1] eqn:E; simpl in *; auto.
  destruct (Hk a (Hq s a s1 Hs E) s1 Hi) as [Hi' Hr']. eauto.
Qed.

(** Whatever leaves the metadata object and the world alone. *)
Lemma frame_kept {A : Type} (m : M A) :
  (forall s, release_metadata (snd (m s)) = release_metadata s
             /\ same_world s (snd (m s))) ->
  frame m.
Proof using rel_trans inside.
  intros H s Hs. destruct (H s) as [H1 H2]. split.
  - unfold holds. now rewrite H1.
  - apply inside. exact H2.
Qed.

(** The assignments to the attributes of the metadata object. *)
Lemma frame_assign (f : ReleaseMetadata -> ReleaseMetadata) :
  (forall rm, P rm -> P (f rm)) ->
  frame (modify (fun s => set_release_metadata (f (release_metadata s)) s)).
Proof using rel_trans inside.
  intros Hf s Hs. simpl. split; [apply Hf; exact Hs |].
  apply inside. repeat split.
Qed.

Lemma frame_unless_dry_run (rest : M unit) : frame rest -> frame (unless_dry_run rest).
Proof using rel_trans inside.
  intros Hr s Hs. unfold unless_dry_run.
  destruct (dry_run (release_metadata s)); [| apply Hr; exact Hs].
  simpl. split; [exact Hs | apply inside_refl].
Qed.

Lemma frame_outside {A : Type} (ev : event) (err : option exn) (act : M A) :
  (forall s, rel s (logged ev s)) -> frame act -> frame (outside ev err act).
Proof using rel_trans inside.
  intros Hl Hact. apply keeps_outside;
    [exact inside_refl | exact rel_trans | | exact Hact].
  intros s Hs. split; [exact Hs | apply Hl].
Qed.

(** The top of the script: the step sequence under its two handlers. *)
Lemma frame_run_release (ext : externals) :
  frame _rollback ->
  (forall rm, P rm -> frame (rollback_after_tag_deletion rm)) ->
  frame (_make_release ext) -> frame (run_release ext).
Proof using rel_trans inside.
  intros Hr Ha Hm.
  apply keeps_run_release;
    [ exact inside_refl | exact rel_trans
    | intros s Hs; split; [exact Hs | apply inside; repeat split]
    | intros message; apply frame_kept; intros s; repeat split
    | exact Hr
    | intros s Hs; exact (Ha (release_metadata s) Hs s Hs)
    | exact Hm ].
Qed.

End Inside.

(** A discipline on the trace is such a frame. *)
Lemma follows_trans (allowed : event -> bool) (a b c : state) :
  follows allowed a b -> follows allowed b c -> follows allowed a c.
Proof.
  intros (e1 & T1 & Q1) (e2 & T2 & Q2). exists (e1 ++ e2)%list. split.
  - rewrite T2, T1. now rewrite app_assoc.
  - rewrite forallb_app, Q1, Q2. reflexivity.
Qed.

Lemma follows_inside (allowed : event -> bool) (s s' : state) :
  same_world s s' -> follows allowed s s'.
Proof.
  intros (_ & _ & _ & _ & T). exists []. split; [now rewrite T, app_nil_r | reflexivity].
Qed.

Lemma follows_logged (allowed : event -> bool) (ev : event) (s : state) :
  allowed ev = true -> follows allowed s (logged ev s).
Proof. intros H. exists [ev]. split; [reflexivity | simpl; now rewrite H]. Qed.

Lemma follows_kept (P : ReleaseMetadata -> Prop) (allowed : event -> bool)
  {A : Type} (m : M A) :
  (forall s, release_metadata (snd (m s)) = release_metadata s
             /\ trace (snd (m s)) = trace s) ->
  keeps (holds P) (follows allowed) m.
Proof.
  intros H s Hs. destruct (H s) as [H1 H2]. split.
  - unfold holds. now rewrite H1.
  - exists []. split; [now rewrite H2, app_nil_r | reflexivity].
Qed.

Lemma follows_git (P : ReleaseMetadata -> Prop) (allowed : event -> bool)
  (r : repo_id) (c : git_cmd) :
  allowed (EvGit r c) = true -> keeps (holds P) (follows allowed) (git r c).
Proof.
  intros Ha.
  apply frame_outside;
    [exact (follows_trans allowed) | exact (follows_inside allowed)
    | intros s; apply follows_logged; exact Ha |].
  intros s Hs.
  destruct (git_exec c (get_repo r s) (worktree r s)) as [[out r'] |]; simpl.
  - split; [destruct r; exact Hs |]. exists [].
    split; [destruct r; simpl; now rewrite app_nil_r | reflexivity].
  - split; [exact Hs |]. exists []. split; [now rewrite app_nil_r | reflexivity].
Qed.

(** The steps of the proof that a part of the script keeps a frame, given
    the transitivity of the frame and its indifference to the inside of
    the process; [leaf] deals with the outside actions. *)
Ltac kept T I :=
  apply (frame_kept _ _ T I); intros ?;
  repeat match goal with
         | |- context [match ?x with _ => _ end] => destruct x
         end;
  solve [repeat split].

Ltac frame_steps T I leaf :=
  repeat first
    [ apply (frame_ret _ _ T I) | apply (frame_raise _ _ T I)
    | apply (frame_get_rm _ _ T I);
      let H := fresh "Hrm" in intros ? H; cbv beta in H
    | match goal with
      | H : ?b = false |- keeps _ _ (if ?b then _ else _) => rewrite H
      end
    | leaf
    | apply (frame_assign _ _ T I)
    | apply (frame_unless_dry_run _ _ T I)
    | apply (frame_try_except _ _ T I)
    | progress cbn [for_each]
    | apply (frame_for_each _ _ T I); intros ?
    | apply (frame_bind _ _ T I); [| intros ?]
    | apply (frame_if _ _ T I)
    | match goal with
      | |- keeps _ _ (match ?x with _ => _ end) => destruct x
      end
    | kept T I ].

Ltac discipline_steps :=
  match goal with
  | |- keeps _ (follows ?allowed) _ =>
      let T := constr:(follows_trans allowed) in
      let I := constr:(follows_inside allowed) in
      frame_steps T I
        ltac:(first [ apply follows_git
                    | apply (frame_outside _ _ T I);
                      [intros ?; apply follows_logged
                      | apply follows_kept; intros ?;
                        repeat match goal with
                               | |- context [match ?x with _ => _ end] => destruct x
                               end;
                        split; reflexivity ] ])
  end.

Ltac unfold_script :=
  unfold _make_release, _check_branches_for_local_changes,
    _has_active_branch_local_changes, _get_next_version,
    _check_if_tag_with_new_version_already_exists, _prompt_to_proceed,
    _get_release_notes_and_modify_changelog_first_header,
    _update_version_and_release_date_in_config, update_config_entries,
    _create_release_commit, _create_release_tag,
    _prepare_gh_pages_for_update, _make_installers, _push_release_commit,
    _push_release_tag, _create_github_release, _upload_installers_to_github,
    _rollback, raise_for_status, _print_error_and_exit, sys_exit,
    active_branch_name, read_file, write_file, isdir, rmtree, copytree, walk,
    input, requests_post, make_installers.

(** X13. Whatever happens in a run, from the construction of the
    metadata to the end of the rollback, the script writes no file other
    than the changelog and the configuration file, removes no directory
    other than the output directory of the installers and the [images]
    and [sections] directories of the pages, and copies nothing but
    these two directories from their counterparts under [dev]. *)
Theorem script_stays_within_its_footprint (ext : externals) (kwargs : options)
  (s : state) :
  follows within_footprint s (snd (make_release ext kwargs s)).
Proof.
  assert (Hrun : keeps (holds (fun _ => True)) (follows within_footprint)
                   (run_release ext)).
  { apply frame_run_release;
      [exact (follows_trans _) | exact (follows_inside _) | | |].
    - unfold_script. discipline_steps; reflexivity.
    - intros rm _. unfold rollback_after_tag_deletion. unfold_script.
      discipline_steps; reflexivity.
    - unfold_script. discipline_steps; try reflexivity; intros; exact I. }
  assert (H : keeps (holds (fun _ => True)) (follows within_footprint)
                (make_release ext kwargs)).
  { unfold make_release. discipline_steps; try reflexivity; [| exact Hrun].
    intros st _. split; [exact I |]. apply follows_inside. repeat split. }
  apply (H s I).
Qed.

(** X14. A run without the interactive option never prompts: whatever
    happens, nothing is asked of the user. *)
Theorem non_interactive_run_never_prompts (ext : externals) (s : state) :
  interactive (release_metadata s) = false ->
  follows (fun e => negb (is_prompt e)) s (snd (run_release ext s)).
Proof.
  intros Hi.
  assert (Hrun : keeps (holds (fun rm => interactive rm = false))
                   (follows (fun e => negb (is_prompt e))) (run_release ext)).
  { apply frame_run_release;
      [exact (follows_trans _) | exact (follows_inside _) | | |].
    - unfold_script. discipline_steps; reflexivity.
    - intros rm _. unfold rollback_after_tag_deletion. unfold_script.
      discipline_steps; reflexivity.
    - unfold_script. discipline_steps; try reflexivity; intros ? H0; exact H0. }
  apply (Hrun s Hi).
Qed.

Lemma non_interactive_run_never_prompts_witness :
  follows (fun e => negb (is_prompt e)) Model.base_state
    (snd (run_release Model.ext Model.base_state)).
Proof.
  apply (non_interactive_run_never_prompts Model.ext Model.base_state). reflexivity.
Defined.

(** X15. Whatever happens in a run, the script pushes to no remote other
    than the one named by [remote_name]: the release commit, the tag and
    the commit of the pages all go there. *)
Theorem pushes_go_to_the_named_remote (ext : externals) (s : state) :
  follows (fun e => negb (pushes_elsewhere (remote_name (release_metadata s)) e)) s
    (snd (run_release ext s)).
Proof.
  set (remote := remote_name (release_metadata s)).
  assert (Hrun : keeps (holds (fun rm => remote_name rm = remote))
                   (follows (fun e => negb (pushes_elsewhere remote e)))
                   (run_release ext)).
  { apply frame_run_release;
      [exact (follows_trans _) | exact (follows_inside _) | | |].
    - unfold_script. discipline_steps; reflexivity.
    - intros rm _. unfold rollback_after_tag_deletion. unfold_script.
      discipline_steps; reflexivity.
    - unfold_script. discipline_steps; try reflexivity;
        try (intros ? H0; exact H0);
        simpl;
        match goal with
        | H : remote_name ?rm = _ |- context [remote_name ?rm] =>
            rewrite H, String.eqb_refl; reflexivity
        end. }
  apply (Hrun s eq_refl).
Qed.

(** ** The released versions *)

(** X2. The released versions of the metadata are the tags of the main
    repository at the start. When nothing fails and no signal comes while
    the metadata is built (the three questions that [make_release] asks
    before it installs its handler), and the names of the tags are not
    empty and hold no line feed, [released_versions] is the list of the
    tags, in the order of the listing, from the construction of the
    metadata to the end of the run, whatever happens in the run: the
    listing is stripped of line feeds at both ends and split at line
    feeds, and no step assigns the attribute. A repository without tags
    yields one empty name, not an empty list. *)
Theorem released_versions_are_the_tags (ext : externals) (kwargs : options)
  (s : state) :
  (forall n, In n (faults s) -> (clock s + 3 <= n)%nat) ->
  (forall n, sigint_at s = Some n -> (clock s + 3 <= n)%nat) ->
  Forall (fun t => t <> "" /\ contains_char LF t = false) (tags (main_repo s)) ->
  released_versions (release_metadata (snd (make_release ext kwargs s)))
  = match tags (main_repo s) with
    | [] => [""]
    | _ :: _ => tags (main_repo s)
    end.
Proof.
  intros Hf Hs Ht.
  set (l := match tags (main_repo s) with
            | [] => [""]
            | _ :: _ => tags (main_repo s)
            end).
  assert (E : exists st,
             make_release ext kwargs s = run_release ext st
             /\ released_versions (release_metadata st) = l).
  { unfold make_release. unfold bind at 1.
    destruct (not_due_yet s 2 Hf Hs) as [N1 N2].
    rewrite (bind_returned _ _ _ _ _
               (git_query_not_due MainRepo (TagList None) s _ N1 N2 eq_refl)).
    set (s1 := set_repo MainRepo (get_repo MainRepo s)
                 (logged (EvGit MainRepo (TagList None)) s)).
    destruct (not_due_yet s1 1) as [N3 N4].
    { intros n Hn. specialize (Hf n Hn). simpl. lia. }
    { intros n Hn. specialize (Hs n Hn). simpl. lia. }
    rewrite (bind_returned _ _ _ _ _
               (git_query_not_due MainRepo RevParseHead s1 _ N3 N4 eq_refl)).
    set (s2 := set_repo MainRepo (get_repo MainRepo s1)
                 (logged (EvGit MainRepo RevParseHead) s1)).
    destruct (not_due_yet s2 0) as [N5 N6].
    { intros n Hn. specialize (Hf n Hn). simpl. lia. }
    { intros n Hn. specialize (Hs n Hn). simpl. lia. }
    rewrite (bind_returned _ _ _ _ _
               (git_query_not_due PagesRepo RevParseHead s2 _ N5 N6 eq_refl)).
    unfold bind at 1. unfold modify at 1.
    eexists. split; [reflexivity |].
    cbn [release_metadata set_release_metadata released_versions get_repo].
    exact (listing_gives_back_the_tags (tags (main_repo s)) Ht). }
  destruct E as (st & E & Hl).
  rewrite E.
  assert (Hrun : keeps (holds (fun rm => released_versions rm = l))
                   (follows (fun _ => true)) (run_release ext)).
  { apply frame_run_release;
      [exact (follows_trans _) | exact (follows_inside _) | | |].
    - unfold_script. discipline_steps; reflexivity.
    - intros rm _. unfold rollback_after_tag_deletion. unfold_script.
      discipline_steps; reflexivity.
    - unfold_script. discipline_steps; try reflexivity; intros ? H0; exact H0. }
  exact (proj1 (Hrun st Hl)).
Qed.

Lemma released_versions_are_the_tags_witness :
  let s := mkState Model.base_metadata (Some "1.2.0") "January 01, 2019"
             (mkRepo ["3.3"; "3.3.1"] "c0" (Some "master") "" [] Model.main_tree0)
             (pages_repo Model.base_state)
             (files Model.base_state) (dirs Model.base_state) [] [] []
             (replies Model.base_state) (built Model.base_state)
             "November 04, 2026" [] 0 [25] (Some 30) in
  released_versions
    (release_metadata
       (snd (make_release Model.ext
               (mkOptions "minor" "token" false ["all"] false None
                  "origin" "master" false) s)))
  = ["3.3"; "3.3.1"].
Proof.
  cbv zeta.
  apply (released_versions_are_the_tags Model.ext).
  - simpl. intros n [<- | []]. lia.
  - simpl. intros n H. injection H as <-. lia.
  - repeat constructor; discriminate.
Defined.

(** ** The tags *)

Lemma same_tag_trans (t : string) (a b c : state) :
  same_tag t a b -> same_tag t b c -> same_tag t a c.
Proof. intros [H1 H2] [H3 H4]. split; congruence. Qed.

Lemma same_tag_inside (t : string) (s s' : state) : same_world s s' -> same_tag t s s'.
Proof. intros (M1 & P1 & _). split; [now rewrite M1 | now rewrite P1]. Qed.

Lemma same_tag_kept (P : ReleaseMetadata -> Prop) (t : string) {A : Type} (m : M A) :
  (forall s, release_metadata (snd (m s)) = release_metadata s
             /\ main_repo (snd (m s)) = main_repo s
             /\ pages_repo (snd (m s)) = pages_repo s) ->
  keeps (holds P) (same_tag t) m.
Proof.
  intros H s Hs. destruct (H s) as (H1 & H2 & H3). split.
  - unfold holds. now rewrite H1.
  - split; [now rewrite H2 | now rewrite H3].
Qed.

Lemma mem_cons_other (t v : string) (l : list string) :
  v <> t -> mem t (v :: l) = mem t l.
Proof.
  intros H. unfold mem. simpl.
  destruct (String.eqb_spec t v); [congruence | reflexivity].
Qed.

Lemma mem_remove_other (t v : string) (l : list string) :
  v <> t -> mem t (remove_string v l) = mem t l.
Proof.
  intros H. unfold mem, remove_string.
  induction l as [| x l IH]; simpl; [reflexivity |].
  destruct (String.eqb_spec v x) as [<- | Hx]; simpl.
  - rewrite IH. destruct (String.eqb_spec t v); [congruence | reflexivity].
  - now rewrite IH.
Qed.

Lemma git_exec_plain (c : git_cmd) (r r' : repo) (w : directory) (out : string) :
  changes_no_tag c = true -> git_exec c r w = Some (out, r') -> tags r' = tags r.
Proof.
  destruct c as [| | [p |] | | | | | | |]; simpl; intros Hc He;
    try discriminate;
    try (destruct (nothing_to_commit r w); [discriminate |]);
    injection He as _ <-; reflexivity.
Qed.

Lemma tags_git_plain (P : ReleaseMetadata -> Prop) (t : string) (r : repo_id)
  (c : git_cmd) :
  changes_no_tag c = true -> keeps (holds P) (same_tag t) (git r c).
Proof.
  intros Hc.
  apply frame_outside;
    [exact (same_tag_trans t) | exact (same_tag_inside t) | intros s; split; reflexivity |].
  intros s Hs.
  destruct (git_exec c (get_repo r s) (worktree r s)) as [[out r'] |] eqn:E; simpl.
  - apply (git_exec_plain c _ _ _ _ Hc) in E.
    split; [destruct r; exact Hs |].
    destruct r; split; simpl in *; congruence.
  - split; [exact Hs | split; reflexivity].
Qed.

(** The two commands on tags name the new version. *)
Lemma tags_git_on_tag (P : ReleaseMetadata -> Prop) (t : string) (n : option string)
  (c : git_cmd) :
  n <> Some t ->
  (exists message, c = TagAnnotated n message) \/ c = TagDelete n ->
  keeps (holds P) (same_tag t) (git MainRepo c).
Proof.
  intros Hn Hc.
  apply frame_outside;
    [exact (same_tag_trans t) | exact (same_tag_inside t) | intros s; split; reflexivity |].
  intros s Hs.
  destruct (git_exec c (get_repo MainRepo s) (worktree MainRepo s)) as [[out r'] |] eqn:E; simpl;
    [| split; [exact Hs | split; reflexivity]].
  split; [exact Hs |]. split; [| reflexivity]. simpl.
  destruct n as [v |]; [| destruct Hc as [[message ->] | ->]; discriminate E].
  assert (Hv : v <> t) by congruence.
  destruct Hc as [[message ->] | ->]; simpl in E;
    destruct (mem v (tags (main_repo s))); try discriminate E;
    injection E as _ <-; simpl.
  - apply mem_cons_other. exact Hv.
  - apply mem_remove_other. exact Hv.
Qed.

Ltac tag_steps t :=
  let T := constr:(same_tag_trans t) in
  let I := constr:(same_tag_inside t) in
  frame_steps T I
    ltac:(first [ apply tags_git_plain; reflexivity
                | match goal with
                  | H : not_released_as _ _ ?rm
                    |- keeps _ _ (git MainRepo (TagAnnotated (new_version ?rm) _)) =>
                      apply (tags_git_on_tag _ t (new_version rm));
                      [exact (proj1 H) | left; eexists; reflexivity]
                  | H : not_released_as _ _ ?rm
                    |- keeps _ _ (git MainRepo (TagDelete (new_version ?rm))) =>
                      apply (tags_git_on_tag _ t (new_version rm));
                      [exact (proj1 H) | right; reflexivity]
                  end
                | apply (frame_outside _ _ T I);
                  [intros ?; split; reflexivity
                  | apply same_tag_kept; intros ?;
                    repeat match goal with
                           | |- context [match ?x with _ => _ end] => destruct x
                           end;
                    solve [repeat split] ] ]).

(** X16. A tag that is not the version being released is neither created
    nor deleted, whatever happens in the run and in its rollback: when
    [t] is neither the new version of the metadata nor the version that
    the version library computes from the current one, [t] is a tag of
    the main repository after the run if and only if it was one before;
    and the tags of the repository of the pages never change. *)
Theorem other_tags_are_left_alone (ext : externals) (s : state) (t : string) :
  not_released_as ext t (release_metadata s) ->
  same_tag t s (snd (run_release ext s)).
Proof.
  intros Hs.
  assert (Hrun : keeps (holds (not_released_as ext t)) (same_tag t) (run_release ext)).
  { apply frame_run_release;
      [exact (same_tag_trans t) | exact (same_tag_inside t) | | |].
    - unfold_script. tag_steps t.
    - intros rm _. unfold rollback_after_tag_deletion. unfold_script. tag_steps t.
    - unfold _make_release.
      apply (frame_bind _ _ (same_tag_trans t) (same_tag_inside t));
        [unfold_script; tag_steps t | intros _].
      apply (frame_bind _ _ (same_tag_trans t) (same_tag_inside t));
        [unfold_script; tag_steps t | intros name].
      apply (frame_bind _ _ (same_tag_trans t) (same_tag_inside t));
        [tag_steps t | intros _].
      apply (frame_bind_returning _ _ (same_tag_trans t) (same_tag_inside t)
               (fun v => v <> t)).
      + unfold_script. tag_steps t.
      + intros s0 a s' [_ H0] E. unfold _get_next_version in E.
        unfold bind at 1 in E. unfold get_rm at 1 in E.
        destruct (Version_parse ext (current_version (release_metadata s0)))
          as [ver |] eqn:Hp; [| discriminate E].
        unfold bind at 1 in E. unfold ret at 1 in E.
        destruct (Version_increment ext ver (release_type (release_metadata s0))
                    (prerelease (release_metadata s0))) as [message | ver'] eqn:Hi;
          [discriminate E |].
        unfold bind at 1 in E. unfold ret at 1 in E.
        injection E as <- _. exact (H0 ver ver' eq_refl Hi).
      + intros v Hv.
        apply (frame_bind _ _ (same_tag_trans t) (same_tag_inside t)).
        * apply (frame_assign _ _ (same_tag_trans t) (same_tag_inside t)).
          intros rm [_ H2]. split; [simpl; congruence | exact H2].
        * intros _. unfold_script. tag_steps t; intros ? H0; exact H0. }
  apply (Hrun s Hs).
Qed.

Lemma other_tags_are_left_alone_witness :
  let s := mkState Model.base_metadata (Some "1.2.0") "January 01, 2019"
             (main_repo Model.base_state) (pages_repo Model.base_state)
             (files Model.base_state) (dirs Model.base_state) [] [] []
             (replies Model.base_state) (built Model.base_state)
             "November 04, 2026" [] 0 [25] None in
  same_tag "1.2.0" s (snd (run_release Model.ext s)).
Proof.
  cbv zeta. apply (other_tags_are_left_alone Model.ext).
  split; [discriminate |].
  intros ver ver' Hp Hi Hv. vm_compute in Hp. injection Hp as <-.
  vm_compute in Hi. injection Hi as <-. vm_compute in Hv. discriminate Hv.
Defined.

(** ** A release that goes through *)

Lemma git_quiet (r : repo_id) (c : git_cmd) (s : state) (out : string) (r' : repo) :
  quiet s -> git_exec c (get_repo r s) (worktree r s) = Some (out, r') ->
  git r c s = (Returned out, set_repo r r' (logged (EvGit r c) s)).
Proof.
  intros Hq He. unfold git. rewrite (outside_quiet _ _ _ s Hq).
  replace (get_repo r (logged (EvGit r c) s)) with (get_repo r s)
    by (destruct r; reflexivity).
  change (worktree r (logged (EvGit r c) s)) with (worktree r s).
  now rewrite He.
Qed.

Lemma git_fails_quiet (r : repo_id) (c : git_cmd) (s : state) :
  quiet s -> git_exec c (get_repo r s) (worktree r s) = None ->
  git r c s = (Raised GitCommandError, logged (EvGit r c) s).
Proof.
  intros Hq He. unfold git. rewrite (outside_quiet _ _ _ s Hq).
  replace (get_repo r (logged (EvGit r c) s)) with (get_repo r s)
    by (destruct r; reflexivity).
  change (worktree r (logged (EvGit r c) s)) with (worktree r s).
  now rewrite He.
Qed.

(** Two texts that differ before a common end differ. *)
Lemma length_append (a b : string) :
  String.length (a ++ b) = String.length a + String.length b.
Proof. induction a as [| c a IH]; simpl; [reflexivity | now rewrite IH]. Qed.

Lemma append_cancel_r (a b c : string) : a ++ c = b ++ c -> a = b.
Proof.
  revert b. induction a as [| x a IH]; intros [| y b] H.
  - reflexivity.
  - apply (f_equal String.length) in H. simpl in H. rewrite length_append in H. lia.
  - apply (f_equal String.length) in H. simpl in H. rewrite length_append in H. lia.
  - simpl in H. injection H as -> H. f_equal. apply IH. exact H.
Qed.

Lemma retitled_changelog_differs (title v rest : string) :
  title <> v ->
  String.eqb ("# " ++ title ++ newline ++ rest) ("# " ++ v ++ newline ++ rest) = false.
Proof.
  intros H. apply String.eqb_neq. intros E. apply H.
  simpl in E. injection E as E. exact (append_cancel_r _ _ _ E).
Qed.

(** The trace and the clock are left open in the statements below. *)
Ltac session_log :=
  match goal with
  | |- exists T C, (Returned tt, ?sf) = _ => exists (trace sf), (clock sf)
  end.

Lemma check_branches_quiet (s : state) :
  quiet s ->
  force (release_metadata s) = true \/ status_porcelain (main_repo s) = "" ->
  status_porcelain (pages_repo s) = "" ->
  exists T C,
    _check_branches_for_local_changes s
    = (Returned tt, set_trace T (set_clock C s)).
Proof.
  intros Hq Hmain Hpages. unfold _check_branches_for_local_changes.
  unfold bind at 1. unfold get_rm at 1.
  destruct (force (release_metadata s)) eqn:Hf.
  - unfold bind at 1. unfold ret at 1.
    rewrite (bind_returned _ _ _ _ _ (status_query_quiet PagesRepo s Hq)).
    cbn [get_repo]. rewrite Hpages. cbn [String.eqb negb].
    exists (trace s ++ [EvGit PagesRepo StatusPorcelain])%list, (S (clock s)).
    destruct s; reflexivity.
  - destruct Hmain as [Hmain | Hmain]; [discriminate |].
    unfold bind at 1.
    rewrite (bind_returned _ _ _ _ _ (status_query_quiet MainRepo s Hq)).
    cbn [get_repo]. rewrite Hmain. cbn [String.eqb negb]. unfold ret at 1.
    set (s1 := set_repo MainRepo (main_repo s) (logged (EvGit MainRepo StatusPorcelain) s)).
    assert (Hq1 : quiet s1) by exact Hq.
    rewrite (bind_returned _ _ _ _ _ (status_query_quiet PagesRepo s1 Hq1)).
    cbn [get_repo]. change (pages_repo s1) with (pages_repo s).
    rewrite Hpages. cbn [String.eqb negb].
    exists ((trace s ++ [EvGit MainRepo StatusPorcelain])
            ++ [EvGit PagesRepo StatusPorcelain])%list, (S (S (clock s))).
    unfold s1. destruct s; reflexivity.
Qed.

Section Release.

Variable ext : externals.

(** The steps of [_make_release] up to the assignment of [new_version]:
    only the session log differs afterwards. *)
Lemma preflight_quiet (s : state) (b : string) (v v' : Version ext) :
  quiet s ->
  force (release_metadata s) = true \/ status_porcelain (main_repo s) = "" ->
  status_porcelain (pages_repo s) = "" ->
  branch (main_repo s) = Some b ->
  Version_parse ext (current_version (release_metadata s)) = Some v ->
  Version_increment ext v (release_type (release_metadata s))
    (prerelease (release_metadata s)) = inr v' ->
  exists T C,
    forall rest : M unit,
      (_check_branches_for_local_changes ;;
       name <- active_branch_name MainRepo ;;
       print ("Active branch: " ++ name) ;;
       v <- _get_next_version ext ;;
       modify (fun s => set_release_metadata
                 (with_new_version (Some v) (release_metadata s)) s) ;;
       rest) s
      = rest (set_release_metadata
                (with_new_version (Some (Version_str ext v')) (release_metadata s))
                (set_stdout
                   (stdout s
                    ++ [("Active branch: " ++ b)%string;
                        ("Current version: "
                         ++ py_str (current_version (release_metadata s)))%string;
                        ("New version: " ++ Version_str ext v')%string])
                   (set_trace T (set_clock C s)))).
Proof.
  intros Hq Hmain Hpages Hb Hp Hi.
  destruct (check_branches_quiet s Hq Hmain Hpages) as (T1 & C1 & E1).
  set (s1 := set_trace T1 (set_clock C1 s)) in *.
  assert (Hq1 : quiet s1) by exact Hq.
  pose proof (active_branch_quiet MainRepo s1 b Hq1 Hb) as E2.
  set (s2 := logged (EvActiveBranch MainRepo) s1) in *.
  set (s3 := set_stdout (stdout s2 ++ ["Active branch: " ++ b]) s2).
  assert (E4 : _get_next_version ext s3
               = (Returned (Version_str ext v'),
                  set_stdout
                    ((stdout s3 ++ ["Current version: "
                                    ++ py_str (current_version (release_metadata s))])
                     ++ ["New version: " ++ Version_str ext v']) s3)).
  { unfold _get_next_version.
    unfold bind at 1. unfold get_rm at 1.
    change (release_metadata s3) with (release_metadata s). rewrite Hp.
    unfold bind at 1. unfold ret at 1. rewrite Hi.
    unfold bind at 1. unfold ret at 1. reflexivity. }
  exists (T1 ++ [EvActiveBranch MainRepo])%list, (S C1). intros rest.
  rewrite (bind_returned _ _ _ _ _ E1).
  rewrite (bind_returned _ _ _ _ _ E2).
  unfold bind at 1. unfold print at 1. unfold modify at 1. fold s3.
  rewrite (bind_returned _ _ _ _ _ E4).
  unfold bind at 1. unfold modify at 1.
  f_equal. unfold s3, s2, s1. destruct s. cbn. rewrite <- !app_assoc. reflexivity.
Qed.

Lemma isdir_quiet (path : string) (s : state) :
  quiet s ->
  isdir path s
  = (Returned (match lookup path (dirs s) with Some _ => true | None => false end),
     logged (EvIsDir path) s).
Proof. intros Hq. unfold isdir. now rewrite (outside_quiet _ _ _ s Hq). Qed.


(** The steps that follow, each in a quiet world and on a run that is not
    a dry run: what the step changes, the session log apart. *)
Lemma config_step_quiet (s : state) (v cfg : string) (lines : list string) :
  quiet s ->
  dry_run (release_metadata s) = false ->
  new_version (release_metadata s) = Some v ->
  lookup PLUGIN_CONFIG_FILEPATH (files s) = Some cfg ->
  scan_lines (readlines cfg)
    [("PLUGIN_VERSION", Some v); ("PLUGIN_VERSION_RELEASE_DATE", Some (today s))]
  = Some (lines, []) ->
  exists T C,
    _update_version_and_release_date_in_config s
    = (Returned tt,
       set_files (insert PLUGIN_CONFIG_FILEPATH (String.concat "" lines) (files s))
         (set_PLUGIN_VERSION_RELEASE_DATE (today s)
            (set_PLUGIN_VERSION (Some v)
               (set_stdout (stdout s ++ [("Modifying the following entries in file '" ++ PLUGIN_CONFIG_FILEPATH
                             ++ "': PLUGIN_VERSION, PLUGIN_VERSION_RELEASE_DATE")%string])
            (set_trace T (set_clock C s)))))).
Proof.
  intros Hq Hd Hv Hcfg Hscan.
  unfold _update_version_and_release_date_in_config.
  unfold bind at 1. unfold get_rm at 1. rewrite Hv.
  unfold bind at 1. unfold bind at 1. unfold modify at 1.
  unfold bind at 1. unfold modify at 1.
  unfold bind at 1. unfold print at 1. unfold modify at 1.
  set (s1 := set_stdout _ _).
  assert (Hq1 : quiet s1) by exact Hq.
  unfold unless_dry_run.
  change (dry_run (release_metadata s1)) with (dry_run (release_metadata s)).
  rewrite Hd. unfold update_config_entries.
  rewrite (bind_returned _ _ _ _ _
             (read_file_quiet PLUGIN_CONFIG_FILEPATH cfg s1 Hq1 Hcfg)).
  rewrite Hscan. unfold bind at 1. unfold ret at 1.
  set (s2 := logged (EvRead PLUGIN_CONFIG_FILEPATH) s1).
  assert (Hq2 : quiet s2) by exact Hq.
  rewrite (write_file_quiet PLUGIN_CONFIG_FILEPATH _ s2 Hq2).
  session_log. unfold s2, s1. destruct s; reflexivity.
Qed.

(** The commit goes through when there is something to commit. *)
Lemma commit_step_quiet (r : repo_id) (s : state) (b : string) :
  quiet s ->
  dry_run (release_metadata s) = false ->
  branch (get_repo r s) = Some b ->
  nothing_to_commit (get_repo r s) (worktree r s) = false ->
  exists h T C,
    _create_release_commit r s
    = (Returned tt,
       set_repo r (mkRepo (tags (get_repo r s)) h (branch (get_repo r s)) ""
                     (pushed (get_repo r s)) (worktree r s))
         (set_stdout (stdout s ++ [("Creating release commit from branch '" ++ b ++ "'")%string])
            (set_trace T (set_clock C s)))).
Proof.
  intros Hq Hd Hb Hc. unfold _create_release_commit.
  rewrite (bind_returned _ _ _ _ _ (active_branch_quiet r s b Hq Hb)).
  unfold bind at 1. unfold print at 1. unfold modify at 1.
  set (s1 := set_stdout _ _).
  assert (Hq1 : quiet s1) by exact Hq.
  unfold unless_dry_run.
  change (dry_run (release_metadata s1)) with (dry_run (release_metadata s)).
  rewrite Hd. unfold bind at 1. unfold get_rm at 1.
  rewrite (bind_returned _ _ _ _ _ (git_quiet r AddAll s1 _ _ Hq1 eq_refl)).
  set (s2 := set_repo r _ _).
  assert (Hq2 : quiet s2) by (destruct r; exact Hq).
  assert (Hc2 : nothing_to_commit (get_repo r s2) (worktree r s2) = false)
    by (destruct r; exact Hc).
  assert (E2 : git_exec (CommitMessage (_get_release_message_header (release_metadata s1)))
                 (get_repo r s2) (worktree r s2)
               = Some ("", mkRepo (tags (get_repo r s2))
                             ("commit(" ++ _get_release_message_header (release_metadata s1)
                              ++ ")^" ++ head (get_repo r s2))
                             (branch (get_repo r s2)) "" (pushed (get_repo r s2))
                             (worktree r s2))).
  { cbn [git_exec]. now rewrite Hc2. }
  rewrite (bind_returned _ _ _ _ _ (git_quiet r (CommitMessage _) s2 _ _ Hq2 E2)).
  set (s3 := set_repo r _ _).
  assert (Hq3 : quiet s3) by (destruct r; exact Hq).
  rewrite (bind_returned _ _ _ _ _ (git_quiet r AddAll s3 _ _ Hq3 eq_refl)).
  set (s4 := set_repo r _ _).
  assert (Hq4 : quiet s4) by (destruct r; exact Hq).
  rewrite (bind_returned _ _ _ _ _ (git_quiet r CommitAmendNoEdit s4 _ _ Hq4 eq_refl)).
  unfold ret.
  match goal with
  | |- exists h T C, (Returned tt, ?sf) = _ =>
      exists (head (get_repo r sf)), (trace sf), (clock sf)
  end.
  unfold s4, s3, s2, s1. destruct r; destruct s; reflexivity.
Qed.

(** The commit fails when there is nothing to commit: the step has
    printed its line and staged nothing new. *)
Lemma commit_step_fails_quiet (r : repo_id) (s : state) (b : string) :
  quiet s ->
  dry_run (release_metadata s) = false ->
  branch (get_repo r s) = Some b ->
  nothing_to_commit (get_repo r s) (worktree r s) = true ->
  exists T C,
    _create_release_commit r s
    = (Raised GitCommandError,
       set_stdout (stdout s ++ [("Creating release commit from branch '" ++ b ++ "'")%string])
         (set_trace T (set_clock C s))).
Proof.
  intros Hq Hd Hb Hc. unfold _create_release_commit.
  rewrite (bind_returned _ _ _ _ _ (active_branch_quiet r s b Hq Hb)).
  unfold bind at 1. unfold print at 1. unfold modify at 1.
  set (s1 := set_stdout _ _).
  assert (Hq1 : quiet s1) by exact Hq.
  unfold unless_dry_run.
  change (dry_run (release_metadata s1)) with (dry_run (release_metadata s)).
  rewrite Hd. unfold bind at 1. unfold get_rm at 1.
  rewrite (bind_returned _ _ _ _ _ (git_quiet r AddAll s1 _ _ Hq1 eq_refl)).
  set (s2 := set_repo r _ _).
  assert (Hq2 : quiet s2) by (destruct r; exact Hq).
  assert (Hc2 : nothing_to_commit (get_repo r s2) (worktree r s2) = true)
    by (destruct r; exact Hc).
  assert (E2 : git_exec (CommitMessage (_get_release_message_header (release_metadata s1)))
                 (get_repo r s2) (worktree r s2) = None).
  { cbn [git_exec]. now rewrite Hc2. }
  rewrite (bind_raised _ _ _ _ _ (git_fails_quiet r (CommitMessage _) s2 Hq2 E2)).
  match goal with
  | |- exists T C, (Raised GitCommandError, ?sf) = _ => exists (trace sf), (clock sf)
  end.
  unfold s2, s1. destruct r; destruct s; reflexivity.
Qed.

Lemma tag_step_quiet (s : state) (v : string) :
  quiet s ->
  dry_run (release_metadata s) = false ->
  new_version (release_metadata s) = Some v ->
  mem v (tags (main_repo s)) = false ->
  exists T C,
    _create_release_tag s
    = (Returned tt,
       set_main_repo (mkRepo (v :: tags (main_repo s)) (head (main_repo s))
                        (branch (main_repo s)) (status_porcelain (main_repo s))
                        (pushed (main_repo s)) (committed (main_repo s)))
         (set_stdout (stdout s ++ [("Creating tag '" ++ v ++ "'")%string])
            (set_trace T (set_clock C s)))).
Proof.
  intros Hq Hd Hv Hm. unfold _create_release_tag.
  unfold bind at 1. unfold get_rm at 1.
  unfold bind at 1. unfold print at 1. unfold modify at 1.
  set (s1 := set_stdout _ _).
  assert (Hq1 : quiet s1) by exact Hq.
  unfold unless_dry_run.
  change (dry_run (release_metadata s1)) with (dry_run (release_metadata s)).
  rewrite Hd, Hv.
  assert (E : git_exec (TagAnnotated (Some v) (_get_release_message_header (release_metadata s)))
                (get_repo MainRepo s1) (worktree MainRepo s1)
              = Some ("", mkRepo (v :: tags (main_repo s)) (head (main_repo s))
                            (branch (main_repo s)) (status_porcelain (main_repo s))
                            (pushed (main_repo s)) (committed (main_repo s)))).
  { simpl. now rewrite Hm. }
  rewrite (bind_returned _ _ _ _ _ (git_quiet MainRepo _ s1 _ _ Hq1 E)).
  unfold ret. session_log. unfold s1, release_tag. rewrite Hv.
  destruct s; reflexivity.
Qed.

Lemma pages_step_quiet (s : state) (b : string)
  (old_images old_sections new_images new_sections : directory) :
  quiet s ->
  dry_run (release_metadata s) = false ->
  branch (pages_repo s) = Some b ->
  lookup (path_join GITHUB_PAGE_DIRPATH "images") (dirs s) = Some old_images ->
  lookup (path_join GITHUB_PAGE_DIRPATH "sections") (dirs s) = Some old_sections ->
  lookup (path_join (path_join GITHUB_PAGE_DIRPATH "dev") "images") (dirs s)
  = Some new_images ->
  lookup (path_join (path_join GITHUB_PAGE_DIRPATH "dev") "sections") (dirs s)
  = Some new_sections ->
  exists T C,
    _prepare_gh_pages_for_update s
    = (Returned tt,
       set_dirs (insert (path_join GITHUB_PAGE_DIRPATH "sections") new_sections
                   (insert (path_join GITHUB_PAGE_DIRPATH "images") new_images (dirs s)))
         (set_stdout (stdout s ++ [("Preparing branch '" ++ b ++ "' for update")%string])
            (set_trace T (set_clock C s)))).
Proof.
  intros Hq Hd Hb Hoi Hos Hni Hns.
  unfold _prepare_gh_pages_for_update.
  rewrite (bind_returned _ _ _ _ _ (active_branch_quiet PagesRepo s b Hq Hb)).
  unfold bind at 1. unfold print at 1. unfold modify at 1.
  set (s0 := set_stdout _ _).
  assert (Hq0 : quiet s0) by exact Hq.
  unfold unless_dry_run.
  change (dry_run (release_metadata s0)) with (dry_run (release_metadata s)).
  rewrite Hd. cbn [for_each].
  set (images := path_join GITHUB_PAGE_DIRPATH "images") in *.
  set (sections := path_join GITHUB_PAGE_DIRPATH "sections") in *.
  set (dev_images := path_join (path_join GITHUB_PAGE_DIRPATH "dev") "images") in *.
  set (dev_sections := path_join (path_join GITHUB_PAGE_DIRPATH "dev") "sections") in *.
  unfold bind at 1.
  rewrite (bind_returned _ _ _ _ _ (rmtree_quiet images old_images s0 Hq0 Hoi)).
  set (s1 := set_dirs (delete images (dirs s0)) _).
  assert (Hq1 : quiet s1) by exact Hq.
  assert (H1 : lookup dev_images (dirs s1) = Some new_images).
  { change (dirs s1) with (delete images (dirs s)).
    rewrite lookup_delete_other; [exact Hni |].
    intros H; vm_compute in H; discriminate H. }
  assert (H2 : lookup images (dirs s1) = None) by apply lookup_delete.
  rewrite (copytree_quiet dev_images images new_images s1 Hq1 H1 H2).
  set (s2 := set_dirs (insert images new_images (dirs s1)) _).
  assert (Hq2 : quiet s2) by exact Hq.
  assert (Hd2 : dirs s2 = insert images new_images (dirs s)).
  { change (dirs s2) with (insert images new_images (delete images (dirs s))).
    unfold insert. now rewrite delete_delete. }
  assert (H3 : lookup sections (dirs s2) = Some old_sections).
  { rewrite Hd2, lookup_insert_other; [exact Hos |].
    intros H; vm_compute in H; discriminate H. }
  unfold bind at 1.
  rewrite (bind_returned _ _ _ _ _ (rmtree_quiet sections old_sections s2 Hq2 H3)).
  set (s3 := set_dirs (delete sections (dirs s2)) _).
  assert (Hq3 : quiet s3) by exact Hq.
  assert (H4 : lookup dev_sections (dirs s3) = Some new_sections).
  { change (dirs s3) with (delete sections (dirs s2)).
    rewrite lookup_delete_other, Hd2, lookup_insert_other; [exact Hns | |];
      intros H; vm_compute in H; discriminate H. }
  assert (H5 : lookup sections (dirs s3) = None) by apply lookup_delete.
  rewrite (copytree_quiet dev_sections sections new_sections s3 Hq3 H4 H5).
  unfold ret.
  assert (Hd4 : insert sections new_sections (dirs s3)
                = insert sections new_sections (insert images new_images (dirs s))).
  { change (dirs s3) with (delete sections (dirs s2)).
    unfold insert at 1 3. now rewrite delete_delete, Hd2. }
  rewrite Hd4.
  session_log. unfold s3, s2, s1, s0. destruct s; reflexivity.
Qed.




End Release.

(** A field of a state that is given by the steps that led to it, one
    step at a time. *)
Ltac peel st :=
  unfold st;
  cbn [stdout stderr replies built files dirs main_repo pages_repo get_repo
       release_metadata tags pushed branch head committed status_porcelain
       set_stdout set_files set_dirs set_repo set_main_repo
       set_pages_repo set_release_metadata logged set_trace set_clock
       set_PLUGIN_VERSION set_PLUGIN_VERSION_RELEASE_DATE with_new_version
       with_new_version_release_notes remote_name remote_branch new_version
       current_version].

(** The tracked parts of the two working trees, and their comparison. *)
Lemma worktree_main (s : state) (changelog config : string) :
  lookup CHANGELOG_FILEPATH (files s) = Some changelog ->
  lookup PLUGIN_CONFIG_FILEPATH (files s) = Some config ->
  worktree MainRepo s
  = Dir [(CHANGELOG_FILEPATH, changelog); (PLUGIN_CONFIG_FILEPATH, config)] [].
Proof.
  intros H1 H2. unfold worktree, restrict, tracked_files, tracked_dirs.
  cbn [flat_map]. rewrite H1, H2. reflexivity.
Qed.

Lemma worktree_pages (s : state) (images sections : directory) :
  lookup (path_join GITHUB_PAGE_DIRPATH "images") (dirs s) = Some images ->
  lookup (path_join GITHUB_PAGE_DIRPATH "sections") (dirs s) = Some sections ->
  worktree PagesRepo s
  = Dir [] [(path_join GITHUB_PAGE_DIRPATH "images", images);
            (path_join GITHUB_PAGE_DIRPATH "sections", sections)].
Proof.
  intros H1 H2. unfold worktree, restrict, tracked_files, tracked_dirs.
  cbn [flat_map]. rewrite H1, H2. reflexivity.
Qed.

Lemma same_main_tree (changelog config changelog' config' : string) :
  same_directory
    (Dir [(CHANGELOG_FILEPATH, changelog); (PLUGIN_CONFIG_FILEPATH, config)] [])
    (Dir [(CHANGELOG_FILEPATH, changelog'); (PLUGIN_CONFIG_FILEPATH, config')] [])
  = String.eqb changelog changelog' && String.eqb config config'.
Proof.
  cbn [same_directory]. unfold same_files.
  cbn [length Nat.eqb forallb fst snd lookup].
  rewrite String.eqb_refl.
  change (String.eqb PLUGIN_CONFIG_FILEPATH CHANGELOG_FILEPATH) with false.
  rewrite String.eqb_refl. cbn [andb].
  now rewrite !andb_true_r.
Qed.

Lemma same_pages_tree (images sections images' sections' : directory) :
  same_directory
    (Dir [] [(path_join GITHUB_PAGE_DIRPATH "images", images);
             (path_join GITHUB_PAGE_DIRPATH "sections", sections)])
    (Dir [] [(path_join GITHUB_PAGE_DIRPATH "images", images');
             (path_join GITHUB_PAGE_DIRPATH "sections", sections')])
  = same_directory images images' && same_directory sections sections'.
Proof.
  cbn [same_directory]. unfold same_files.
  cbn [length Nat.eqb forallb lookup].
  rewrite String.eqb_refl.
  change (String.eqb (path_join GITHUB_PAGE_DIRPATH "sections")
            (path_join GITHUB_PAGE_DIRPATH "images")) with false.
  rewrite String.eqb_refl. cbn [andb].
  now rewrite andb_true_r.
Qed.

(** The run up to the commit of the pages. In a quiet world, on a run
    that is neither a dry run nor interactive, when the checks pass, the
    next version is not yet a tag, the changelog begins with a hash header
    whose title is not released and is not the new version, the tracked
    files are as the commit of HEAD has them, the configuration file holds
    both entries and the pages have their directories, every step up to
    the preparation of the pages returns: the files are rewritten, the
    release commit and the tag are made and the pages are replaced. *)
Lemma release_staged_quiet (ext : externals) (s : state)
  (b bp : string) (ver ver' : Version ext)
  (title rest notes cfg : string) (lines : list string)
  (old_images old_sections new_images new_sections : directory) :
  let rm := release_metadata s in
  let v := Version_str ext ver' in
  quiet s ->
  dry_run rm = false ->
  interactive rm = false ->
  force rm = true \/ status_porcelain (main_repo s) = "" ->
  status_porcelain (pages_repo s) = "" ->
  branch (main_repo s) = Some b ->
  branch (pages_repo s) = Some bp ->
  Version_parse ext (current_version rm) = Some ver ->
  Version_increment ext ver (release_type rm) (prerelease rm) = inr ver' ->
  v <> "" ->
  contains_char backslash v = false ->
  mem v (tags (main_repo s)) = false ->
  title <> "" ->
  contains_char LF title = false ->
  mem title (released_versions rm) = false ->
  lookup CHANGELOG_FILEPATH (files s) = Some ("# " ++ title ++ newline ++ rest) ->
  find_section ext ("# " ++ title ++ newline ++ rest)
  = ("# " ++ title ++ newline, notes) ->
  lookup PLUGIN_CONFIG_FILEPATH (files s) = Some cfg ->
  scan_lines (readlines cfg)
    [("PLUGIN_VERSION", Some v); ("PLUGIN_VERSION_RELEASE_DATE", Some (today s))]
  = Some (lines, []) ->
  lookup (path_join GITHUB_PAGE_DIRPATH "images") (dirs s) = Some old_images ->
  lookup (path_join GITHUB_PAGE_DIRPATH "sections") (dirs s) = Some old_sections ->
  lookup (path_join (path_join GITHUB_PAGE_DIRPATH "dev") "images") (dirs s)
  = Some new_images ->
  lookup (path_join (path_join GITHUB_PAGE_DIRPATH "dev") "sections") (dirs s)
  = Some new_sections ->
  committed (main_repo s) = worktree MainRepo s ->
  title <> v ->
  exists sG,
    _make_release ext s
    = (_create_release_commit PagesRepo ;;
       _make_installers ;;
       _push_release_commit MainRepo None ;;
       _push_release_tag ;;
       name <- active_branch_name PagesRepo ;;
       _push_release_commit PagesRepo (Some name) ;;
       _create_github_release) sG
    /\ quiet sG
    /\ release_metadata sG
       = with_new_version_release_notes (strip notes) (with_new_version (Some v) rm)
    /\ tags (main_repo sG) = v :: tags (main_repo s)
    /\ pushed (main_repo sG) = pushed (main_repo s)
    /\ branch (main_repo sG) = branch (main_repo s)
    /\ pages_repo sG = pages_repo s
    /\ lookup CHANGELOG_FILEPATH (files sG) = Some ("# " ++ v ++ newline ++ rest)
    /\ lookup PLUGIN_CONFIG_FILEPATH (files sG) = Some (String.concat "" lines)
    /\ dirs sG
       = insert (path_join GITHUB_PAGE_DIRPATH "sections") new_sections
           (insert (path_join GITHUB_PAGE_DIRPATH "images") new_images (dirs s))
    /\ replies sG = replies s
    /\ stderr sG = stderr s
    /\ built sG = built s
    /\ stdout sG = (stdout s ++ firstn 8 (announcements rm b bp title v))%list.
Proof.
  intros rm v Hq Hd Hint Hmain Hpages Hb Hbp Hp Hi Hne Hvb Hmem
    Htne Htl Hrel Hdoc Hfind Hcfg Hscan Hoi Hos Hni Hns Hcm Hdiff.
  (* up to the assignment of the new version *)
  destruct (preflight_quiet ext s b ver ver' Hq Hmain Hpages Hb Hp Hi)
    as (T0 & C0 & E0).
  fold v in E0. fold rm in E0.
  set (sA := set_release_metadata (with_new_version (Some v) rm) _) in E0.
  assert (HqA : quiet sA) by exact Hq.
  (* the check of the tag *)
  pose proof (tag_check_quiet sA v HqA eq_refl Hne) as EB.
  change (main_repo sA) with (main_repo s) in EB. rewrite Hmem in EB.
  set (sB := set_main_repo (main_repo s)
               (logged (EvGit MainRepo (TagList (Some v))) sA)) in *.
  assert (HqB : quiet sB) by exact Hq.
  (* the changelog *)
  destruct (changelog_retitled_quiet ext sB title rest notes v HqB Hd eq_refl
              Htne Htl Hvb Hrel Hdoc Hfind) as (T1 & C1 & EC).
  set (sC := set_files _ _) in EC.
  assert (HqC : quiet sC) by exact Hq.
  (* the configuration file *)
  assert (HcfgC : lookup PLUGIN_CONFIG_FILEPATH (files sC) = Some cfg).
  { change (files sC)
      with (insert CHANGELOG_FILEPATH ("# " ++ v ++ newline ++ rest) (files s)).
    rewrite lookup_insert_other; [exact Hcfg |].
    intros H; vm_compute in H; discriminate H. }
  destruct (config_step_quiet sC v cfg lines HqC Hd eq_refl HcfgC Hscan)
    as (T2 & C2 & ED).
  set (sD := set_files _ _) in ED.
  assert (HqD : quiet sD) by exact Hq.
  assert (HclD : lookup CHANGELOG_FILEPATH (files sD)
                 = Some ("# " ++ v ++ newline ++ rest)).
  { change (files sD)
      with (insert PLUGIN_CONFIG_FILEPATH (String.concat "" lines)
              (insert CHANGELOG_FILEPATH ("# " ++ v ++ newline ++ rest) (files s))).
    rewrite lookup_insert_other; [apply lookup_insert |].
    intros H; vm_compute in H; discriminate H. }
  assert (HcfD : lookup PLUGIN_CONFIG_FILEPATH (files sD)
                 = Some (String.concat "" lines)) by apply lookup_insert.
  (* the release commit: the changelog has changed *)
  assert (HcD : nothing_to_commit (get_repo MainRepo sD) (worktree MainRepo sD) = false).
  { unfold nothing_to_commit. change (get_repo MainRepo sD) with (main_repo s).
    rewrite Hcm, (worktree_main s _ _ Hdoc Hcfg), (worktree_main sD _ _ HclD HcfD).
    rewrite same_main_tree, (retitled_changelog_differs title v rest Hdiff).
    apply andb_false_r. }
  destruct (commit_step_quiet MainRepo sD b HqD Hd Hb HcD) as (h1 & T3 & C3 & EE).
  set (sE := set_repo MainRepo _ _) in EE.
  assert (HqE : quiet sE) by exact Hq.
  (* the tag *)
  destruct (tag_step_quiet sE v HqE Hd eq_refl Hmem) as (T4 & C4 & EF).
  set (sF := set_main_repo _ _) in EF.
  assert (HqF : quiet sF) by exact Hq.
  (* the pages *)
  destruct (pages_step_quiet sF bp old_images old_sections new_images new_sections
              HqF Hd Hbp Hoi Hos Hni Hns) as (T5 & C5 & EG).
  set (sG := set_dirs _ _) in EG.
  assert (HqG : quiet sG) by exact Hq.
  exists sG. split.
  - unfold _make_release.
    rewrite E0. rewrite (bind_returned _ _ _ _ _ EB).
    unfold bind at 1. unfold get_rm at 1.
    change (interactive (release_metadata sB)) with (interactive rm). rewrite Hint.
    unfold bind at 1. unfold ret at 1.
    rewrite (bind_returned _ _ _ _ _ EC).
    rewrite (bind_returned _ _ _ _ _ ED).
    rewrite (bind_returned _ _ _ _ _ EE).
    rewrite (bind_returned _ _ _ _ _ EF).
    rewrite (bind_returned _ _ _ _ _ EG).
    reflexivity.
  - split; [exact Hq |].
    split; [reflexivity |]. split; [reflexivity |]. split; [reflexivity |].
    split; [reflexivity |]. split; [reflexivity |].
    split; [exact HclD |]. split; [exact HcfD |].
    split; [reflexivity |]. split; [reflexivity |]. split; [reflexivity |].
    split; [reflexivity |].
    unfold announcements. cbn [firstn].
    peel sG; peel sF; peel sE; peel sD; peel sC; peel sB; peel sA.
    rewrite <- !app_assoc. reflexivity.
Qed.





(** ** A release that the server refuses *)


Lemma delete_absent {V : Type} (k : string) (l : list (string * V)) :
  lookup k l = None -> delete k l = l.
Proof.
  unfold delete. induction l as [| [k' v] t IH]; simpl; [reflexivity |].
  destruct (String.eqb k k'); [discriminate |]. intros H. simpl. now rewrite IH.
Qed.

(** The part of the rollback after the deletion of the tag, in a quiet
    world. *)
Lemma rollback_after_tag_deletion_quiet (rm : ReleaseMetadata) (s : state) :
  quiet s ->
  exists s',
    rollback_after_tag_deletion rm s = (Returned tt, s')
    /\ tags (main_repo s') = tags (main_repo s)
    /\ head (main_repo s') = last_commit_id_before_release rm
    /\ head (pages_repo s') = last_gh_pages_commit_id_before_release rm
    /\ pushed (main_repo s') = pushed (main_repo s)
    /\ pushed (pages_repo s') = pushed (pages_repo s)
    /\ lookup INSTALLERS_OUTPUT_DIRPATH (dirs s') = None
    /\ stderr s' = stderr s
    /\ replies s' = replies s.
Proof.
  intros Hq. unfold rollback_after_tag_deletion.
  rewrite (bind_returned _ _ _ _ _ (isdir_quiet INSTALLERS_OUTPUT_DIRPATH s Hq)).
  set (s1 := logged (EvIsDir INSTALLERS_OUTPUT_DIRPATH) s).
  assert (Hq1 : quiet s1) by exact Hq.
  assert (Hrm : exists s2,
             (if match lookup INSTALLERS_OUTPUT_DIRPATH (dirs s) with
                 | Some _ => true
                 | None => false
                 end
              then rmtree INSTALLERS_OUTPUT_DIRPATH else ret tt) s1 = (Returned tt, s2)
             /\ quiet s2 /\ main_repo s2 = main_repo s /\ pages_repo s2 = pages_repo s
             /\ lookup INSTALLERS_OUTPUT_DIRPATH (dirs s2) = None
             /\ stderr s2 = stderr s /\ replies s2 = replies s).
  { destruct (lookup INSTALLERS_OUTPUT_DIRPATH (dirs s)) as [d |] eqn:El.
    - rewrite (rmtree_quiet INSTALLERS_OUTPUT_DIRPATH d s1 Hq1 El).
      eexists. split; [reflexivity |]. split; [exact Hq |].
      repeat split. apply lookup_delete.
    - eexists. split; [reflexivity |]. split; [exact Hq |].
      repeat split. exact El. }
  destruct Hrm as (s2 & E2 & Hq2 & M2 & P2 & L2 & S2 & R2).
  rewrite (bind_returned _ _ _ _ _ E2).
  rewrite (bind_returned _ _ _ _ _
             (git_quiet MainRepo (ResetHard _) s2 _ _ Hq2 eq_refl)).
  set (s3 := set_repo MainRepo _ _).
  assert (Hq3 : quiet s3) by exact Hq2.
  rewrite (bind_returned _ _ _ _ _
             (git_quiet PagesRepo (ResetHard _) s3 _ _ Hq3 eq_refl)).
  eexists. split; [reflexivity |].
  unfold s3.
  cbn [main_repo pages_repo set_repo set_main_repo set_pages_repo get_repo tags head
       pushed dirs stderr replies logged set_trace set_clock].
  rewrite ?M2, ?P2. repeat split; assumption.
Qed.

Lemma rollback_quiet (s : state) (v : string) :
  quiet s ->
  dry_run (release_metadata s) = false ->
  new_version (release_metadata s) = Some v ->
  exists s',
    _rollback s = (Returned tt, s')
    /\ tags (main_repo s') = remove_string v (tags (main_repo s))
    /\ head (main_repo s') = last_commit_id_before_release (release_metadata s)
    /\ head (pages_repo s')
       = last_gh_pages_commit_id_before_release (release_metadata s)
    /\ pushed (main_repo s') = pushed (main_repo s)
    /\ pushed (pages_repo s') = pushed (pages_repo s)
    /\ lookup INSTALLERS_OUTPUT_DIRPATH (dirs s') = None
    /\ stderr s' = stderr s
    /\ replies s' = replies s.
Proof.
  intros Hq Hd Hv. rewrite (rollback_unfolds s Hd). rewrite Hv.
  unfold git. rewrite (outside_quiet _ _ _ s Hq).
  set (s0 := logged (EvGit MainRepo (TagDelete (Some v))) s).
  assert (Hq0 : quiet s0) by exact Hq.
  cbn [git_exec get_repo]. change (main_repo s0) with (main_repo s).
  destruct (mem v (tags (main_repo s))) eqn:Hm; cbn [snd].
  - set (s1 := set_repo MainRepo _ s0).
    assert (Hq1 : quiet s1) by exact Hq.
    destruct (rollback_after_tag_deletion_quiet (release_metadata s) s1 Hq1)
      as (s' & E & H1 & H2 & H3 & H4 & H5 & H6 & H7 & H8).
    exists s'. split; [exact E |]. repeat split; assumption.
  - destruct (rollback_after_tag_deletion_quiet (release_metadata s) s0 Hq0)
      as (s' & E & H1 & H2 & H3 & H4 & H5 & H6 & H7 & H8).
    exists s'. split; [exact E |].
    split; [rewrite H1; symmetry; apply remove_string_absent; exact Hm |].
    repeat split; assumption.
Qed.

(** The except clause on a quiet world, after a step has raised an
    exception proper: the message, the rollback and the exit. *)
Lemma except_clause_quiet (e : exn) (s : state) (v : string) :
  quiet s ->
  dry_run (release_metadata s) = false ->
  new_version (release_metadata s) = Some v ->
  exists s',
    except_clause e s = (Raised (SystemExit 1), s')
    /\ tags (main_repo s') = remove_string v (tags (main_repo s))
    /\ head (main_repo s') = last_commit_id_before_release (release_metadata s)
    /\ head (pages_repo s')
       = last_gh_pages_commit_id_before_release (release_metadata s)
    /\ pushed (main_repo s') = pushed (main_repo s)
    /\ pushed (pages_repo s') = pushed (pages_repo s)
    /\ lookup INSTALLERS_OUTPUT_DIRPATH (dirs s') = None
    /\ stderr s'
       = (stderr s
          ++ [(newline ++ "The following error has occurred:" ++ newline
               ++ format_exc e ++ newline
               ++ "Performing rollback and aborting.")%string])%list
    /\ replies s' = replies s.
Proof.
  intros Hq Hd Hv.
  set (message := newline ++ "The following error has occurred:" ++ newline
                  ++ format_exc e ++ newline
                  ++ "Performing rollback and aborting.").
  set (sO := set_stderr (stderr s ++ [message]) s).
  assert (HqO : quiet sO) by exact Hq.
  assert (HdO : dry_run (release_metadata sO) = false) by exact Hd.
  assert (HvO : new_version (release_metadata sO) = Some v) by exact Hv.
  destruct (rollback_quiet sO v HqO HdO HvO)
    as (s' & ER & R1 & R2 & R3 & R4 & R5 & R6 & R7 & R8).
  exists s'. split.
  - unfold except_clause, handle_exception.
    unfold bind at 1. unfold _print_error at 1. unfold modify at 1.
    fold message. fold sO.
    rewrite (bind_returned _ _ _ _ _ ER). reflexivity.
  - repeat split; assumption.
Qed.




(** X21. A release of pages that have not changed is rolled back at the
    commit of the pages. Under the conditions of a release that goes
    through up to the preparation of the pages, when the pages are as the
    commit of HEAD has them and both copies under [dev] hold what the
    directories they replace hold, [git commit] finds nothing to commit in
    the repository of the pages and fails: the run reports the
    [GitCommandError], rolls back and exits with status 1. The tag of the
    new version is gone again, both repositories are reset to the commits
    recorded at the start, nothing has been pushed and no answer of the
    server has been used. *)
Theorem unchanged_pages_fail_the_release (ext : externals) (s : state)
  (b bp : string) (ver ver' : Version ext)
  (title rest notes cfg : string) (lines : list string)
  (old_images old_sections new_images new_sections : directory) :
  let rm := release_metadata s in
  let v := Version_str ext ver' in
  quiet s ->
  dry_run rm = false ->
  interactive rm = false ->
  force rm = true \/ status_porcelain (main_repo s) = "" ->
  status_porcelain (pages_repo s) = "" ->
  branch (main_repo s) = Some b ->
  branch (pages_repo s) = Some bp ->
  Version_parse ext (current_version rm) = Some ver ->
  Version_increment ext ver (release_type rm) (prerelease rm) = inr ver' ->
  v <> "" ->
  contains_char backslash v = false ->
  mem v (tags (main_repo s)) = false ->
  title <> "" ->
  contains_char LF title = false ->
  mem title (released_versions rm) = false ->
  lookup CHANGELOG_FILEPATH (files s) = Some ("# " ++ title ++ newline ++ rest) ->
  find_section ext ("# " ++ title ++ newline ++ rest)
  = ("# " ++ title ++ newline, notes) ->
  lookup PLUGIN_CONFIG_FILEPATH (files s) = Some cfg ->
  scan_lines (readlines cfg)
    [("PLUGIN_VERSION", Some v); ("PLUGIN_VERSION_RELEASE_DATE", Some (today s))]
  = Some (lines, []) ->
  lookup (path_join GITHUB_PAGE_DIRPATH "images") (dirs s) = Some old_images ->
  lookup (path_join GITHUB_PAGE_DIRPATH "sections") (dirs s) = Some old_sections ->
  lookup (path_join (path_join GITHUB_PAGE_DIRPATH "dev") "images") (dirs s)
  = Some new_images ->
  lookup (path_join (path_join GITHUB_PAGE_DIRPATH "dev") "sections") (dirs s)
  = Some new_sections ->
  committed (main_repo s) = worktree MainRepo s ->
  title <> v ->
  committed (pages_repo s) = worktree PagesRepo s ->
  same_directory old_images new_images = true ->
  same_directory old_sections new_sections = true ->
  exists s',
    run_release ext s = (Raised (SystemExit 1), s')
    /\ tags (main_repo s') = tags (main_repo s)
    /\ head (main_repo s') = last_commit_id_before_release rm
    /\ head (pages_repo s') = last_gh_pages_commit_id_before_release rm
    /\ pushed (main_repo s') = pushed (main_repo s)
    /\ pushed (pages_repo s') = pushed (pages_repo s)
    /\ replies s' = replies s
    /\ stderr s'
       = (stderr s
          ++ [(newline ++ "The following error has occurred:" ++ newline
               ++ format_exc GitCommandError ++ newline
               ++ "Performing rollback and aborting.")%string])%list.
Proof.
  intros rm v Hq Hd Hint Hmain Hpages Hb Hbp Hp Hi Hne Hvb Hmem
    Htne Htl Hrel Hdoc Hfind Hcfg Hscan Hoi Hos Hni Hns Hcm Hdiff Hcp Hi_same Hs_same.
  destruct (release_staged_quiet ext s b bp ver ver' title rest notes cfg lines
              old_images old_sections new_images new_sections
              Hq Hd Hint Hmain Hpages Hb Hbp Hp Hi Hne Hvb Hmem
              Htne Htl Hrel Hdoc Hfind Hcfg Hscan Hoi Hos Hni Hns Hcm Hdiff)
    as (sG & EG & HqG & HrmG & HtG & HpG & HbG & HpagesG & HclG & HcfG & HdG
        & HrG & HeG & HbuG & HoG).
  fold rm in HrmG. fold v in HrmG, HtG.
  assert (HdryG : dry_run (release_metadata sG) = false) by (rewrite HrmG; exact Hd).
  assert (HbpG : branch (get_repo PagesRepo sG) = Some bp)
    by (cbn [get_repo]; rewrite HpagesG; exact Hbp).
  assert (HiG : lookup (path_join GITHUB_PAGE_DIRPATH "images") (dirs sG)
                = Some new_images).
  { rewrite HdG, lookup_insert_other; [apply lookup_insert |].
    intros H; vm_compute in H; discriminate H. }
  assert (HsG : lookup (path_join GITHUB_PAGE_DIRPATH "sections") (dirs sG)
                = Some new_sections) by (rewrite HdG; apply lookup_insert).
  assert (HcG : nothing_to_commit (get_repo PagesRepo sG) (worktree PagesRepo sG) = true).
  { unfold nothing_to_commit. cbn [get_repo]. rewrite HpagesG, Hcp, Hpages.
    rewrite (worktree_pages s _ _ Hoi Hos), (worktree_pages sG _ _ HiG HsG).
    rewrite same_pages_tree, Hi_same, Hs_same. reflexivity. }
  destruct (commit_step_fails_quiet PagesRepo sG bp HqG HdryG HbpG HcG)
    as (T & C & EH).
  set (sH := set_stdout _ _) in EH.
  assert (HqH : quiet sH) by exact HqG.
  assert (HdH : dry_run (release_metadata sH) = false) by exact HdryG.
  assert (HvH : new_version (release_metadata sH) = Some v).
  { change (release_metadata sH) with (release_metadata sG). now rewrite HrmG. }
  destruct (except_clause_quiet GitCommandError sH v HqH HdH HvH)
    as (s' & ER & R1 & R2 & R3 & R4 & R5 & R6 & R7 & R8).
  exists s'. split.
  - unfold run_release, under_sigint_handler, except_Exception.
    rewrite EG. rewrite (bind_raised _ _ _ _ _ EH). cbn [is_Exception]. exact ER.
  - change (main_repo sH) with (main_repo sG) in R1, R4.
    change (pages_repo sH) with (pages_repo sG) in R5.
    change (release_metadata sH) with (release_metadata sG) in R2, R3.
    change (replies sH) with (replies sG) in R8.
    change (stderr sH) with (stderr sG) in R7.
    rewrite HrmG in R2, R3.
    split.
    { rewrite R1, HtG. unfold remove_string. cbn [filter].
      rewrite String.eqb_refl. cbn [negb].
      apply remove_string_absent. exact Hmem. }
    split; [exact R2 |]. split; [exact R3 |].
    split; [now rewrite R4, HpG |]. split; [now rewrite R5, HpagesG |].
    split; [now rewrite R8 |].
    now rewrite R7, HeG.
Qed.

Lemma unchanged_pages_fail_the_release_witness :
  exists s',
    run_release Model.ext Runs.unchanged_pages_state = (Raised (SystemExit 1), s')
    /\ tags (main_repo s') = ["1.2.0"]
    /\ head (main_repo s') = "c0"
    /\ pushed (main_repo s') = []
    /\ pushed (pages_repo s') = [].
Proof.
  destruct (unchanged_pages_fail_the_release Model.ext Runs.unchanged_pages_state
              "master" "gh-pages"
              (Model.mkVersion 1 2 (Some 0) None None)
              (Model.mkVersion 1 3 (Some 0) None None)
              "Unreleased"
              ("* a fix" ++ newline ++ "# 1.2.0" ++ newline ++ "* older" ++ newline)
              ("* a fix" ++ newline) Model.config0
              ["c.PLUGIN_NAME = " ++ quoted "export_layers" ++ newline;
               "c.PLUGIN_VERSION = " ++ quoted "1.3.0" ++ newline;
               "c.PLUGIN_VERSION_RELEASE_DATE = " ++ quoted "November 04, 2026"
               ++ newline]
              (Dir [("a.png", "new")] []) (Dir [("a.md", "new")] [])
              (Dir [("a.png", "new")] []) (Dir [("a.md", "new")] []))
    as (s' & E & H1 & H2 & _ & H4 & H5 & _).
  - split; reflexivity.
  - reflexivity.
  - reflexivity.
  - right. reflexivity.
  - reflexivity.
  - reflexivity.
  - reflexivity.
  - reflexivity.
  - reflexivity.
  - intros H. vm_compute in H. discriminate H.
  - reflexivity.
  - reflexivity.
  - discriminate.
  - reflexivity.
  - reflexivity.
  - reflexivity.
  - reflexivity.
  - reflexivity.
  - reflexivity.
  - reflexivity.
  - reflexivity.
  - reflexivity.
  - reflexivity.
  - reflexivity.
  - intros H. vm_compute in H. discriminate H.
  - reflexivity.
  - reflexivity.
  - reflexivity.
  - exists s'. split; [exact E |]. split; [exact H1 |]. split; [exact H2 |].
    split; [exact H4 | exact H5].
Defined.

(** ** A dry run that goes through *)

(** The steps of a dry run, in a quiet world: a line on the standard
    output, and at most the question of the name of the branch. *)
Lemma changelog_step_dry (ext : externals) (s : state) (title rest notes : string) :
  quiet s ->
  dry_run (release_metadata s) = true ->
  title <> "" ->
  contains_char LF title = false ->
  mem title (released_versions (release_metadata s)) = false ->
  lookup CHANGELOG_FILEPATH (files s) = Some ("# " ++ title ++ newline ++ rest) ->
  find_section ext ("# " ++ title ++ newline ++ rest)
  = ("# " ++ title ++ newline, notes) ->
  _get_release_notes_and_modify_changelog_first_header ext s
  = (Returned tt,
     set_stdout
       (stdout s
        ++ [("Replacing header name '" ++ title
             ++ "' in the changelog with the new version")%string])
       (set_release_metadata
          (with_new_version_release_notes (strip notes) (release_metadata s))
          (logged (EvRead CHANGELOG_FILEPATH) s))).
Proof.
  intros Hq Hd Hne Ht Hrel Hdoc Hfind.
  assert (Htruthy : truthy (Some title) = true).
  { simpl. destruct (String.eqb_spec title ""); [contradiction | reflexivity]. }
  unfold _get_release_notes_and_modify_changelog_first_header.
  rewrite (bind_returned _ _ _ _ _ (read_file_quiet _ _ s Hq Hdoc)).
  rewrite Hfind. unfold bind at 1. unfold get_rm at 1.
  rewrite (hash_header_found title Ht).
  change (release_metadata (logged (EvRead CHANGELOG_FILEPATH) s))
    with (release_metadata s).
  cbn [not_in]. rewrite Hrel. cbn [negb andb]. rewrite Htruthy.
  unfold bind at 1. unfold modify at 1.
  unfold bind at 1. unfold print at 1. unfold modify at 1.
  change (py_str (Some title)) with title.
  set (s1 := set_stdout _ _).
  unfold unless_dry_run.
  change (dry_run (release_metadata s1)) with (dry_run (release_metadata s)).
  rewrite Hd. reflexivity.
Qed.

Lemma config_step_dry (s : state) :
  dry_run (release_metadata s) = true ->
  _update_version_and_release_date_in_config s
  = (Returned tt,
     set_stdout
       (stdout s
        ++ [("Modifying the following entries in file '" ++ PLUGIN_CONFIG_FILEPATH
             ++ "': PLUGIN_VERSION, PLUGIN_VERSION_RELEASE_DATE")%string])
       (set_PLUGIN_VERSION_RELEASE_DATE (today s)
          (set_PLUGIN_VERSION (new_version (release_metadata s)) s))).
Proof.
  intros Hd. unfold _update_version_and_release_date_in_config.
  unfold bind at 1. unfold get_rm at 1.
  unfold bind at 1. unfold bind at 1. unfold modify at 1.
  unfold bind at 1. unfold modify at 1.
  unfold bind at 1. unfold print at 1. unfold modify at 1.
  set (s1 := set_stdout _ _).
  unfold unless_dry_run.
  change (dry_run (release_metadata s1)) with (dry_run (release_metadata s)).
  rewrite Hd. reflexivity.
Qed.

Lemma commit_step_dry (r : repo_id) (s : state) (b : string) :
  quiet s ->
  dry_run (release_metadata s) = true ->
  branch (get_repo r s) = Some b ->
  _create_release_commit r s
  = (Returned tt,
     set_stdout (stdout s ++ [("Creating release commit from branch '" ++ b ++ "'")%string])
       (logged (EvActiveBranch r) s)).
Proof.
  intros Hq Hd Hb. unfold _create_release_commit.
  rewrite (bind_returned _ _ _ _ _ (active_branch_quiet r s b Hq Hb)).
  unfold bind at 1. unfold print at 1. unfold modify at 1.
  set (s1 := set_stdout _ _).
  unfold unless_dry_run.
  change (dry_run (release_metadata s1)) with (dry_run (release_metadata s)).
  rewrite Hd. reflexivity.
Qed.

Lemma tag_step_dry (s : state) :
  dry_run (release_metadata s) = true ->
  _create_release_tag s
  = (Returned tt,
     set_stdout
       (stdout s
        ++ [("Creating tag '" ++ py_str (new_version (release_metadata s)) ++ "'")%string])
       s).
Proof.
  intros Hd. unfold _create_release_tag.
  unfold bind at 1. unfold get_rm at 1.
  unfold bind at 1. unfold print at 1. unfold modify at 1.
  set (s1 := set_stdout _ _).
  unfold unless_dry_run.
  change (dry_run (release_metadata s1)) with (dry_run (release_metadata s)).
  rewrite Hd. reflexivity.
Qed.

Lemma pages_step_dry (s : state) (b : string) :
  quiet s ->
  dry_run (release_metadata s) = true ->
  branch (pages_repo s) = Some b ->
  _prepare_gh_pages_for_update s
  = (Returned tt,
     set_stdout (stdout s ++ [("Preparing branch '" ++ b ++ "' for update")%string])
       (logged (EvActiveBranch PagesRepo) s)).
Proof.
  intros Hq Hd Hb. unfold _prepare_gh_pages_for_update.
  rewrite (bind_returned _ _ _ _ _ (active_branch_quiet PagesRepo s b Hq Hb)).
  unfold bind at 1. unfold print at 1. unfold modify at 1.
  set (s1 := set_stdout _ _).
  unfold unless_dry_run.
  change (dry_run (release_metadata s1)) with (dry_run (release_metadata s)).
  rewrite Hd. reflexivity.
Qed.

Lemma installers_step_dry (s : state) :
  dry_run (release_metadata s) = true ->
  _make_installers s
  = (Returned tt, set_stdout (stdout s ++ ["Creating installers"]) s).
Proof.
  intros Hd. unfold _make_installers.
  unfold bind at 1. unfold print at 1. unfold modify at 1.
  set (s1 := set_stdout _ _).
  unfold unless_dry_run.
  change (dry_run (release_metadata s1)) with (dry_run (release_metadata s)).
  rewrite Hd. reflexivity.
Qed.

Lemma push_commit_dry (r : repo_id) (remote_branch_arg : option string) (s : state)
  (b : string) :
  quiet s ->
  dry_run (release_metadata s) = true ->
  branch (get_repo r s) = Some b ->
  _push_release_commit r remote_branch_arg s
  = (Returned tt,
     set_stdout
       (stdout s
        ++ [("Pushing release commit from branch '" ++ b ++ "' to remote '"
             ++ remote_name (release_metadata s) ++ " "
             ++ match remote_branch_arg with
                | None => remote_branch (release_metadata s)
                | Some x => x
                end ++ "'")%string])
       (logged (EvActiveBranch r) s)).
Proof.
  intros Hq Hd Hb. unfold _push_release_commit.
  unfold bind at 1. unfold get_rm at 1. cbv zeta.
  rewrite (bind_returned _ _ _ _ _ (active_branch_quiet r s b Hq Hb)).
  unfold bind at 1. unfold print at 1. unfold modify at 1.
  set (s1 := set_stdout _ _).
  unfold unless_dry_run.
  change (dry_run (release_metadata s1)) with (dry_run (release_metadata s)).
  rewrite Hd. reflexivity.
Qed.

Lemma push_tag_dry (s : state) :
  dry_run (release_metadata s) = true ->
  _push_release_tag s
  = (Returned tt,
     set_stdout
       (stdout s
        ++ [("Pushing tag '" ++ py_str (new_version (release_metadata s))
             ++ "' to remote '" ++ remote_name (release_metadata s) ++ "'")%string])
       s).
Proof.
  intros Hd. unfold _push_release_tag.
  unfold bind at 1. unfold get_rm at 1.
  unfold bind at 1. unfold print at 1. unfold modify at 1.
  set (s1 := set_stdout _ _).
  unfold unless_dry_run.
  change (dry_run (release_metadata s1)) with (dry_run (release_metadata s)).
  rewrite Hd. reflexivity.
Qed.

Lemma github_release_dry (s : state) :
  dry_run (release_metadata s) = true ->
  _create_github_release s
  = (Returned tt, set_stdout (stdout s ++ ["Creating GitHub release"]) s).
Proof.
  intros Hd. unfold _create_github_release.
  unfold bind at 1. unfold print at 1. unfold modify at 1.
  set (s1 := set_stdout _ _).
  unfold unless_dry_run.
  change (dry_run (release_metadata s1)) with (dry_run (release_metadata s)).
  rewrite Hd. reflexivity.
Qed.

(** X18. A dry run that goes through. In a quiet world, on a dry run
    that is not interactive, when the checks for local changes pass, the
    next version is computed and is not yet a tag, and the changelog
    begins with a hash header whose title is not released, the run
    returns, and it has printed the very lines that the release itself
    prints when it goes through. Outside it has only asked questions;
    inside, the new version and the release notes are assigned to the
    metadata and the new version to the configuration in memory. *)
Theorem dry_run_announces_the_release (ext : externals) (s : state)
  (b bp : string) (ver ver' : Version ext) (title rest notes : string) :
  let rm := release_metadata s in
  let v := Version_str ext ver' in
  quiet s ->
  dry_run rm = true ->
  interactive rm = false ->
  force rm = true \/ status_porcelain (main_repo s) = "" ->
  status_porcelain (pages_repo s) = "" ->
  branch (main_repo s) = Some b ->
  branch (pages_repo s) = Some bp ->
  Version_parse ext (current_version rm) = Some ver ->
  Version_increment ext ver (release_type rm) (prerelease rm) = inr ver' ->
  v <> "" ->
  mem v (tags (main_repo s)) = false ->
  title <> "" ->
  contains_char LF title = false ->
  mem title (released_versions rm) = false ->
  lookup CHANGELOG_FILEPATH (files s) = Some ("# " ++ title ++ newline ++ rest) ->
  find_section ext ("# " ++ title ++ newline ++ rest)
  = ("# " ++ title ++ newline, notes) ->
  exists s',
    run_release ext s = (Returned tt, s')
    /\ stdout s' = (stdout s ++ announcements rm b bp title v)%list
    /\ untouched s s'
    /\ new_version (release_metadata s') = Some v
    /\ new_version_release_notes (release_metadata s') = strip notes
    /\ PLUGIN_VERSION s' = Some v.
Proof.
  intros rm v Hq Hd Hint Hmain Hpages Hb Hbp Hp Hi Hne Hmem Htne Htl Hrel Hdoc Hfind.
  destruct (preflight_quiet ext s b ver ver' Hq Hmain Hpages Hb Hp Hi)
    as (T0 & C0 & E0).
  fold v in E0. fold rm in E0.
  set (sA := set_release_metadata (with_new_version (Some v) rm) _) in E0.
  assert (HqA : quiet sA) by exact Hq.
  pose proof (tag_check_quiet sA v HqA eq_refl Hne) as EB.
  change (main_repo sA) with (main_repo s) in EB. rewrite Hmem in EB.
  set (sB := set_main_repo (main_repo s)
               (logged (EvGit MainRepo (TagList (Some v))) sA)) in *.
  assert (HqB : quiet sB) by exact Hq.
  pose proof (changelog_step_dry ext sB title rest notes HqB Hd Htne Htl Hrel Hdoc Hfind)
    as EC.
  set (sC := set_stdout _ _) in EC.
  assert (HqC : quiet sC) by exact Hq.
  pose proof (config_step_dry sC Hd) as ED.
  set (sD := set_stdout _ _) in ED.
  assert (HqD : quiet sD) by exact Hq.
  pose proof (commit_step_dry MainRepo sD b HqD Hd Hb) as EE.
  set (sE := set_stdout _ _) in EE.
  assert (HqE : quiet sE) by exact Hq.
  pose proof (tag_step_dry sE Hd) as EF.
  set (sF := set_stdout _ _) in EF.
  assert (HqF : quiet sF) by exact Hq.
  pose proof (pages_step_dry sF bp HqF Hd Hbp) as EG.
  set (sG := set_stdout _ _) in EG.
  assert (HqG : quiet sG) by exact Hq.
  pose proof (commit_step_dry PagesRepo sG bp HqG Hd Hbp) as EH.
  set (sH := set_stdout _ _) in EH.
  assert (HqH : quiet sH) by exact Hq.
  pose proof (installers_step_dry sH Hd) as EI.
  set (sI := set_stdout _ _) in EI.
  assert (HqI : quiet sI) by exact Hq.
  pose proof (push_commit_dry MainRepo None sI b HqI Hd Hb) as EJ.
  set (sJ := set_stdout _ _) in EJ.
  assert (HqJ : quiet sJ) by exact Hq.
  pose proof (push_tag_dry sJ Hd) as EK.
  set (sK := set_stdout _ _) in EK.
  assert (HqK : quiet sK) by exact Hq.
  pose proof (active_branch_quiet PagesRepo sK bp HqK Hbp) as EL.
  set (sL := logged (EvActiveBranch PagesRepo) sK) in EL.
  assert (HqL : quiet sL) by exact Hq.
  pose proof (push_commit_dry PagesRepo (Some bp) sL bp HqL Hd Hbp) as EM.
  set (sM := set_stdout _ _) in EM.
  pose proof (github_release_dry sM Hd) as EN.
  set (sN := set_stdout _ _) in EN.
  assert (E : run_release ext s = (Returned tt, sN)).
  { unfold run_release, under_sigint_handler, except_Exception, _make_release.
    rewrite E0. rewrite (bind_returned _ _ _ _ _ EB).
    unfold bind at 1. unfold get_rm at 1.
    change (interactive (release_metadata sB)) with (interactive rm). rewrite Hint.
    unfold bind at 1. unfold ret at 1.
    rewrite (bind_returned _ _ _ _ _ EC).
    rewrite (bind_returned _ _ _ _ _ ED).
    rewrite (bind_returned _ _ _ _ _ EE).
    rewrite (bind_returned _ _ _ _ _ EF).
    rewrite (bind_returned _ _ _ _ _ EG).
    rewrite (bind_returned _ _ _ _ _ EH).
    rewrite (bind_returned _ _ _ _ _ EI).
    rewrite (bind_returned _ _ _ _ _ EJ).
    rewrite (bind_returned _ _ _ _ _ EK).
    rewrite (bind_returned _ _ _ _ _ EL).
    rewrite (bind_returned _ _ _ _ _ EM).
    rewrite EN. reflexivity. }
  exists sN. split; [exact E |].
  split.
  { unfold announcements.
    peel sN; peel sM; peel sL; peel sK; peel sJ; peel sI; peel sH; peel sG; peel sF;
      peel sE; peel sD; peel sC; peel sB; peel sA.
    rewrite <- !app_assoc. reflexivity. }
  split.
  { destruct (dry_run_release ext s Hd) as [_ U]. rewrite E in U. exact U. }
  repeat split.
Qed.

Lemma dry_run_announces_the_release_witness :
  exists s',
    run_release Model.ext Runs.dry_state = (Returned tt, s')
    /\ untouched Runs.dry_state s'
    /\ PLUGIN_VERSION s' = Some "1.3.0".
Proof.
  destruct (dry_run_announces_the_release Model.ext Runs.dry_state "master" "gh-pages"
              (Model.mkVersion 1 2 (Some 0) None None)
              (Model.mkVersion 1 3 (Some 0) None None)
              "Unreleased"
              ("* a fix" ++ newline ++ "# 1.2.0" ++ newline ++ "* older" ++ newline)
              ("* a fix" ++ newline))
    as (s' & E & _ & U & _ & _ & P).
  - split; reflexivity.
  - reflexivity.
  - reflexivity.
  - right. reflexivity.
  - reflexivity.
  - reflexivity.
  - reflexivity.
  - reflexivity.
  - reflexivity.
  - intros H. vm_compute in H. discriminate H.
  - reflexivity.
  - discriminate.
  - reflexivity.
  - reflexivity.
  - reflexivity.
  - reflexivity.
  - exists s'. split; [exact E |]. split; [exact U | exact P].
Defined.

(** ** A signal before the handler is installed *)

Lemma bind_interrupted {A B : Type} (m : M A) (k : A -> M B) (s s1 : state) :
  m s = (Interrupted, s1) -> bind m k s = (Interrupted, s1).
Proof. intros H. unfold bind. now rewrite H. Qed.

Lemma git_interrupted (r : repo_id) (c : git_cmd) (s : state) :
  sigint_due s = true -> git r c s = (Interrupted, s).
Proof. intros H. unfold git, outside. now rewrite H. Qed.

(** X19. The handler of the signal is installed after the metadata is
    built. A signal that comes earlier, during one of the three queries
    of the construction, ends the script as an interrupt: the handler
    does not run, nothing is printed on the error stream, no rollback is
    attempted, and the script has only asked questions. *)
Theorem early_interrupt_skips_the_rollback (ext : externals) (kwargs : options)
  (s : state) (n : nat) :
  faults s = [] ->
  sigint_at s = Some n ->
  (clock s <= n < clock s + 3)%nat ->
  let r := make_release ext kwargs s in
  fst r = Interrupted
  /\ untouched s (snd r)
  /\ stderr (snd r) = stderr s
  /\ rollback_attempted (snd r) = rollback_attempted s.
Proof.
  intros Hf Hs Hn.
  assert (Hfault : forall st, faults st = [] -> fault_due st = false).
  { intros st H. unfold fault_due. now rewrite H. }
  assert (Hdue : forall st, sigint_at st = Some n ->
                            sigint_due st = Nat.eqb n (clock st)).
  { intros st H. unfold sigint_due. now rewrite H. }
  assert (E : exists evs sf,
             forallb is_query evs = true
             /\ existsb is_tag_delete evs = false
             /\ make_release ext kwargs s = (Interrupted, sf)
             /\ main_repo sf = main_repo s /\ pages_repo sf = pages_repo s
             /\ files sf = files s /\ dirs sf = dirs s
             /\ stderr sf = stderr s
             /\ trace sf = (trace s ++ evs)%list).
  { unfold make_release. unfold bind at 1.
    destruct (Nat.eqb n (clock s)) eqn:E0.
    { exists [], s. split; [reflexivity |]. split; [reflexivity |]. split.
      - apply bind_interrupted. apply git_interrupted. now rewrite (Hdue s Hs).
      - repeat split. now rewrite app_nil_r. }
    assert (N0 : sigint_due s = false) by now rewrite (Hdue s Hs).
    rewrite (bind_returned _ _ _ _ _
               (git_query_not_due MainRepo (TagList None) s _ N0 (Hfault s Hf) eq_refl)).
    set (s1 := set_repo MainRepo (get_repo MainRepo s)
                 (logged (EvGit MainRepo (TagList None)) s)).
    assert (Hs1 : sigint_at s1 = Some n) by exact Hs.
    destruct (Nat.eqb n (clock s1)) eqn:E1.
    { exists [EvGit MainRepo (TagList None)], s1.
      split; [reflexivity |]. split; [reflexivity |]. split.
      - apply bind_interrupted. apply git_interrupted. now rewrite (Hdue s1 Hs1).
      - repeat split. }
    assert (N1 : sigint_due s1 = false) by now rewrite (Hdue s1 Hs1).
    assert (Hf1 : faults s1 = []) by exact Hf.
    rewrite (bind_returned _ _ _ _ _
               (git_query_not_due MainRepo RevParseHead s1 _ N1 (Hfault s1 Hf1) eq_refl)).
    set (s2 := set_repo MainRepo (get_repo MainRepo s1)
                 (logged (EvGit MainRepo RevParseHead) s1)).
    assert (Hs2 : sigint_at s2 = Some n) by exact Hs.
    assert (E2 : Nat.eqb n (clock s2) = true).
    { apply Nat.eqb_eq. apply Nat.eqb_neq in E0, E1.
      change (clock s1) with (S (clock s)) in E1.
      change (clock s2) with (S (S (clock s))). lia. }
    exists [EvGit MainRepo (TagList None); EvGit MainRepo RevParseHead], s2.
    split; [reflexivity |]. split; [reflexivity |]. split.
    - apply bind_interrupted. apply git_interrupted. now rewrite (Hdue s2 Hs2).
    - repeat split. change (trace s2)
        with ((trace s ++ [EvGit MainRepo (TagList None)])
              ++ [EvGit MainRepo RevParseHead])%list.
      now rewrite <- app_assoc. }
  destruct E as (evs & sf & Q & D & E & M1 & P1 & F1 & D1 & S1 & T1).
  cbv zeta. rewrite E. cbn [fst snd].
  split; [reflexivity |]. split.
  - apply (untouched_after_queries _ _ evs); assumption.
  - split; [exact S1 |].
    unfold rollback_attempted. rewrite T1, existsb_app, D. apply orb_false_r.
Qed.

Lemma early_interrupt_skips_the_rollback_witness :
  let s := mkState Model.base_metadata (Some "1.2.0") "January 01, 2019"
             (main_repo Model.base_state) (pages_repo Model.base_state)
             (files Model.base_state) (dirs Model.base_state) [] [] []
             (replies Model.base_state) (built Model.base_state)
             "November 04, 2026" [] 0 [] (Some 1) in
  let r := make_release Model.ext
             (mkOptions "minor" "token" false ["all"] false None
                "origin" "master" false) s in
  fst r = Interrupted /\ stderr (snd r) = [].
Proof.
  cbv zeta.
  destruct (early_interrupt_skips_the_rollback Model.ext
              (mkOptions "minor" "token" false ["all"] false None
                 "origin" "master" false)
              (mkState Model.base_metadata (Some "1.2.0") "January 01, 2019"
                 (main_repo Model.base_state) (pages_repo Model.base_state)
                 (files Model.base_state) (dirs Model.base_state) [] [] []
                 (replies Model.base_state) (built Model.base_state)
                 "November 04, 2026" [] 0 [] (Some 1))
              1 eq_refl eq_refl)
    as (H1 & _ & H2 & _).
  - simpl. lia.
  - split; [exact H1 | exact H2].
Defined.
